(** * Taskops chat backend: conversation store, tool validation, tool
      executor and the agentic orchestration loop

    A shallow embedding of
      - [backend/app/chat/mcp_server/validators.py]
      - [backend/app/chat/tools/registry.py]
      - [backend/app/chat/tools/executor.py]
      - [backend/app/chat/repositories/conversation_repository.py]
      - [backend/app/chat/services/conversation_service.py]
      - [backend/app/chat/services/chat_service.py]
      - [backend/app/chat/agent/error_handler.py]

    Python values are an inductive type, exceptions are values of an error
    monad, and everything the code reads from its surroundings (the clock,
    [uuid4], the database engine's faults, the completion service) is an
    oracle of the environment, consumed through counters of the world
    state.  Functions of Python's standard library that the code calls
    ([json.loads], [datetime.fromisoformat], [uuid.UUID], [str], [int] on
    text and floats) are fields of the [PyRuntime] interface. *)

From Stdlib Require Import ZArith List String Ascii Bool Arith Lia Sorted.
Import ListNotations.

Set Warnings "-register-all".

Local Open Scope string_scope.
Local Open Scope list_scope.

Infix "+++" := String.append (at level 60, right associativity).

(* ===================================================================== *)
(** ** Python strings *)
(* ===================================================================== *)

Module PyStr.

(** A Python [str] is modelled by its code points below 256; [len] is
    [String.length]. *)

(** [str.isspace] on one code point below 256: TAB..CR, FS..US, SPACE,
    NEL and NBSP. *)
Definition is_space (c : ascii) : bool :=
  let n := nat_of_ascii c in
  (((9 <=? n) && (n <=? 13)) || ((28 <=? n) && (n <=? 32))
   || (n =? 133) || (n =? 160))%nat.

Definition is_empty (s : string) : bool :=
  match s with EmptyString => true | String _ _ => false end.

Fixpoint lstrip (s : string) : string :=
  match s with
  | EmptyString => EmptyString
  | String c r => if is_space c then lstrip r else s
  end.

Fixpoint rstrip (s : string) : string :=
  match s with
  | EmptyString => EmptyString
  | String c r =>
      let r' := rstrip r in
      if is_space c && is_empty r' then EmptyString else String c r'
  end.

(** [s.strip()] *)
Definition strip (s : string) : string := rstrip (lstrip s).

(** [s.replace("Z", "+00:00")] *)
Fixpoint replace_Z (s : string) : string :=
  match s with
  | EmptyString => EmptyString
  | String c r =>
      if Ascii.eqb c "Z"%char then "+00:00" +++ replace_Z r
      else String c (replace_Z r)
  end.

(** [s.lower()], on the ASCII letters. *)
Definition lower_char (c : ascii) : ascii :=
  let n := nat_of_ascii c in
  if ((65 <=? n) && (n <=? 90))%nat then ascii_of_nat (n + 32) else c.

Fixpoint lower (s : string) : string :=
  match s with
  | EmptyString => EmptyString
  | String c r => String (lower_char c) (lower r)
  end.

(** [sub in s] *)
Fixpoint contains (sub s : string) : bool :=
  String.prefix sub s ||
  match s with
  | EmptyString => false
  | String _ r => contains sub r
  end.

(** ["x" * n] *)
Fixpoint repeat_char (c : ascii) (n : nat) : string :=
  match n with
  | O => EmptyString
  | S k => String c (repeat_char c k)
  end.

(** [s.strip(chars)]: characters of [chars] are taken off both ends. *)
Definition among (chars : string) (c : ascii) : bool :=
  existsb (Ascii.eqb c) (list_ascii_of_string chars).

Fixpoint lstrip_chars (chars s : string) : string :=
  match s with
  | EmptyString => EmptyString
  | String c r => if among chars c then lstrip_chars chars r else s
  end.

Fixpoint rstrip_chars (chars s : string) : string :=
  match s with
  | EmptyString => EmptyString
  | String c r =>
      let r' := rstrip_chars chars r in
      if among chars c && is_empty r' then EmptyString else String c r'
  end.

Definition strip_chars (chars s : string) : string :=
  rstrip_chars chars (lstrip_chars chars s).

(** [repr(s)]: the text in single quotes, or in double quotes when it
    holds a single quote and no double quote; the quote in use and the
    backslash are escaped, TAB, LF and CR are written [\t], [\n] and
    [\r], and the other code points that are not printable (the
    controls, DEL, 128..160 and the soft hyphen) as [\xhh]. *)
Definition double_quote : ascii := ascii_of_nat 34.

Definition is_printable (c : ascii) : bool :=
  let n := nat_of_ascii c in
  (((32 <=? n) && (n <=? 126)) || ((161 <=? n) && negb (n =? 173)))%nat.

Definition hex_digit (n : nat) : ascii :=
  ascii_of_nat (if (n <? 10)%nat then 48 + n else 87 + n).

Definition repr_char (quote c : ascii) : string :=
  let n := nat_of_ascii c in
  if Ascii.eqb c quote || Ascii.eqb c "\"%char then
    String "\"%char (String c EmptyString)
  else if (n =? 9)%nat then "\t"
  else if (n =? 10)%nat then "\n"
  else if (n =? 13)%nat then "\r"
  else if is_printable c then String c EmptyString
  else String "\"%char
         (String "x"%char
            (String (hex_digit (n / 16))
               (String (hex_digit (n mod 16)) EmptyString))).

Definition repr_quote (s : string) : ascii :=
  let chars := list_ascii_of_string s in
  if existsb (Ascii.eqb "'"%char) chars
     && negb (existsb (Ascii.eqb double_quote) chars)
  then double_quote else "'"%char.

Definition py_repr (s : string) : string :=
  let quote := repr_quote s in
  String quote
    (String.concat "" (map (repr_char quote) (list_ascii_of_string s))
     +++ String quote EmptyString).

End PyStr.

(* ===================================================================== *)
(** ** Python values and exceptions *)
(* ===================================================================== *)

(** The two value types of Python that are not modelled bit for bit. *)
Class PyTypes : Type := {
  pyfloat : Type;
  datetime : Type
}.

Section Values.
Context {T : PyTypes}.

(** What [json.loads] can return, and the [datetime] objects the
    validators put into their output.  A [dict] keeps insertion order;
    lookup takes the first binding of a key. *)
Inductive pyval : Type :=
| VNone
| VBool (b : bool)
| VInt (z : Z)
| VFloat (f : pyfloat)
| VStr (s : string)
| VDateTime (d : datetime)
| VList (l : list pyval)
| VDict (d : list (string * pyval)).

Definition pydict : Type := list (string * pyval).

(** [d.get(k)] as an option, [k in d], [d.get(k, default)], [d[k] = v] *)
Fixpoint dict_find (k : string) (d : pydict) : option pyval :=
  match d with
  | [] => None
  | (k', v) :: r => if String.eqb k k' then Some v else dict_find k r
  end.

Definition dict_has (k : string) (d : pydict) : bool :=
  match dict_find k d with Some _ => true | None => false end.

Definition dict_get (k : string) (default : pyval) (d : pydict) : pyval :=
  match dict_find k d with Some v => v | None => default end.

Fixpoint dict_set (k : string) (v : pyval) (d : pydict) : pydict :=
  match d with
  | [] => [(k, v)]
  | (k', v') :: r =>
      if String.eqb k k' then (k, v) :: r else (k', v') :: dict_set k v r
  end.

(** [v in ("a", "b", ...)]: equality with one of the listed strings. *)
Definition in_strs (v : pyval) (l : list string) : bool :=
  match v with
  | VStr s => existsb (String.eqb s) l
  | _ => false
  end.

(** [type(v).__name__] *)
Definition type_name (v : pyval) : string :=
  match v with
  | VNone => "NoneType"
  | VBool _ => "bool"
  | VInt _ => "int"
  | VFloat _ => "float"
  | VStr _ => "str"
  | VDateTime _ => "datetime.datetime"
  | VList _ => "list"
  | VDict _ => "dict"
  end.

End Values.

(** Exception classes the code raises, catches or tells apart. *)
Inductive exn_class : Type :=
| ValidationError        (* mcp_server.validators.ValidationError *)
| ToolValidationError    (* tools.executor.ToolValidationError *)
| ToolNotFoundError      (* tools.executor.ToolNotFoundError *)
| ValueError
| AttributeError
| TypeError
| KeyError
| OverflowError
| RuntimeError
| SQLAlchemyError
| MultipleResultsFound
| APITimeoutError        (* what the client raises when a request times out *)
| RateLimitError
| PermissionDeniedError  (* an API error with [status_code == 403] *)
| APIError.

Definition exn_class_eqb (a b : exn_class) : bool :=
  match a, b with
  | ValidationError, ValidationError
  | ToolValidationError, ToolValidationError
  | ToolNotFoundError, ToolNotFoundError
  | ValueError, ValueError
  | AttributeError, AttributeError
  | TypeError, TypeError
  | KeyError, KeyError
  | OverflowError, OverflowError
  | RuntimeError, RuntimeError
  | SQLAlchemyError, SQLAlchemyError
  | MultipleResultsFound, MultipleResultsFound
  | APITimeoutError, APITimeoutError
  | RateLimitError, RateLimitError
  | PermissionDeniedError, PermissionDeniedError
  | APIError, APIError => true
  | _, _ => false
  end.

(** An exception: its class and [str(e)]. *)
Record exn : Type := mkExn { exn_cls : exn_class; exn_str : string }.

(** [isinstance(e, (c1, c2, ...))] for the classes above; the
    time-out, rate-limit and permission errors are also [APIError]s. *)
Definition is_instance (e : exn) (cs : list exn_class) : bool :=
  existsb
    (fun c => exn_class_eqb (exn_cls e) c
              || (exn_class_eqb c APIError
                  && (exn_class_eqb (exn_cls e) APITimeoutError
                      || exn_class_eqb (exn_cls e) RateLimitError
                      || exn_class_eqb (exn_cls e) PermissionDeniedError)))
    cs.

(** Outcome of a Python expression: a value or a raised exception. *)
Inductive result (A : Type) : Type :=
| Ok (a : A)
| Raise (e : exn).
Arguments Ok {A} a.
Arguments Raise {A} e.

Module Res.

Definition bind {A B} (m : result A) (k : A -> result B) : result B :=
  match m with
  | Ok a => k a
  | Raise e => Raise e
  end.

(** [try: m  except (cs): handler(e)] *)
Definition catch {A} (m : result A) (cs : list exn_class)
    (handler : exn -> result A) : result A :=
  match m with
  | Ok a => Ok a
  | Raise e => if is_instance e cs then handler e else Raise e
  end.

Definition throw {A} (c : exn_class) (msg : string) : result A :=
  Raise (mkExn c msg).

Definition is_ok {A} (m : result A) : bool :=
  match m with Ok _ => true | Raise _ => false end.

End Res.

Declare Scope res_scope.
Delimit Scope res_scope with res.
Notation "x <- m ;; k" := (Res.bind m (fun x => k))
  (at level 61, m at next level, right associativity) : res_scope.
Notation "m ;;; k" := (Res.bind m (fun _ => k))
  (at level 61, right associativity) : res_scope.

(** The functions of Python's runtime and standard library that the code
    calls. *)
Class PyRuntime {T : PyTypes} : Type := {
  (** [bool(f)] and [int(f)] of a float *)
  float_truthy : pyfloat -> bool;
  float_to_int : pyfloat -> result Z;
  (** [int(s)] of a string; [None] is [ValueError] *)
  int_of_str : string -> option Z;
  (** [datetime.fromisoformat(s)]; [None] is [ValueError] *)
  fromisoformat : string -> option datetime;
  (** whether [uuid.UUID(s)] accepts the text *)
  uuid_ok : string -> bool;
  (** [str(v)], as f-strings and [str()] render a value *)
  py_str : pyval -> string;
  (** [json.loads(s)] and [json.dumps(v)] *)
  json_loads : string -> result pyval;
  json_dumps : pyval -> result string;
  (** [t.isoformat()] of a timestamp *)
  isoformat : Z -> string
}.

Section Truth.
Context {T : PyTypes} {R : PyRuntime}.

(** Truth value of a Python object ([if v:], [not v], [v or w]). *)
Definition truthy (v : pyval) : bool :=
  match v with
  | VNone => false
  | VBool b => b
  | VInt z => negb (z =? 0)%Z
  | VFloat f => float_truthy f
  | VStr s => negb (PyStr.is_empty s)
  | VDateTime _ => true
  | VList l => match l with [] => false | _ => true end
  | VDict d => match d with [] => false | _ => true end
  end.

Definition no_attribute (v : pyval) (attr : string) : exn :=
  mkExn AttributeError
    ("'" +++ type_name v +++ "' object has no attribute '" +++ attr +++ "'").

(** [v.strip()] *)
Definition py_strip (v : pyval) : result string :=
  match v with
  | VStr s => Ok (PyStr.strip s)
  | _ => Raise (no_attribute v "strip")
  end.

(** [v.replace("Z", "+00:00")]: text replacement on a [str]; a
    [datetime] has a [replace] of its own that refuses these arguments
    with [TypeError]; nothing else has the attribute. *)
Definition py_replace_Z (v : pyval) : result string :=
  match v with
  | VStr s => Ok (PyStr.replace_Z s)
  | VDateTime _ =>
      Raise (mkExn TypeError "'str' object cannot be interpreted as an integer")
  | _ => Raise (no_attribute v "replace")
  end.

(** [uuid.UUID(v)]: [None] is refused with [TypeError], text is parsed
    ([ValueError] when malformed), a [datetime] fails inside its own
    [replace], anything else has no [replace]. *)
Definition py_UUID (v : pyval) : result unit :=
  match v with
  | VNone =>
      Raise (mkExn TypeError
        "one of the hex, bytes, bytes_le, fields, or int arguments must be given")
  | VStr s =>
      if uuid_ok s then Ok tt
      else Raise (mkExn ValueError "badly formed hexadecimal UUID string")
  | VDateTime _ =>
      Raise (mkExn TypeError "'str' object cannot be interpreted as an integer")
  | _ => Raise (no_attribute v "replace")
  end.

(** [int(v)] *)
Definition py_int (v : pyval) : result Z :=
  match v with
  | VInt z => Ok z
  | VBool b => Ok (if b then 1 else 0)%Z
  | VFloat f => float_to_int f
  | VStr s =>
      match int_of_str s with
      | Some z => Ok z
      | None =>
          Raise (mkExn ValueError
            ("invalid literal for int() with base 10: " +++ py_str v))
      end
  | _ =>
      Raise (mkExn TypeError
        ("int() argument must be a string, a bytes-like object or a real number, not '"
         +++ type_name v +++ "'"))
  end.

(** [datetime.fromisoformat(v)] *)
Definition py_fromisoformat (v : pyval) : result datetime :=
  match v with
  | VStr s =>
      match fromisoformat s with
      | Some d => Ok d
      | None =>
          Raise (mkExn ValueError ("Invalid isoformat string: " +++ py_str v))
      end
  | _ => Raise (mkExn TypeError "fromisoformat: argument must be str")
  end.

End Truth.

(* ===================================================================== *)
(** ** Tool registry ([tools/registry.py]) *)
(* ===================================================================== *)

Module Registry.

(** The keys of [get_tool_schemas()], in the order of the source. *)
Definition get_tool_names : list string :=
  ["add_task"; "list_tasks"; "complete_task"; "delete_task"; "update_task"].

(** [tool_name in get_tool_schemas()] *)
Definition validate_tool_name (tool_name : string) : bool :=
  existsb (String.eqb tool_name) get_tool_names.

End Registry.

(* ===================================================================== *)
(** ** Tool input validation ([mcp_server/validators.py]) *)
(* ===================================================================== *)

Module Validators.
Section Validators.
Context {T : PyTypes} {R : PyRuntime}.
Local Open Scope res_scope.

(** [if cond: raise ValidationError(msg)] *)
Definition reject_if (cond : bool) (msg : string) : result unit :=
  if cond then Res.throw ValidationError msg else Ok tt.

(** [description or None] *)
Definition str_or_none (s : string) : pyval :=
  if PyStr.is_empty s then VNone else VStr s.

Definition priorities : list string := ["low"; "medium"; "high"].

(** The [try: datetime.fromisoformat(v.replace("Z", "+00:00"))
    except (ValueError, AttributeError): raise ValidationError(...)] block
    shared by [add_task] and [update_task]. *)
Definition parse_due_date (v : pyval) : result datetime :=
  Res.catch
    (s <- py_replace_Z v ;; py_fromisoformat (VStr s))
    [ValueError; AttributeError]
    (fun _ => Res.throw ValidationError "due_date must be valid ISO 8601 datetime").

Definition validate_add_task_input (tool_input : pydict) : result pydict :=
  reject_if (negb (dict_has "title" tool_input))
    "title is required for add_task" ;;;
  title <- py_strip (dict_get "title" (VStr "") tool_input) ;;
  reject_if (PyStr.is_empty title) "title cannot be empty" ;;;
  reject_if (200 <? String.length title)%nat
    "title must be <= 200 characters" ;;;
  description <-
    (if dict_has "description" tool_input
     then d <- py_strip (dict_get "description" (VStr "") tool_input) ;;
          Ok (Some d)
     else Ok None) ;;
  reject_if
    (match description with
     | Some d => negb (PyStr.is_empty d) && (1024 <? String.length d)%nat
     | None => false
     end)
    "description must be <= 1024 characters" ;;;
  let priority := dict_get "priority" (VStr "medium") tool_input in
  reject_if (negb (in_strs priority priorities))
    ("priority must be low/medium/high, got " +++ py_str priority) ;;;
  due_date <-
    (if dict_has "due_date" tool_input
     then d <- parse_due_date (dict_get "due_date" VNone tool_input) ;;
          Ok (VDateTime d)
     else Ok VNone) ;;
  Ok [ ("title", VStr title);
       ("description",
        match description with Some d => str_or_none d | None => VNone end);
       ("priority", priority);
       ("due_date", due_date) ].

(** The [try: x = int(x); range check  except (ValueError, TypeError)]
    blocks of [validate_list_tasks_input]: the range error is a
    [ValidationError] and passes through the [except] clause. *)
Definition checked_int (v : pyval) (out_of_range : Z -> bool)
    (range_msg type_msg : string) : result Z :=
  Res.catch
    (n <- py_int v ;;
     reject_if (out_of_range n) range_msg ;;;
     Ok n)
    [ValueError; TypeError]
    (fun _ => Res.throw ValidationError type_msg).

Definition validate_list_tasks_input (tool_input : pydict) : result pydict :=
  let status := dict_get "status" (VStr "all") tool_input in
  reject_if (negb (in_strs status ["pending"; "completed"; "all"]))
    ("status must be pending/completed/all, got " +++ py_str status) ;;;
  limit <- checked_int (dict_get "limit" (VInt 50) tool_input)
             (fun n => (n <? 1) || (100 <? n))%Z
             "limit must be 1-100" "limit must be integer" ;;
  offset <- checked_int (dict_get "offset" (VInt 0) tool_input)
              (fun n => n <? 0)%Z
              "offset must be >= 0" "offset must be non-negative integer" ;;
  Ok [ ("status", status); ("limit", VInt limit); ("offset", VInt offset) ].

(** [try: UUID(task_id)  except (ValueError, AttributeError, TypeError)] *)
Definition check_task_id (task_id : pyval) : result unit :=
  Res.catch (py_UUID task_id)
    [ValueError; AttributeError; TypeError]
    (fun _ => Res.throw ValidationError
                ("task_id must be valid UUID, got " +++ py_str task_id)).

Definition validate_complete_task_input (tool_input : pydict) : result pydict :=
  reject_if (negb (dict_has "task_id" tool_input))
    "task_id is required for complete_task" ;;;
  let task_id := dict_get "task_id" VNone tool_input in
  check_task_id task_id ;;;
  Ok [ ("task_id", task_id) ].

Definition validate_delete_task_input (tool_input : pydict) : result pydict :=
  reject_if (negb (dict_has "task_id" tool_input))
    "task_id is required for delete_task" ;;;
  let task_id := dict_get "task_id" VNone tool_input in
  check_task_id task_id ;;;
  Ok [ ("task_id", task_id) ].

Definition validate_update_task_input (tool_input : pydict) : result pydict :=
  reject_if (negb (dict_has "task_id" tool_input))
    "task_id is required for update_task" ;;;
  let task_id := dict_get "task_id" VNone tool_input in
  check_task_id task_id ;;;
  let result0 := [ ("task_id", task_id) ] in
  result1 <-
    (if dict_has "title" tool_input then
       title <- py_strip (dict_get "title" (VStr "") tool_input) ;;
       reject_if (PyStr.is_empty title) "title cannot be empty" ;;;
       reject_if (200 <? String.length title)%nat
         "title must be <= 200 characters" ;;;
       Ok (dict_set "title" (VStr title) result0)
     else Ok result0) ;;
  result2 <-
    (if dict_has "description" tool_input then
       description <- py_strip (dict_get "description" (VStr "") tool_input) ;;
       reject_if (negb (PyStr.is_empty description)
                  && (1024 <? String.length description)%nat)
         "description must be <= 1024 characters" ;;;
       Ok (dict_set "description" (str_or_none description) result1)
     else Ok result1) ;;
  result3 <-
    (if dict_has "priority" tool_input then
       let priority := dict_get "priority" VNone tool_input in
       reject_if (negb (in_strs priority priorities))
         ("priority must be low/medium/high, got " +++ py_str priority) ;;;
       Ok (dict_set "priority" priority result2)
     else Ok result2) ;;
  (if dict_has "due_date" tool_input then
     due_date <- parse_due_date (dict_get "due_date" VNone tool_input) ;;
     Ok (dict_set "due_date" (VDateTime due_date) result3)
   else Ok result3).

(** [_VALIDATORS] and [validate_tool_input].  [str] of a [KeyError] is
    the [repr] of its message. *)
Definition _VALIDATORS (tool_name : string)
    : option (pydict -> result pydict) :=
  if String.eqb tool_name "add_task" then Some validate_add_task_input
  else if String.eqb tool_name "list_tasks" then Some validate_list_tasks_input
  else if String.eqb tool_name "complete_task" then Some validate_complete_task_input
  else if String.eqb tool_name "delete_task" then Some validate_delete_task_input
  else if String.eqb tool_name "update_task" then Some validate_update_task_input
  else None.

Definition validate_tool_input (tool_name : string) (tool_input : pydict)
    : result pydict :=
  match _VALIDATORS tool_name with
  | None => Res.throw KeyError (PyStr.py_repr ("Unknown tool: " +++ tool_name))
  | Some validator => validator tool_input
  end.

End Validators.
End Validators.

(* ===================================================================== *)
(** ** The world: database, session, clock, identifiers, services *)
(* ===================================================================== *)

(** Rows of the [conversations] and [messages] tables
    ([models/conversation.py], [models/message.py]).  Identifiers are the
    text of their UUID, timestamps are microseconds. *)
Record Conversation : Type := mkConversation {
  conv_id : string;
  conv_user_id : string;
  conv_title : string;
  conv_created_at : Z;
  conv_updated_at : Z
}.

Record Message {T : PyTypes} : Type := mkMessage {
  msg_id : string;
  msg_conversation_id : string;
  msg_user_id : string;
  msg_role : string;
  msg_content : string;
  msg_tool_calls : pyval;
  msg_tokens_used : option Z;
  msg_created_at : Z
}.
Arguments mkMessage {T}.

(** The two tables, rows in insertion order. *)
Record DB {T : PyTypes} : Type := mkDB {
  conversations : list Conversation;
  messages : list Message
}.
Arguments mkDB {T}.

(** One requested tool call of a completion response
    ([tool_call.id], [tool_call.function.name],
    [tool_call.function.arguments]). *)
Record tool_call {T : PyTypes} : Type := mkToolCall {
  tc_id : string;
  tc_name : string;
  tc_arguments : pyval
}.
Arguments mkToolCall {T}.

(** [response.choices[0].message] of the completion service. *)
Record llm_message {T : PyTypes} : Type := mkLlmMessage {
  llm_content : option string;
  llm_tool_calls : option (list tool_call)
}.
Arguments mkLlmMessage {T}.

(** Messages in the completion service's format, as the loop builds
    them. *)
Inductive agent_msg {T : PyTypes} : Type :=
| RoleContent (role content : string)
| AssistantToolCalls (content : string) (calls : list tool_call)
| ToolResult (tool_call_id content : string).

(** [agent_config] of [AgentFactory.create_agent]: the system prompt and
    the client, whose n-th call answers the messages it is sent. *)
Record agent_config {T : PyTypes} : Type := mkAgentConfig {
  system_prompt : string;
  client : nat -> list agent_msg -> result llm_message
}.
Arguments mkAgentConfig {T}.

(** What the observable effects of a run are recorded as. *)
Inductive event : Type :=
| EvCompletion                      (* one call of the completion service *)
| EvExecute (tool_name : string).   (* one call of [ToolExecutor.execute] *)

(** The surroundings of a request. *)
Record Env {T : PyTypes} : Type := mkEnv {
  (** [datetime.utcnow()] at its n-th reading *)
  utcnow_at : nat -> Z;
  (** [str(uuid4())] at its n-th drawing *)
  uuid4_at : nat -> string;
  (** the n-th round trip to the database: [Some msg] when it raises *)
  db_fault : nat -> option string;
  (** [get_agent_factory().create_agent(user_context)], [None] while the
      factory is not initialised *)
  agent_factory : option (string -> string -> nat -> agent_config)
}.
Arguments mkEnv {T}.

Record World {T : PyTypes} : Type := mkWorld {
  (** committed state of the database *)
  committed : DB;
  (** state inside the session's open transaction *)
  session : DB;
  clock_reads : nat;
  uuids_drawn : nat;
  db_trips : nat;
  completions : nat;
  trace : list event
}.
Arguments mkWorld {T}.

(** Effectful code: reads the environment, transforms the world, returns
    or raises; the world reached when an exception is raised is kept. *)
Definition M {T : PyTypes} (A : Type) : Type :=
  Env -> World -> result A * World.

Module Eff.
Section Eff.
Context {T : PyTypes}.

Definition ret {A} (a : A) : M A := fun _ w => (Ok a, w).

Definition bind {A B} (m : M A) (k : A -> M B) : M B :=
  fun env w =>
    match m env w with
    | (Ok a, w') => k a env w'
    | (Raise e, w') => (Raise e, w')
    end.

Definition raise {A} (e : exn) : M A := fun _ w => (Raise e, w).

Definition throw {A} (c : exn_class) (msg : string) : M A :=
  raise (mkExn c msg).

(** a pure outcome, lifted *)
Definition lift {A} (r : result A) : M A := fun _ w => (r, w).

(** [try: m  except Exception as e: handler(e)] *)
Definition try_except {A} (m : M A) (handler : exn -> M A) : M A :=
  fun env w =>
    match m env w with
    | (Ok a, w') => (Ok a, w')
    | (Raise e, w') => handler e env w'
    end.

Definition ask : M Env := fun env w => (Ok env, w).
Definition get : M World := fun _ w => (Ok w, w).

End Eff.
End Eff.

Declare Scope eff_scope.
Delimit Scope eff_scope with eff.
Notation "x <- m ;; k" := (Eff.bind m (fun x => k))
  (at level 61, m at next level, right associativity) : eff_scope.
Notation "m ;;; k" := (Eff.bind m (fun _ => k))
  (at level 61, right associativity) : eff_scope.

Section Primitives.
Context {T : PyTypes}.
Local Open Scope eff_scope.

(** [datetime.utcnow()] *)
Definition utcnow : M Z :=
  fun env w =>
    (Ok (utcnow_at env (clock_reads w)),
     mkWorld (committed w) (session w) (S (clock_reads w)) (uuids_drawn w)
       (db_trips w) (completions w) (trace w)).

(** [str(uuid4())] *)
Definition uuid4 : M string :=
  fun env w =>
    (Ok (uuid4_at env (uuids_drawn w)),
     mkWorld (committed w) (session w) (clock_reads w) (S (uuids_drawn w))
       (db_trips w) (completions w) (trace w)).

Definition log (e : event) : M unit :=
  fun _ w =>
    (Ok tt,
     mkWorld (committed w) (session w) (clock_reads w) (uuids_drawn w)
       (db_trips w) (completions w) (trace w ++ [e])).

(** One round trip to the database; it raises when the engine does. *)
Definition db_trip : M unit :=
  fun env w =>
    let w' := mkWorld (committed w) (session w) (clock_reads w) (uuids_drawn w)
                (S (db_trips w)) (completions w) (trace w) in
    match db_fault env (db_trips w) with
    | Some msg => (Raise (mkExn SQLAlchemyError msg), w')
    | None => (Ok tt, w')
    end.

Definition set_session (d : DB) : M unit :=
  fun _ w =>
    (Ok tt,
     mkWorld (committed w) d (clock_reads w) (uuids_drawn w)
       (db_trips w) (completions w) (trace w)).

(** [session.add(message)]: the new row is pending in the transaction. *)
Definition session_add_message (m : Message) : M unit :=
  w <- Eff.get ;;
  set_session (mkDB (conversations (session w)) (messages (session w) ++ [m])).

(** [session.add(conversation)] of a loaded row that was modified. *)
Definition session_add_conversation (c : Conversation) : M unit :=
  w <- Eff.get ;;
  set_session
    (mkDB (map (fun c' => if String.eqb (conv_id c') (conv_id c) then c else c')
               (conversations (session w)))
          (messages (session w))).

(** [await session.commit()]: the transaction becomes the committed
    state, unless the round trip fails. *)
Definition session_commit : M unit :=
  db_trip ;;;
  fun _ w =>
    (Ok tt,
     mkWorld (session w) (session w) (clock_reads w) (uuids_drawn w)
       (db_trips w) (completions w) (trace w)).

(** [await session.rollback()]: the transaction's changes are dropped. *)
Definition session_rollback : M unit :=
  fun _ w =>
    (Ok tt,
     mkWorld (committed w) (committed w) (clock_reads w) (uuids_drawn w)
       (db_trips w) (completions w) (trace w)).

(** [await session.refresh(obj)]: re-reads the row. *)
Definition session_refresh : M unit := db_trip.

End Primitives.

Section SessionWrites.
Context {T : PyTypes}.
Local Open Scope eff_scope.

(** [session.add(conversation)] of a row that is new: it is pending in
    the transaction. *)
Definition session_add_new_conversation (c : Conversation) : M unit :=
  w <- Eff.get ;;
  set_session (mkDB (conversations (session w) ++ [c]) (messages (session w))).

(** [await session.delete(conversation)]: the row leaves the
    transaction's view, and so do the messages that the relationship
    [Conversation.messages] ([cascade_delete=True]) cascades to. *)
Definition session_delete_conversation (c : Conversation) : M unit :=
  w <- Eff.get ;;
  set_session
    (mkDB (filter (fun c' => negb (String.eqb (conv_id c') (conv_id c)))
                  (conversations (session w)))
          (filter (fun m => negb (String.eqb (msg_conversation_id m) (conv_id c)))
                  (messages (session w)))).

(** [await session.flush()]: the pending changes are sent, inside the
    transaction. *)
Definition session_flush : M unit := db_trip.

End SessionWrites.

(* ===================================================================== *)
(** ** Conversation repository and service *)
(* ===================================================================== *)

Module ConversationRepository.
Section Repo.
Context {T : PyTypes}.
Local Open Scope eff_scope.

(** [result.scalar_one_or_none()] *)
Definition scalar_one_or_none {A} (rows : list A) : M (option A) :=
  match rows with
  | [] => Eff.ret None
  | [row] => Eff.ret (Some row)
  | _ => Eff.throw MultipleResultsFound
           "Multiple rows were found when one or none was required"
  end.

(** [get_by_id]: [SELECT ... WHERE id = :conversation_id AND user_id =
    :user_id], run inside the session's transaction. *)
Definition get_by_id (conversation_id user_id : string)
    : M (option Conversation) :=
  db_trip ;;;
  w <- Eff.get ;;
  scalar_one_or_none
    (filter (fun c => String.eqb (conv_id c) conversation_id
                      && String.eqb (conv_user_id c) user_id)
            (conversations (session w))).

(** [title or "New Conversation"] *)
Definition title_or_default (title : option string) : string :=
  match title with
  | Some s => if PyStr.is_empty s then "New Conversation" else s
  | None => "New Conversation"
  end.

(** [create]: [Conversation(user_id=..., title=...)] takes [id],
    [created_at] and [updated_at] from their default factories, the two
    timestamps from two readings of the clock. *)
Definition create (user_id : string) (title : option string)
    : M Conversation :=
  id <- uuid4 ;;
  created_at <- utcnow ;;
  updated_at <- utcnow ;;
  let conversation :=
    mkConversation id user_id (title_or_default title) created_at updated_at in
  session_add_new_conversation conversation ;;;
  session_flush ;;;
  Eff.ret conversation.

(** [ORDER BY updated_at DESC], rows of equal time in table order. *)
Fixpoint insert_by_updated_at (c : Conversation) (l : list Conversation)
    : list Conversation :=
  match l with
  | [] => [c]
  | x :: r =>
      if (conv_updated_at x <=? conv_updated_at c)%Z then c :: l
      else x :: insert_by_updated_at c r
  end.

Fixpoint order_by_updated_at_desc (l : list Conversation)
    : list Conversation :=
  match l with
  | [] => []
  | c :: r => insert_by_updated_at c (order_by_updated_at_desc r)
  end.

(** The query of [list_by_user]: [WHERE user_id = :user_id ORDER BY
    updated_at DESC LIMIT :limit OFFSET :offset]. *)
Definition select_conversations (d : DB) (user_id : string)
    (limit offset : nat) : list Conversation :=
  firstn limit
    (skipn offset
       (order_by_updated_at_desc
          (filter (fun c => String.eqb (conv_user_id c) user_id)
                  (conversations d)))).

(** [list_by_user] *)
Definition list_by_user (user_id : string) (limit offset : nat)
    : M (list Conversation) :=
  db_trip ;;;
  w <- Eff.get ;;
  Eff.ret (select_conversations (session w) user_id limit offset).

Definition retitle (c : Conversation) (title : string) : Conversation :=
  mkConversation (conv_id c) (conv_user_id c) title (conv_created_at c)
    (conv_updated_at c).

(** [update_title] *)
Definition update_title (conversation_id user_id title : string)
    : M (option Conversation) :=
  conversation <- get_by_id conversation_id user_id ;;
  match conversation with
  | None => Eff.ret None
  | Some c =>
      session_add_conversation (retitle c title) ;;;
      session_flush ;;;
      Eff.ret (Some (retitle c title))
  end.

(** [delete] *)
Definition delete (conversation_id user_id : string) : M bool :=
  conversation <- get_by_id conversation_id user_id ;;
  match conversation with
  | None => Eff.ret false
  | Some c =>
      session_delete_conversation c ;;;
      session_flush ;;;
      Eff.ret true
  end.

End Repo.
End ConversationRepository.

Module ConversationService.
Section Service.
Context {T : PyTypes}.
Local Open Scope eff_scope.

(** [ORDER BY created_at ASC], rows of equal time in table order. *)
Fixpoint insert_by_created_at (m : Message) (l : list Message)
    : list Message :=
  match l with
  | [] => [m]
  | x :: r =>
      if (msg_created_at m <=? msg_created_at x)%Z then m :: l
      else x :: insert_by_created_at m r
  end.

Fixpoint order_by_created_at (l : list Message) : list Message :=
  match l with
  | [] => []
  | m :: r => insert_by_created_at m (order_by_created_at r)
  end.

(** The query of [get_recent_messages]: the conversation's rows of this
    user, [ORDER BY created_at ASC LIMIT limit]. *)
Definition select_messages (d : DB) (conversation_id user_id : string)
    (limit : nat) : list Message :=
  firstn limit
    (order_by_created_at
       (filter (fun m => String.eqb (msg_conversation_id m) conversation_id
                         && String.eqb (msg_user_id m) user_id)
               (messages d))).

(** T025 [get_recent_messages]; any exception is logged and answered
    with the empty list. *)
Definition get_recent_messages (conversation_id user_id : string)
    (limit : nat) : M (list Message) :=
  Eff.try_except
    (conversation <- ConversationRepository.get_by_id conversation_id user_id ;;
     match conversation with
     | None => Eff.ret []
     | Some _ =>
         db_trip ;;;
         w <- Eff.get ;;
         Eff.ret (select_messages (session w) conversation_id user_id limit)
     end)
    (fun _ => Eff.ret []).

(** [Message(...)]: [id] and [created_at] come from their default
    factories. *)
Definition new_message (conversation_id user_id role content : string)
    (tool_calls : pyval) (tokens_used : option Z) : M Message :=
  id <- uuid4 ;;
  created_at <- utcnow ;;
  Eff.ret (mkMessage id conversation_id user_id role content tool_calls
             tokens_used created_at).

Definition touch (c : Conversation) (now : Z) : Conversation :=
  mkConversation (conv_id c) (conv_user_id c) (conv_title c)
    (conv_created_at c) now.

(** T026 [append_message] *)
Definition append_message (conversation_id user_id role content : string)
    (tool_calls : pyval) (tokens_used : option Z) : M Message :=
  if negb (existsb (String.eqb role) ["user"; "assistant"]) then
    Eff.throw ValueError
      ("Invalid role '" +++ role +++ "' - must be 'user' or 'assistant'")
  else
    Eff.try_except
      (message <- new_message conversation_id user_id role content
                    tool_calls tokens_used ;;
       session_add_message message ;;;
       conversation <- ConversationRepository.get_by_id conversation_id user_id ;;
       match conversation with
       | None =>
           session_rollback ;;;
           Eff.throw ValueError
             ("Conversation " +++ conversation_id
              +++ " not found or not owned by user")
       | Some c =>
           now <- utcnow ;;
           session_add_conversation (touch c now) ;;;
           session_commit ;;;
           session_refresh ;;;
           Eff.ret message
       end)
      (fun e =>
         if is_instance e [ValueError] then Eff.raise e
         else session_rollback ;;; Eff.raise e).

(** [get_conversation] *)
Definition get_conversation (conversation_id user_id : string)
    : M (option Conversation) :=
  ConversationRepository.get_by_id conversation_id user_id.

(** T024 [create_conversation] *)
Definition create_conversation (user_id : string) (title : option string)
    : M string :=
  Eff.try_except
    (conversation <- ConversationRepository.create user_id title ;;
     session_commit ;;;
     Eff.ret (conv_id conversation))
    (fun e => session_rollback ;;; Eff.raise e).

(** [get_user_conversations]; the repository's [offset] keeps its
    default, 0. *)
Definition get_user_conversations (user_id : string) (limit : nat)
    : M (list Conversation) :=
  ConversationRepository.list_by_user user_id limit 0.

(** [update_conversation_title] *)
Definition update_conversation_title (conversation_id user_id title : string)
    : M (option Conversation) :=
  Eff.try_except
    (conversation <-
       ConversationRepository.update_title conversation_id user_id title ;;
     session_commit ;;;
     Eff.ret conversation)
    (fun e => session_rollback ;;; Eff.raise e).

End Service.
End ConversationService.

(* ===================================================================== *)
(** ** Tool executor ([tools/executor.py]) *)
(* ===================================================================== *)

Module ToolExecutor.
Section Executor.
Context {T : PyTypes} {R : PyRuntime}.
Local Open Scope eff_scope.

(** [args.get(k, default)]; only a [dict] has the method. *)
Definition args_get (args : pyval) (k : string) (default : pyval) : M pyval :=
  match args with
  | VDict d => Eff.ret (dict_get k default d)
  | _ => Eff.raise (no_attribute args "get")
  end.

(** [if cond: raise ToolValidationError(msg)] *)
Definition reject_if (cond : bool) (msg : string) : M unit :=
  if cond then Eff.throw ToolValidationError msg else Eff.ret tt.

Definition priorities : list string := ["low"; "medium"; "high"].

(** [try: datetime.fromisoformat(v)  except ValueError: raise
    ToolValidationError(msg)] *)
Definition check_iso (v : pyval) (msg : string) : M unit :=
  Eff.lift
    (Res.catch (Res.bind (py_fromisoformat v) (fun _ => Ok tt))
       [ValueError]
       (fun _ => Res.throw ToolValidationError msg)).

(** [if not task_id: raise ...;  try: UUID(task_id)  except ValueError:
    raise ...], shared by the three handlers that take a [task_id]. *)
Definition check_task_id (task_id : pyval) : M unit :=
  reject_if (negb (truthy task_id)) "task_id is required" ;;;
  Eff.lift
    (Res.catch (py_UUID task_id)
       [ValueError]
       (fun _ => Res.throw ToolValidationError "task_id must be a valid UUID")).

Definition _execute_add_task (args : pyval) (user_id : string) : M pyval :=
  t <- args_get args "title" VNone ;;
  reject_if
    (match t with
     | VStr s => PyStr.is_empty (PyStr.strip s)
     | _ => true
     end)
    "title is required and must be a non-empty string" ;;;
  title <- Eff.lift (py_strip t) ;;
  reject_if (200 <? String.length title)%nat
    "title must be max 200 characters" ;;;
  d <- args_get args "description" (VStr "") ;;
  description <- Eff.lift (py_strip d) ;;
  reject_if (negb (PyStr.is_empty description)
             && (1024 <? String.length description)%nat)
    "description must be max 1024 characters" ;;;
  priority <- args_get args "priority" (VStr "medium") ;;
  reject_if (negb (in_strs priority priorities))
    "priority must be low, medium, or high" ;;;
  due_date <- args_get args "due_date" VNone ;;
  (if truthy due_date
   then check_iso due_date
          "due_date must be in ISO format (YYYY-MM-DD or ISO8601)"
   else Eff.ret tt) ;;;
  task_id <- uuid4 ;;
  now <- utcnow ;;
  Eff.ret (VDict
    [ ("id", VStr task_id);
      ("title", VStr title);
      ("description",
       if PyStr.is_empty description then VNone else VStr description);
      ("status", VStr "pending");
      ("priority", priority);
      ("due_date", due_date);
      ("created_at", VStr (isoformat now)) ]).

(** [isinstance(limit, int)] holds of a [bool] too. *)
Definition limit_in_range (limit : pyval) : bool :=
  match limit with
  | VInt z => (1 <=? z)%Z && (z <=? 100)%Z
  | VBool b => b
  | _ => false
  end.

Definition _execute_list_tasks (args : pyval) (user_id : string) : M pyval :=
  status <- args_get args "status" (VStr "all") ;;
  reject_if (negb (in_strs status ["all"; "pending"; "completed"]))
    "status must be all, pending, or completed" ;;;
  priority <- args_get args "priority" VNone ;;
  reject_if (truthy priority && negb (in_strs priority priorities))
    "priority must be low, medium, or high" ;;;
  limit <- args_get args "limit" (VInt 20) ;;
  reject_if (negb (limit_in_range limit))
    "limit must be between 1 and 100" ;;;
  Eff.ret (VDict
    [ ("count", VInt 0);
      ("tasks", VList []);
      ("status_filter", status);
      ("priority_filter", priority) ]).

Definition _execute_complete_task (args : pyval) (user_id : string)
    : M pyval :=
  task_id <- args_get args "task_id" VNone ;;
  check_task_id task_id ;;;
  now <- utcnow ;;
  Eff.ret (VDict
    [ ("id", task_id);
      ("status", VStr "completed");
      ("completed_at", VStr (isoformat now)) ]).

Definition _execute_delete_task (args : pyval) (user_id : string)
    : M pyval :=
  task_id <- args_get args "task_id" VNone ;;
  check_task_id task_id ;;;
  now <- utcnow ;;
  Eff.ret (VDict
    [ ("id", task_id);
      ("deleted", VBool true);
      ("deleted_at", VStr (isoformat now)) ]).

Definition is_none (v : pyval) : bool :=
  match v with VNone => true | _ => false end.

(** [len(v)] of a value known to be a [str] *)
Definition str_len (v : pyval) : nat :=
  match v with VStr s => String.length s | _ => 0 end.

(** [v or default] *)
Definition py_or (v default : pyval) : pyval :=
  if truthy v then v else default.

Definition _execute_update_task (args : pyval) (user_id : string)
    : M pyval :=
  task_id <- args_get args "task_id" VNone ;;
  check_task_id task_id ;;;
  title <- args_get args "title" VNone ;;
  (if negb (is_none title) then
     reject_if
       (match title with
        | VStr s => PyStr.is_empty (PyStr.strip s)
        | _ => true
        end)
       "title must be a non-empty string" ;;;
     reject_if (200 <? str_len title)%nat "title must be max 200 characters"
   else Eff.ret tt) ;;;
  description <- args_get args "description" VNone ;;
  (if negb (is_none description) then
     reject_if (match description with VStr _ => false | _ => true end)
       "description must be a string" ;;;
     reject_if (1024 <? str_len description)%nat
       "description must be max 1024 characters"
   else Eff.ret tt) ;;;
  priority <- args_get args "priority" VNone ;;
  reject_if (negb (is_none priority) && negb (in_strs priority priorities))
    "priority must be low, medium, or high" ;;;
  due_date <- args_get args "due_date" VNone ;;
  (if negb (is_none due_date)
   then check_iso due_date "due_date must be in ISO format"
   else Eff.ret tt) ;;;
  now <- utcnow ;;
  Eff.ret (VDict
    [ ("id", task_id);
      ("title", py_or title (VStr "Task"));
      ("priority", py_or priority (VStr "medium"));
      ("updated_at", VStr (isoformat now)) ]).

(** The [if/elif] chain of [execute]. *)
Definition dispatch (tool_name : string) (arguments : pyval)
    (user_id : string) : M pyval :=
  if String.eqb tool_name "add_task" then _execute_add_task arguments user_id
  else if String.eqb tool_name "list_tasks" then
    _execute_list_tasks arguments user_id
  else if String.eqb tool_name "complete_task" then
    _execute_complete_task arguments user_id
  else if String.eqb tool_name "delete_task" then
    _execute_delete_task arguments user_id
  else if String.eqb tool_name "update_task" then
    _execute_update_task arguments user_id
  else Eff.throw ToolNotFoundError ("Unknown tool: " +++ tool_name).

Definition outcome (success : bool) (tool_name : string)
    (res error : pyval) : pyval :=
  VDict [ ("success", VBool success);
          ("tool_name", VStr tool_name);
          ("result", res);
          ("error", error) ].

(** [ToolExecutor.execute] *)
Definition execute (tool_name : string) (arguments : pyval)
    (user_id conversation_id : string) : M pyval :=
  log (EvExecute tool_name) ;;;
  Eff.try_except
    (res <- dispatch tool_name arguments user_id ;;
     Eff.ret (outcome true tool_name res VNone))
    (fun e =>
       if is_instance e [ToolValidationError] then
         Eff.ret (outcome false tool_name VNone
                    (VStr ("Validation error: " +++ exn_str e)))
       else if is_instance e [ToolNotFoundError] then
         Eff.ret (outcome false tool_name VNone (VStr (exn_str e)))
       else
         Eff.ret (outcome false tool_name VNone
                    (VStr ("Execution error: " +++ exn_str e)))).

End Executor.
End ToolExecutor.

(* ===================================================================== *)
(** ** Agent error handler ([agent/error_handler.py]) *)
(* ===================================================================== *)

Inductive AgentErrorType : Type :=
| TIMEOUT | RATE_LIMIT | PARSING_ERROR | TOOL_NOT_FOUND | VALIDATION_ERROR
| DATABASE_ERROR | PERMISSION_ERROR | UNKNOWN.

(** The [value] of the enumeration. *)
Definition error_type_value (k : AgentErrorType) : string :=
  match k with
  | TIMEOUT => "timeout"
  | RATE_LIMIT => "rate_limit"
  | PARSING_ERROR => "parsing_error"
  | TOOL_NOT_FOUND => "tool_not_found"
  | VALIDATION_ERROR => "validation_error"
  | DATABASE_ERROR => "database_error"
  | PERMISSION_ERROR => "permission_error"
  | UNKNOWN => "unknown"
  end.

(** The [isinstance]/[hasattr] chain of [handle_agent_error].  Its
    first test, [isinstance(error, Timeout)], is false of every
    exception: the [Timeout] that [openai] exports is [httpx.Timeout],
    the class of time-out settings, and no exception is an instance of
    it; so no error is classified [TIMEOUT].  The validators'
    [ValidationError] is the class that carries
    [error_code == "VALIDATION_ERROR"]. *)
Definition handle_agent_error (error : exn) : AgentErrorType :=
  if is_instance error [RateLimitError] then RATE_LIMIT
  else if is_instance error [ValueError] then PARSING_ERROR
  else if is_instance error [KeyError] then TOOL_NOT_FOUND
  else if is_instance error [ValidationError] then VALIDATION_ERROR
  else if PyStr.contains "database" (PyStr.lower (exn_str error))
          || PyStr.contains "sql" (PyStr.lower (exn_str error))
  then DATABASE_ERROR
  else if is_instance error [PermissionDeniedError] then PERMISSION_ERROR
  else UNKNOWN.

(** The text of a reply: what the completion service or the chat
    service wrote, or the fixed apology of [AgentErrorHandler] for an
    error type (its wording is not modelled). *)
Inductive reply : Type :=
| Text (s : string)
| Fallback (kind : AgentErrorType).

(* ===================================================================== *)
(** ** Chat service ([services/chat_service.py]) *)
(* ===================================================================== *)

(** An entry of [tool_calls_made]: [{id, name, arguments, result}] after
    an execution, [{id, name, error}] from the [except] branch. *)
Inductive call_record {T : PyTypes} : Type :=
| Executed (id name : string) (arguments result : pyval)
| Failed (id name error : string).

(** [{"success", "response", "error"?}] of [_invoke_agent_with_tools] *)
Record agent_response : Type := mkAgentResponse {
  ar_success : bool;
  ar_response : string;
  ar_error : option string
}.

(** The dict [process_chat_message] returns; [None] is a key the dict
    does not have.  [execution_time_ms] is wall-clock time and is left
    out. *)
Record chat_result {T : PyTypes} : Type := mkChatResult {
  cr_success : bool;
  cr_error : option string;
  cr_response : reply;
  cr_conversation_id : string;
  cr_tool_calls_executed : option (list call_record);
  cr_message_count : option nat
}.
Arguments mkChatResult {T}.

Module ChatService.
Section Chat.
Context {T : PyTypes} {R : PyRuntime}.
Local Open Scope eff_scope.

Definition MAX_TOOL_CALLS_PER_TURN : nat := 5.
Definition MAX_RETRIES_ON_INVALID_TOOL_CALL : nat := 2.
Definition MAX_CONVERSATION_HISTORY : nat := 50.

(** A record as the Python dict it is. *)
Definition record_to_py (r : call_record) : pyval :=
  match r with
  | Executed id name arguments res =>
      VDict [ ("id", VStr id); ("name", VStr name);
              ("arguments", arguments); ("result", res) ]
  | Failed id name error =>
      VDict [ ("id", VStr id); ("name", VStr name); ("error", VStr error) ]
  end.

(** [v.get(k, default)] *)
Definition py_get (v : pyval) (k : string) (default : pyval) : result pyval :=
  match v with
  | VDict d => Ok (dict_get k default d)
  | _ => Raise (no_attribute v "get")
  end.

(** [_format_messages_for_agent] *)
Definition _format_messages_for_agent (conversation_messages : list Message)
    : list agent_msg :=
  map (fun msg => RoleContent (msg_role msg) (msg_content msg))
      conversation_messages.

(** [await client.chat.completions.create(...)], answered by the first
    choice's message. *)
Definition create_completion (agent : agent_config)
    (messages : list agent_msg) : M llm_message :=
  log EvCompletion ;;;
  fun _ w =>
    (client agent (completions w) messages,
     mkWorld (committed w) (session w) (clock_reads w) (uuids_drawn w)
       (db_trips w) (S (completions w)) (trace w)).

(** [json.loads(tool_args) if isinstance(tool_args, str) else tool_args] *)
Definition decode_arguments (tool_args : pyval) : result pyval :=
  match tool_args with
  | VStr s => json_loads s
  | a => Ok a
  end.

(** The body of the [try] inside the [for] loop, for one tool call.
    [tool_calls_made] is one list mutated in place: a record appended
    before an exception is still in it when the handler appends the error
    record. *)
Definition run_tool_call (tc : tool_call) (user_id conversation_id : string)
    (tool_calls_made : list call_record) : M (list call_record) :=
  let tool_name := tc_name tc in
  let failed e := Failed (tc_id tc) tool_name (exn_str e) in
  Eff.try_except
    (args_dict <- Eff.lift (decode_arguments (tc_arguments tc)) ;;
     tool_result <-
       ToolExecutor.execute tool_name args_dict user_id conversation_id ;;
     let made := tool_calls_made
                 ++ [Executed (tc_id tc) tool_name args_dict tool_result] in
     Eff.try_except
       (shown <- Eff.lift (py_get tool_result "result" tool_result) ;;
        dumped <- Eff.lift (json_dumps shown) ;;
        let tool_result_text :=
          "Tool '" +++ tool_name +++ "' result: " +++ dumped in
        stored <- Eff.lift (py_get tool_result "result" VNone) ;;
        ConversationService.append_message conversation_id user_id "tool"
          tool_result_text
          (VDict [("tool_name", VStr tool_name); ("result", stored)]) None ;;;
        Eff.ret made)
       (fun e => Eff.ret (made ++ [failed e])))
    (fun e => Eff.ret (tool_calls_made ++ [failed e])).

(** [for i, tool_call in enumerate(tool_calls)] *)
Fixpoint tool_loop (i : nat) (tool_calls : list tool_call)
    (user_id conversation_id : string) (tool_calls_made : list call_record)
    : M (list call_record) :=
  match tool_calls with
  | [] => Eff.ret tool_calls_made
  | tc :: rest =>
      if (MAX_TOOL_CALLS_PER_TURN <=? i)%nat then
        Eff.ret tool_calls_made                                  (* break *)
      else if negb (Registry.validate_tool_name (tc_name tc)) then
        tool_loop (S i) rest user_id conversation_id tool_calls_made
                                                              (* continue *)
      else
        made <- run_tool_call tc user_id conversation_id tool_calls_made ;;
        tool_loop (S i) rest user_id conversation_id made
  end.

(** The [tool]-role message of one record, for the next completion
    call. *)
Definition tool_message (r : call_record) : result agent_msg :=
  match r with
  | Executed id _ _ res =>
      Res.bind (py_get res "result" res)
        (fun shown => Ok (ToolResult id (py_str shown)))
  | Failed id _ error => Ok (ToolResult id ("Error: " +++ error))
  end.

Fixpoint tool_messages (made : list call_record) : result (list agent_msg) :=
  match made with
  | [] => Ok []
  | r :: rest =>
      Res.bind (tool_message r) (fun m =>
      Res.bind (tool_messages rest) (fun ms => Ok (m :: ms)))
  end.

(** The [except] clauses of [_invoke_agent_with_tools].  The first one
    is [except Timeout:], and [Timeout], imported from [openai], is
    [httpx.Timeout], the class of time-out settings, which does not
    inherit from [BaseException].  Matching a raised exception against
    it raises [TypeError], in the handler chain itself: the clauses
    that follow ([RateLimitError], [APIError], [Exception]) are never
    reached, and whatever the [try] body raises leaves the function as
    this [TypeError]. *)
Definition except_Timeout : exn :=
  mkExn TypeError
    "catching classes that do not inherit from BaseException is not allowed".

(** [_invoke_agent_with_tools].  The recursion of the source is on
    [retry_count]; [fuel] bounds its depth, and [None] is the answer of
    a run that needed more. *)
Fixpoint _invoke_agent_with_tools (fuel : nat) (agent : agent_config)
    (messages : list agent_msg) (user_id conversation_id : string)
    (retry_count : nat)
    : M (option (agent_response * option (list call_record))) :=
  match fuel with
  | O => Eff.ret None
  | S fuel' =>
      Eff.try_except
        (response <-
           create_completion agent
             (RoleContent "system" (system_prompt agent) :: messages) ;;
         let assistant_message :=
           match llm_content response with Some s => s | None => "" end in
         match llm_tool_calls response with
         | None | Some [] =>
             Eff.ret (Some (mkAgentResponse true assistant_message None, None))
         | Some tool_calls =>
             tool_calls_made <-
               tool_loop 0 tool_calls user_id conversation_id [] ;;
             results <- Eff.lift (tool_messages tool_calls_made) ;;
             let updated_messages :=
               messages
               ++ [AssistantToolCalls assistant_message tool_calls]
               ++ results in
             if (MAX_RETRIES_ON_INVALID_TOOL_CALL <=? retry_count)%nat then
               Eff.ret (Some (mkAgentResponse true assistant_message None,
                              Some tool_calls_made))
             else
               _invoke_agent_with_tools fuel' agent updated_messages
                 user_id conversation_id (S retry_count)
         end)
        (fun _ => Eff.raise except_Timeout)
  end.

(** Depth that the recursion from [retry_count = 0] never exceeds. *)
Definition invoke_fuel : nat := S MAX_RETRIES_ON_INVALID_TOOL_CALL.

(** [tool_calls_made if tool_calls_made else None / []] *)
Definition made_or_empty (made : option (list call_record))
    : list call_record :=
  match made with Some l => l | None => [] end.

Definition made_or_none (made : option (list call_record)) : pyval :=
  match made with
  | Some (r :: l) => VList (map record_to_py (r :: l))
  | _ => VNone
  end.

(** [process_chat_message] *)
Definition process_chat_message (conversation_id user_id user_message : string)
    : M (option chat_result) :=
  Eff.try_except
    (conversation <-
       ConversationService.get_conversation conversation_id user_id ;;
     match conversation with
     | None =>
         Eff.ret (Some (mkChatResult false (Some "conversation_not_found")
           (Text "I couldn't find that conversation. Please check the ID and try again.")
           conversation_id None None))
     | Some _ =>
         ConversationService.append_message conversation_id user_id "user"
           user_message VNone None ;;;
         recent_messages <-
           ConversationService.get_recent_messages conversation_id user_id
             MAX_CONVERSATION_HISTORY ;;
         env <- Eff.ask ;;
         match agent_factory env with
         | None =>
             Eff.throw RuntimeError
               "Agent factory not initialized. Call initialize_agent_factory() first."
         | Some create_agent =>
             let agent_config :=
               create_agent user_id conversation_id (List.length recent_messages) in
             let messages_for_agent :=
               _format_messages_for_agent recent_messages in
             invoked <-
               _invoke_agent_with_tools invoke_fuel agent_config
                 messages_for_agent user_id conversation_id 0 ;;
             match invoked with
             | None => Eff.ret None
             | Some (assistant_response, tool_calls_made) =>
                 if negb (ar_success assistant_response) then
                   Eff.ret (Some (mkChatResult false
                     (ar_error assistant_response)
                     (Text (ar_response assistant_response))
                     conversation_id (Some []) None))
                 else
                   let final_response := ar_response assistant_response in
                   ConversationService.append_message conversation_id user_id
                     "assistant" final_response
                     (made_or_none tool_calls_made) None ;;;
                   Eff.ret (Some (mkChatResult true None
                     (Text final_response) conversation_id
                     (Some (made_or_empty tool_calls_made))
                     (Some (List.length recent_messages + 2))))
             end
         end
     end)
    (fun e =>
       Eff.ret (Some (mkChatResult false
         (Some (error_type_value (handle_agent_error e)))
         (Fallback (handle_agent_error e))
         conversation_id (Some []) None))).

(** [ChatService.create_conversation]: the dict it returns. *)
Definition create_conversation (user_id : string) (title : option string)
    : M pyval :=
  let shown := ConversationRepository.title_or_default title in
  Eff.try_except
    (conversation_id <-
       ConversationService.create_conversation user_id (Some shown) ;;
     Eff.ret (VDict [ ("success", VBool true);
                      ("conversation_id", VStr conversation_id);
                      ("title", VStr shown) ]))
    (fun e => Eff.ret (VDict [ ("success", VBool false);
                               ("error", VStr (exn_str e)) ])).

(** One entry of ["conversations"] in the listing. *)
Definition conversation_summary (conv : Conversation) : pyval :=
  VDict [ ("id", VStr (conv_id conv));
          ("title", VStr (conv_title conv));
          ("created_at", VStr (isoformat (conv_created_at conv)));
          ("updated_at", VStr (isoformat (conv_updated_at conv))) ].

(** [ChatService.list_user_conversations] *)
Definition list_user_conversations (user_id : string) (limit : nat)
    : M pyval :=
  Eff.try_except
    (conversations <-
       ConversationService.get_user_conversations user_id limit ;;
     Eff.ret (VDict [ ("success", VBool true);
                      ("conversations",
                       VList (map conversation_summary conversations));
                      ("count", VInt (Z.of_nat (List.length conversations))) ]))
    (fun e => Eff.ret (VDict [ ("success", VBool false);
                               ("error", VStr (exn_str e));
                               ("conversations", VList []);
                               ("count", VInt 0) ])).

(** T045 [verify_user_owns_conversation] *)
Definition verify_user_owns_conversation (conversation_id user_id : string)
    : M bool :=
  Eff.try_except
    (conversation <-
       ConversationService.get_conversation conversation_id user_id ;;
     match conversation with
     | Some _ => Eff.ret true
     | None => Eff.ret false
     end)
    (fun _ => Eff.ret false).

End Chat.
End ChatService.

(* ===================================================================== *)
(** ** Task repository and MCP tool layer
       ([repositories/task_repository.py], [mcp_server/executors.py],
       [mcp_server/error_handler.py], [mcp_server/server.py]) *)
(* ===================================================================== *)

(** A row of the [tasks] table ([app/models/task.py]). *)
Record Task {T : PyTypes} : Type := mkTask {
  task_id : string;
  task_user_id : string;
  task_title : string;
  task_description : option string;
  task_completed : bool;
  task_priority : string;
  task_due_date : option datetime;
  task_created_at : Z;
  task_updated_at : Z
}.
Arguments mkTask {T}.

(** How the database driver reads the argument of [LIMIT] or [OFFSET]:
    the number of rows it stands for, or the error it is refused
    with. *)
Class SqlDriver {T : PyTypes} : Type := {
  row_count : pyval -> result nat
}.

Module TaskRepository.
Section Tasks.
Context {T : PyTypes}.
Local Open Scope eff_scope.

(** [v == "text"] *)
Definition is_text (v : pyval) (text : string) : bool :=
  match v with
  | VStr s => String.eqb s text
  | _ => false
  end.

(** [ORDER BY created_at DESC], rows of equal time in table order. *)
Fixpoint insert_by_created_at (t : Task) (l : list Task) : list Task :=
  match l with
  | [] => [t]
  | x :: r =>
      if (task_created_at x <=? task_created_at t)%Z then t :: l
      else x :: insert_by_created_at t r
  end.

Fixpoint order_by_created_at_desc (l : list Task) : list Task :=
  match l with
  | [] => []
  | t :: r => insert_by_created_at t (order_by_created_at_desc r)
  end.

(** The statement of [list_by_user]: the caller's rows, narrowed to the
    completed ones when [status == "completed"] and to the others when
    [status == "open"], newest first, [LIMIT limit OFFSET offset]. *)
Definition select_tasks (rows : list Task) (user_id : string)
    (status : pyval) (limit offset : nat) : list Task :=
  let owned := filter (fun t => String.eqb (task_user_id t) user_id) rows in
  let narrowed :=
    if is_text status "completed" then filter task_completed owned
    else if is_text status "open" then
      filter (fun t => negb (task_completed t)) owned
    else owned in
  firstn limit (skipn offset (order_by_created_at_desc narrowed)).

(** [list_by_user], on the rows of the table as the session sees them. *)
Definition list_by_user (rows : list Task) (user_id : string)
    (status : pyval) (limit offset : nat) : M (list Task) :=
  db_trip ;;;
  Eff.ret (select_tasks rows user_id status limit offset).

End Tasks.
End TaskRepository.

Module McpExecutors.
Section Executors.
Context {T : PyTypes} {R : PyRuntime} {D : SqlDriver}.
Local Open Scope eff_scope.

(** [d[k]]; a missing key raises [KeyError(k)], whose text is the
    [repr] of the key. *)
Definition getitem (d : pydict) (k : string) : M pyval :=
  match dict_find k d with
  | Some v => Eff.ret v
  | None => Eff.throw KeyError (PyStr.py_repr k)
  end.

(** One entry of ["tasks"] in the listing. *)
Definition task_entry (task : Task) : pyval :=
  VDict [ ("task_id", VStr (task_id task));
          ("title", VStr (task_title task));
          ("description",
           match task_description task with
           | Some d => VStr d
           | None => VNone
           end);
          ("priority", VStr (task_priority task));
          ("status",
           VStr (if task_completed task then "completed" else "pending"));
          ("created_at", VStr (isoformat (task_created_at task))) ].

(** [execute_list_tasks]: the status word becomes [False], [True] or
    [None], and that value is what the repository is given as
    [status]. *)
Definition execute_list_tasks (rows : list Task) (validated_input : pydict)
    (user_id : string) : M pyval :=
  status <- getitem validated_input "status" ;;
  let status_filter :=
    if TaskRepository.is_text status "pending" then VBool false
    else if TaskRepository.is_text status "completed" then VBool true
    else VNone in
  limit <- getitem validated_input "limit" ;;
  offset <- getitem validated_input "offset" ;;
  limit_rows <- Eff.lift (row_count limit) ;;
  offset_rows <- Eff.lift (row_count offset) ;;
  tasks <-
    TaskRepository.list_by_user rows user_id status_filter limit_rows
      offset_rows ;;
  Eff.ret (VDict [ ("tasks", VList (map task_entry tasks));
                   ("count", VInt (Z.of_nat (List.length tasks))) ]).

End Executors.
End McpExecutors.

Module McpErrorHandler.
Section Handler.
Context {T : PyTypes}.

(** [handle_tool_error].  No code modelled here raises an [MCPError],
    the class of the first branch; the validators' [ValidationError] is
    the class that carries [error_code == "VALIDATION_ERROR"]. *)
Definition handle_tool_error (exception : exn) (tool_name : string) : pyval :=
  if is_instance exception [ValidationError] then
    VDict [ ("error", VStr "ValidationError");
            ("details", VStr (exn_str exception)) ]
  else if is_instance exception [KeyError] then
    VDict [ ("error", VStr "ToolNotFound");
            ("details",
             VStr ("Unknown tool: "
                   +++ PyStr.strip_chars
                         (String "'" (String (ascii_of_nat 34) EmptyString))
                         (exn_str exception))) ]
  else if is_instance exception [ValueError] then
    VDict [ ("error", VStr "ValidationError");
            ("details", VStr ("Invalid input: " +++ exn_str exception)) ]
  else
    VDict [ ("error", VStr "InternalError");
            ("details",
             VStr ("Tool execution failed: " +++ exn_str exception)) ].

End Handler.
End McpErrorHandler.

Module McpServer.
Section Server.
Context {T : PyTypes}.
Local Open Scope eff_scope.

(** A handler of [_tool_handlers]: called with the tool input and the
    user; the session is the world's. *)
Definition handler : Type := pydict -> string -> M pyval.

(** [server.execute_tool], given whether [_mcp_server_instance] is set
    and what [_tool_handlers.get] finds. *)
Definition execute_tool (initialized : bool)
    (_tool_handlers : string -> option handler)
    (tool_name : string) (tool_input : pydict) (user_id : string) : M pyval :=
  if negb initialized then
    Eff.ret (VDict [ ("error", VStr "MCP server not initialized");
                     ("details", VStr "call init_mcp_server() first") ])
  else
    match _tool_handlers tool_name with
    | None =>
        Eff.ret (VDict [ ("error", VStr "Tool not found");
                         ("details", VStr ("Unknown tool: " +++ tool_name)) ])
    | Some run =>
        Eff.try_except
          (result <- run tool_input user_id ;;
           Eff.ret (VDict [ ("result", result) ]))
          (fun e => Eff.ret (McpErrorHandler.handle_tool_error e tool_name))
    end.

End Server.
End McpServer.

(* ===================================================================== *)
(** ** Tool processor ([agent/tool_processor.py]) *)
(* ===================================================================== *)

Module ToolProcessor.
Section Processor.
Context {T : PyTypes}.

(** A [ToolExecutionResult]. *)
Record ToolExecutionResult : Type := mkToolExecutionResult {
  ter_tool_name : string;
  ter_success : bool;
  ter_result : pyval;
  ter_error : option string;
  ter_execution_time_ms : pyfloat;
  ter_timestamp : Z
}.

Definition max_history : nat := 100.

(** [l[-n:]] *)
Definition last_n {A} (n : nat) (l : list A) : list A :=
  skipn (List.length l - n) l.

(** [record_execution], on the processor's [execution_history]. *)
Definition record_execution (execution_history : list ToolExecutionResult)
    (result : ToolExecutionResult) : list ToolExecutionResult :=
  let appended := execution_history ++ [result] in
  if (max_history <? List.length appended)%nat
  then last_n max_history appended
  else appended.

End Processor.
End ToolProcessor.

(* ===================================================================== *)
(** ** A concrete runtime and environment, for running the model *)
(* ===================================================================== *)

Module Sample.

(** Floats as scaled integers, [datetime] objects by their ISO text. *)
Definition types : PyTypes := {| pyfloat := Z; datetime := string |}.

Definition is_digit (c : ascii) : bool :=
  let n := nat_of_ascii c in ((48 <=? n) && (n <=? 57))%nat.

Fixpoint all_digits (s : string) : bool :=
  match s with
  | EmptyString => true
  | String c r => is_digit c && all_digits r
  end.

(** A runtime that accepts dates of the shape [dddd-dd-dd] and
    identifiers of 36 characters, and renders values by their type. *)
Definition accepts_date (s : string) : bool :=
  (String.length s =? 10)%nat
  && all_digits (substring 0 4 s) && all_digits (substring 5 2 s)
  && all_digits (substring 8 2 s).

Definition show (v : @pyval types) : string :=
  match v with VStr s => s | _ => type_name v end.

Definition runtime : @PyRuntime types :=
  @Build_PyRuntime types
    (fun f : Z => negb (f =? 0)%Z)
    (fun f : Z => Ok (f / 1000)%Z)
    (fun _ => None)
    (fun s => if accepts_date s then Some s else None)
    (fun s => (String.length s =? 36)%nat)
    show
    (fun _ => Raise (mkExn ValueError "Expecting value: line 1 column 1 (char 0)"))
    (fun v => Ok (show v))
    (fun _ => "2026-01-01T00:00:00").

Definition alice : string := "alice".
Definition bob : string := "bob".
Definition conv1 : string := "c0000000-0000-4000-8000-000000000001".

Definition conversation1 : Conversation :=
  mkConversation conv1 alice "New Conversation" 0 0.

Definition message_at (t : Z) (text : string) : @Message types :=
  mkMessage text conv1 alice "user" text VNone None t.

Definition db0 : @DB types := mkDB [conversation1] [].

Definition db3 : @DB types :=
  mkDB [conversation1]
       [message_at 1 "first"; message_at 2 "second"; message_at 3 "third"].

Definition world_of (d : @DB types) : @World types :=
  mkWorld d d 0 0 0 0 [].

Definition show_nat (n : nat) : string :=
  String (ascii_of_nat (48 + n)) EmptyString.

Definition env_with (faults : nat -> option string)
    (factory : option (string -> string -> nat -> @agent_config types))
    : @Env types :=
  mkEnv (fun n => 100 + Z.of_nat n)%Z (fun n => "id-" +++ show_nat n)
        faults factory.

Definition no_fault : nat -> option string := fun _ => None.

Definition env0 : @Env types := env_with no_fault None.

(** A driver that takes a non-negative integer as a number of rows and
    refuses anything else. *)
Definition driver : @SqlDriver types :=
  @Build_SqlDriver types
    (fun v =>
       match v with
       | VInt z =>
           if (0 <=? z)%Z then Ok (Z.to_nat z)
           else Raise (mkExn SQLAlchemyError "LIMIT must not be negative")
       | _ => Raise (mkExn SQLAlchemyError "LIMIT must be an integer")
       end).

Definition task_at (t : Z) (id owner : string) (done : bool) : @Task types :=
  mkTask id owner ("task " +++ id) None done "medium" None t t.

Definition tasks3 : list (@Task types) :=
  [task_at 1 "t1" alice false; task_at 2 "t2" alice true;
   task_at 3 "t3" bob false].

End Sample.

(* ===================================================================== *)
(** ** Vocabulary of the statements *)
(* ===================================================================== *)

Section Vocabulary.
Context {T : PyTypes} {R : PyRuntime}.

(** *** Validators *)

(** Output of [validate_update_task_input] that the validator accepts
    again: it holds no parsed [due_date] and no [None] description. *)
Definition stable_update (out : pydict) : bool :=
  negb (dict_has "due_date" out)
  && negb (match dict_find "description" out with
           | Some VNone => true
           | _ => false
           end).

(** The outputs on which validation is a no-op, tool by tool: none of
    [add_task], the stable ones of [update_task], all of the others. *)
Definition stable_output (tool_name : string) (out : pydict) : bool :=
  if String.eqb tool_name "add_task" then false
  else if String.eqb tool_name "update_task" then stable_update out
  else true.

(** *** Executor *)

(** The world with one more event in its trace. *)
Definition logged (ev : event) (w : World) : World :=
  mkWorld (committed w) (session w) (clock_reads w) (uuids_drawn w)
    (db_trips w) (completions w) (trace w ++ [ev]).

(** The [error] text [execute] derives from an exception. *)
Definition error_text (e : exn) : string :=
  if is_instance e [ToolValidationError] then "Validation error: " +++ exn_str e
  else if is_instance e [ToolNotFoundError] then exn_str e
  else "Execution error: " +++ exn_str e.

(** Every exception that [m] can raise satisfies [P]. *)
Definition raises_only {A} (P : exn -> Prop) (m : M A) : Prop :=
  forall env w e w', m env w = (Raise e, w') -> P e.

(** The classes a tool handler can raise. *)
Definition handler_exn (e : exn) : Prop :=
  exn_cls e = ToolValidationError \/ exn_cls e = AttributeError
  \/ exn_cls e = TypeError.

(** [w'] differs from [w] at most in the clock and identifier counters. *)
Definition same_store (w w' : World) : Prop :=
  committed w' = committed w /\ session w' = session w
  /\ db_trips w' = db_trips w /\ completions w' = completions w
  /\ trace w' = trace w.

(** [m] touches neither the database nor the services nor the trace. *)
Definition quiet {A} (m : M A) : Prop :=
  forall env w r w', m env w = (r, w') -> same_store w w'.

(** *** Conversation store *)

(** Rows of [conversations] that a lookup by id and owner selects. *)
Definition owned_rows (d : DB) (conversation_id user_id : string)
    : list Conversation :=
  filter (fun c => String.eqb (conv_id c) conversation_id
                   && String.eqb (conv_user_id c) user_id)
         (conversations d).

(** The database after message [m] was inserted and conversation [c]
    got [now] as its [updated_at]. *)
Definition appended (d : DB) (c : Conversation) (m : Message) (now : Z) : DB :=
  mkDB (map (fun c' => if String.eqb (conv_id c') (conv_id c)
                       then ConversationService.touch c now else c')
            (conversations d))
       (messages d ++ [m]).

(** The primary key of [conversations]. *)
Definition unique_ids (d : DB) : Prop := NoDup (map conv_id (conversations d)).

(** No round trip to the database fails. *)
Definition no_faults (env : Env) : Prop := forall n, db_fault env n = None.

Definition older_or_same (a b : Message) : Prop :=
  (msg_created_at a <= msg_created_at b)%Z.

Definition is_tool_message (m : Message) : bool :=
  String.eqb (msg_role m) "tool".

(** *** Orchestration loop *)

(** The world after one call of the completion service. *)
Definition after_completion (w : World) : World :=
  mkWorld (committed w) (session w) (clock_reads w) (uuids_drawn w)
    (db_trips w) (S (completions w)) (trace w ++ [EvCompletion]).

(** [choice.message.content or ""] *)
Definition content_or_empty (m : llm_message) : string :=
  match llm_content m with Some s => s | None => "" end.

(** Every response of the completion service requests a tool call. *)
Definition always_requests_tools (agent : agent_config) : Prop :=
  forall n messages, exists content tc tcs,
    client agent n messages = Ok (mkLlmMessage content (Some (tc :: tcs))).

(** The response to call [first_call] requests one [add_task] call, the
    next response is plain text. *)
Definition tool_then_text (env : Env) (first_call : nat)
    (call_id : string) (arguments : pyval) (content1 : option string)
    (text : string) : Prop :=
  exists create,
    agent_factory env = Some create
    /\ forall u c k messages,
         client (create u c k) first_call messages
         = Ok (mkLlmMessage content1
                 (Some [mkToolCall call_id "add_task" arguments]))
         /\ client (create u c k) (S first_call) messages
            = Ok (mkLlmMessage (Some text) None).

Definition record_name (r : call_record) : string :=
  match r with
  | Executed _ name _ _ => name
  | Failed _ name _ => name
  end.

Definition record_id (r : call_record) : string :=
  match r with
  | Executed id _ _ _ => id
  | Failed id _ _ => id
  end.

Definition is_failed (r : call_record) : bool :=
  match r with Failed _ _ _ => true | Executed _ _ _ _ => false end.

(** An executed record carries the executor's dict. *)
Definition well_formed (r : call_record) : Prop :=
  match r with
  | Executed _ _ _ (VDict _) => True
  | Executed _ _ _ _ => False
  | Failed _ _ _ => True
  end.

(** The store, the session and both service counters agree. *)
Definition same_database (w w' : World) : Prop :=
  committed w' = committed w /\ session w' = session w
  /\ db_trips w' = db_trips w /\ completions w' = completions w.

(** How many calls of the executor a trace holds, and how many records
    of an execution a list of records holds. *)
Definition executions (evs : list event) : nat :=
  List.length (filter (fun e => match e with
                                | EvExecute _ => true
                                | EvCompletion => false
                                end) evs).

Definition executed_records (made : list call_record) : nat :=
  List.length (filter (fun r => negb (is_failed r)) made).

(** *** Conversations *)

Definition newer_or_same (a b : Conversation) : Prop :=
  (conv_updated_at b <= conv_updated_at a)%Z.

(** The database after conversation [c] was given the title [title]. *)
Definition renamed (d : DB) (c : Conversation) (title : string) : DB :=
  mkDB (map (fun c' => if String.eqb (conv_id c') (conv_id c)
                       then ConversationRepository.retitle c title else c')
            (conversations d))
       (messages d).

(** The database without a conversation and the messages in it. *)
Definition without_conversation (d : DB) (conversation_id : string) : DB :=
  mkDB (filter (fun c => negb (String.eqb (conv_id c) conversation_id))
               (conversations d))
       (filter (fun m => negb (String.eqb (msg_conversation_id m) conversation_id))
               (messages d)).

(** The messages of one conversation and one user. *)
Definition conversation_messages (d : DB) (conversation_id user_id : string)
    : list Message :=
  filter (fun m => String.eqb (msg_conversation_id m) conversation_id
                   && String.eqb (msg_user_id m) user_id)
         (messages d).

(** *** Chat turns *)

(** [w'] has seen no more completion calls and events than [w]. *)
Definition same_services (w w' : World) : Prop :=
  completions w' = completions w /\ trace w' = trace w.



End Vocabulary.

Section TaskVocabulary.
Context {T : PyTypes} {D : SqlDriver}.

(** The driver takes a non-negative integer as that number of rows. *)
Definition counts_rows : Prop :=
  forall z, (0 <= z)%Z -> row_count (VInt z) = Ok (Z.to_nat z).

(** The page of all the tasks of [user_id], of either status, newest
    first. *)
Definition page_of_all (rows : list Task) (user_id : string)
    (limit offset : nat) : list Task :=
  firstn limit
    (skipn offset
       (TaskRepository.order_by_created_at_desc
          (filter (fun t => String.eqb (task_user_id t) user_id) rows))).

End TaskVocabulary.

(** Runs of the model on the sample runtime. *)
Module Scenario.
Import Sample.

Definition validate := @Validators.validate_tool_input types runtime.

Definition milk : @pyval types := VDict [("title", VStr "Buy milk")].

Definition numbered_call (n : nat) : @tool_call types :=
  mkToolCall ("call_" +++ show_nat (S n)) "add_task" milk.

(** An agent that asks for one [add_task] call in every response. *)
Definition eager_agent : @agent_config types :=
  mkAgentConfig "You manage tasks."
    (fun n _ => Ok (mkLlmMessage (Some "working") (Some [numbered_call n]))).

(** An agent that asks for a tool the registry does not have. *)
Definition stray_agent : @agent_config types :=
  mkAgentConfig "You manage tasks."
    (fun _ _ => Ok (mkLlmMessage None
                      (Some [mkToolCall "call_1" "frobnicate" (VDict [])]))).

(** Scenario B of the specification: one [add_task] call, then text. *)
Definition milk_agent : @agent_config types :=
  mkAgentConfig "You manage tasks."
    (fun n _ =>
       match n with
       | O => Ok (mkLlmMessage None (Some [mkToolCall "call_1" "add_task" milk]))
       | S _ => Ok (mkLlmMessage (Some "Added!") None)
       end).

Definition milk_env : @Env types :=
  env_with no_fault (Some (fun _ _ _ => milk_agent)).

(** The third round trip of the run, the refresh, fails. *)
Definition refresh_fails : nat -> option string :=
  fun n => match n with
           | 2 => Some "server closed the connection unexpectedly"
           | _ => None
           end.

Definition long_title : string := PyStr.repeat_char "x" 201.
Definition long_description : string := PyStr.repeat_char "d" 1025.

Definition stray_call : @tool_call types :=
  mkToolCall "call_1" "frobnicate" (VDict []).

(** Three rounds of the eager agent, and of the stray one. *)
Definition eager_run :=
  @ChatService._invoke_agent_with_tools types runtime ChatService.invoke_fuel
    eager_agent [] alice conv1 0 env0 (world_of db0).

Definition stray_run :=
  @ChatService._invoke_agent_with_tools types runtime ChatService.invoke_fuel
    stray_agent [] alice conv1 0 env0 (world_of db0).

(** The turn of scenario B on a fresh conversation. *)
Definition milk_turn :=
  @ChatService.process_chat_message types runtime conv1 alice "Add milk"
    milk_env (world_of db0).

(** Appending a [tool] message, and a [user] message whose refresh
    fails. *)
Definition tool_append :=
  @ConversationService.append_message types conv1 alice "tool"
    "Tool 'add_task' result: done" VNone None env0 (world_of db0).

Definition faulty_append :=
  @ConversationService.append_message types conv1 alice "user" "hello"
    VNone None (env_with refresh_fails None) (world_of db0).

(** Three conversations, two of [alice] and one of [bob], and a message
    in each of the first two. *)
Definition plans : Conversation := mkConversation "c2" alice "Plans" 5 9.
Definition other : Conversation := mkConversation "c3" bob "Other" 6 20.

Definition plans_db : @DB types :=
  mkDB [conversation1; plans; other]
       [message_at 1 "first";
        mkMessage "m2" "c2" alice "user" "second" VNone None 2].

(** An agent that answers with text, and one whose completion call
    times out. *)
Definition text_agent : @agent_config types :=
  mkAgentConfig "You manage tasks."
    (fun _ _ => Ok (mkLlmMessage (Some "Hello!") None)).

Definition text_env : @Env types :=
  env_with no_fault (Some (fun _ _ _ => text_agent)).




(** A title of 199 letters followed by two spaces. *)
Definition padded_title : string := PyStr.repeat_char "x" 199 +++ "  ".

Definition some_uuid : string := "7d9f2c1e-5b7a-4c3d-9e1f-0a2b4c6d8e0f".

End Scenario.

(* ===================================================================== *)
(** * Properties *)
(* ===================================================================== *)

(** ** Strings *)

Module StrFacts.
Import PyStr.

Lemma lstrip_head (s : string) :
  match lstrip s with
  | EmptyString => True
  | String c _ => is_space c = false
  end.
Proof.
  induction s as [|c r IH]; simpl; [exact I|].
  destruct (is_space c) eqn:E; [exact IH|]. simpl. exact E.
Qed.

Lemma rstrip_idem (s : string) : rstrip (rstrip s) = rstrip s.
Proof.
  induction s as [|c r IH]; simpl; [reflexivity|].
  destruct (is_space c && is_empty (rstrip r)) eqn:E; simpl; [reflexivity|].
  rewrite IH, E. reflexivity.
Qed.

Lemma lstrip_rstrip (s : string) :
  match s with EmptyString => True | String c _ => is_space c = false end ->
  lstrip (rstrip s) = rstrip s.
Proof.
  destruct s as [|c r]; simpl; [reflexivity|].
  intros E. rewrite E. simpl. rewrite E. reflexivity.
Qed.

(** Trimming a trimmed string changes nothing. *)
Lemma strip_idem (s : string) : strip (strip s) = strip s.
Proof.
  unfold strip.
  rewrite (lstrip_rstrip (lstrip s) (lstrip_head s)).
  apply rstrip_idem.
Qed.

Lemma long_not_empty s n : (n < String.length s)%nat -> is_empty s = false.
Proof. destruct s; simpl; [lia|reflexivity]. Qed.

End StrFacts.

(** ** Validators *)

Lemma res_bind_ok {A B} (m : result A) (k : A -> result B) b :
  Res.bind m k = Ok b -> exists a, m = Ok a /\ k a = Ok b.
Proof. destruct m; simpl; [eauto|discriminate]. Qed.

Ltac bind_inv H :=
  let a := fresh "a" in
  let E := fresh "E" in
  apply res_bind_ok in H; destruct H as (a & E & H).

Ltac binds_inv E :=
  repeat (apply res_bind_ok in E; destruct E as (? & ? & E)).

Ltac stage E :=
  match type of E with
  | (if ?c then _ else _) = Ok _ =>
      destruct c; [binds_inv E|]; injection E as <-
  end.

Section ValidatorFacts.
Context {T : PyTypes} {R : PyRuntime}.
Import Validators.

Lemma reject_if_ok cond msg u : reject_if cond msg = Ok u -> cond = false.
Proof. destruct cond; [discriminate|reflexivity]. Qed.

Lemma py_strip_ok v s :
  py_strip v = Ok s -> exists t, v = VStr t /\ s = PyStr.strip t.
Proof. destruct v; simpl; try discriminate. intros [= <-]. eauto. Qed.

Lemma add_task_output x y :
  validate_add_task_input x = Ok y ->
  exists title description priority due_date,
    y = [("title", VStr title); ("description", description);
         ("priority", priority); ("due_date", due_date)]
    /\ (description = VNone \/ exists d, description = VStr d)
    /\ (due_date = VNone \/ exists d, due_date = VDateTime d).
Proof.
  unfold validate_add_task_input. intros H.
  bind_inv H. bind_inv H. bind_inv H. bind_inv H. bind_inv H. bind_inv H.
  bind_inv H. bind_inv H.
  injection H as <-.
  do 4 eexists. split; [reflexivity|]. split.
  - destruct a3 as [d|]; [|now left]. unfold str_or_none.
    destruct (PyStr.is_empty d); [now left|right; eauto].
  - destruct (dict_has "due_date" x); [|injection E6 as <-; now left].
    bind_inv E6. injection E6 as <-. right; eauto.
Qed.

(** The output of [validate_add_task_input] always holds the keys
    [description] and [due_date], with [None] or a [datetime]: the
    validator's own [.strip()] and [.replace()] fail on them. *)
Lemma add_task_never_revalidates x y :
  validate_add_task_input x = Ok y ->
  Res.is_ok (validate_add_task_input y) = false.
Proof.
  intros H. destruct (add_task_output _ _ H)
    as (title & description & priority & due_date & -> & Hd & Hdd).
  unfold validate_add_task_input. simpl.
  destruct (reject_if (PyStr.is_empty (PyStr.strip title)) _); [|reflexivity].
  simpl.
  destruct (reject_if (200 <? String.length (PyStr.strip title))%nat _);
    [|reflexivity].
  simpl.
  destruct Hd as [-> | [d ->]]; [reflexivity|]. simpl.
  destruct (reject_if _ _); [|reflexivity]. simpl.
  destruct (reject_if _ _); [|reflexivity]. simpl.
  destruct Hdd as [-> | [dd ->]]; reflexivity.
Qed.

Lemma checked_int_ok v f m1 m2 n :
  checked_int v f m1 m2 = Ok n -> f n = false.
Proof.
  unfold checked_int. destruct (py_int v) as [k|e]; simpl.
  - destruct (f k) eqn:E; simpl; [discriminate|]. now intros [= <-].
  - match goal with
    | |- (if ?c then _ else _) = _ -> _ => destruct c; discriminate
    end.
Qed.

Lemma checked_int_again f m1 m2 n :
  f n = false -> checked_int (VInt n) f m1 m2 = Ok n.
Proof. unfold checked_int. simpl. now intros ->. Qed.

Lemma list_tasks_idempotent x y :
  validate_list_tasks_input x = Ok y -> validate_list_tasks_input y = Ok y.
Proof.
  unfold validate_list_tasks_input. intros H.
  bind_inv H. bind_inv H. bind_inv H. injection H as <-.
  apply reject_if_ok in E. apply checked_int_ok in E0, E1.
  unfold dict_get in *. simpl. rewrite E. simpl.
  rewrite (checked_int_again (fun n => (n <? 1) || (100 <? n))%Z _ _ a0 E0).
  simpl.
  rewrite (checked_int_again (fun n => n <? 0)%Z _ _ a1 E1). reflexivity.
Qed.

Lemma complete_task_idempotent x y :
  validate_complete_task_input x = Ok y ->
  validate_complete_task_input y = Ok y.
Proof.
  unfold validate_complete_task_input. intros H.
  bind_inv H. bind_inv H. injection H as <-.
  unfold dict_get, dict_has in *. simpl. rewrite E0. reflexivity.
Qed.

Lemma delete_task_idempotent x y :
  validate_delete_task_input x = Ok y -> validate_delete_task_input y = Ok y.
Proof.
  unfold validate_delete_task_input. intros H.
  bind_inv H. bind_inv H. injection H as <-.
  unfold dict_get, dict_has in *. simpl. rewrite E0. reflexivity.
Qed.

Lemma update_task_revalidation x y :
  validate_update_task_input x = Ok y ->
  (stable_update y = true -> validate_update_task_input y = Ok y)
  /\ (stable_update y = false ->
      Res.is_ok (validate_update_task_input y) = false).
Proof.
  unfold validate_update_task_input. intros H.
  apply res_bind_ok in H. destruct H as (u0 & _ & H).
  apply res_bind_ok in H. destruct H as (u1 & Hid & H).
  apply res_bind_ok in H. destruct H as (r1 & H1 & H).
  apply res_bind_ok in H. destruct H as (r2 & H2 & H).
  apply res_bind_ok in H. destruct H as (r3 & H3 & H).
  stage H1; stage H2; stage H3; stage H.
  all: repeat match goal with
       | E : reject_if _ _ = Ok _ |- _ => apply reject_if_ok in E
       | E : py_strip _ = Ok _ |- _ =>
           apply py_strip_ok in E; destruct E as (? & ? & ->)
       end.
  all: unfold stable_update, dict_has, dict_get, str_or_none in *; simpl.
  all: repeat match goal with
       | |- context [if PyStr.is_empty ?s then VNone else _] =>
           let E := fresh "Hempty" in destruct (PyStr.is_empty s) eqn:E
       end.
  all: simpl in *.
  all: split; intros Hs; try discriminate Hs.
  all: rewrite ?Hid; simpl.
  all: repeat match goal with
       | E : ?c = false |- context [reject_if ?c _] => rewrite E; simpl
       end.
  all: try reflexivity.
  all: rewrite ?StrFacts.strip_idem.
  all: repeat match goal with
       | E : ?c = false |- context [?c] => rewrite E; simpl
       end.
  all: try reflexivity.
Qed.

(** C9 (as amended).  Re-validating the normalized output of a tool's
    validator is a no-op exactly on the stable outputs: every output of
    [list_tasks], [complete_task] and [delete_task], and the outputs of
    [update_task] that hold no [due_date] and no [None] description; on
    every other output, so on every output of [add_task], re-validation
    raises. *)
Theorem revalidation_of_validated_input (tool_name : string) (x y : pydict) :
  validate_tool_input tool_name x = Ok y ->
  (stable_output tool_name y = true -> validate_tool_input tool_name y = Ok y)
  /\ (stable_output tool_name y = false ->
      Res.is_ok (validate_tool_input tool_name y) = false).
Proof.
  unfold validate_tool_input, _VALIDATORS, stable_output.
  destruct (String.eqb tool_name "add_task") eqn:E1.
  { intros H. split; [discriminate|].
    intros _. now apply add_task_never_revalidates with (x := x). }
  destruct (String.eqb tool_name "list_tasks") eqn:E2.
  { apply String.eqb_eq in E2. subst tool_name. simpl.
    intros H. split; [intros _; now apply list_tasks_idempotent with (x := x)
                     |discriminate]. }
  destruct (String.eqb tool_name "complete_task") eqn:E3.
  { apply String.eqb_eq in E3. subst tool_name. simpl.
    intros H. split; [intros _; now apply complete_task_idempotent with (x := x)
                     |discriminate]. }
  destruct (String.eqb tool_name "delete_task") eqn:E4.
  { apply String.eqb_eq in E4. subst tool_name. simpl.
    intros H. split; [intros _; now apply delete_task_idempotent with (x := x)
                     |discriminate]. }
  destruct (String.eqb tool_name "update_task") eqn:E5.
  { intros H. now apply update_task_revalidation with (x := x). }
  discriminate.
Qed.

End ValidatorFacts.

(** ** Tool executor *)

Section RaiseFacts.
Context {T : PyTypes}.

Lemma raises_ret {A} P (a : A) : raises_only P (Eff.ret a).
Proof. intros env w e w' H. discriminate H. Qed.

Lemma raises_bind {A B} P (m : M A) (k : A -> M B) :
  raises_only P m -> (forall a, raises_only P (k a)) ->
  raises_only P (Eff.bind m k).
Proof.
  intros Hm Hk env w e w'. unfold Eff.bind.
  destruct (m env w) as [[a|e0] w0] eqn:E.
  - apply Hk.
  - intros [= <- <-]. eapply Hm, E.
Qed.

Lemma raises_throw {A} (P : exn -> Prop) c msg :
  P (mkExn c msg) -> raises_only P (@Eff.throw T A c msg).
Proof. intros HP env w e w' [= <- <-]. exact HP. Qed.

Lemma raises_raise {A} (P : exn -> Prop) e0 :
  P e0 -> raises_only P (@Eff.raise T A e0).
Proof. intros HP env w e w' [= <- <-]. exact HP. Qed.

Lemma raises_lift {A} (P : exn -> Prop) (r : result A) :
  (forall e, r = Raise e -> P e) -> raises_only P (Eff.lift r).
Proof. intros HP env w e w' [= -> <-]. now apply HP. Qed.

Lemma raises_if {A} P (c : bool) (m1 m2 : M A) :
  raises_only P m1 -> raises_only P m2 ->
  raises_only P (if c then m1 else m2).
Proof. destruct c; auto. Qed.

Lemma raises_utcnow P : raises_only P utcnow.
Proof. intros env w e w' H. discriminate H. Qed.

Lemma raises_uuid4 P : raises_only P uuid4.
Proof. intros env w e w' H. discriminate H. Qed.

Lemma same_store_refl w : same_store w w.
Proof. repeat split. Qed.

Lemma same_store_trans w1 w2 w3 :
  same_store w1 w2 -> same_store w2 w3 -> same_store w1 w3.
Proof.
  unfold same_store. intros (a1 & a2 & a3 & a4 & a5) (b1 & b2 & b3 & b4 & b5).
  repeat split; congruence.
Qed.

Lemma quiet_ret {A} (a : A) : quiet (Eff.ret a).
Proof. intros env w r w' [= <- <-]. apply same_store_refl. Qed.

Lemma quiet_raise {A} e : quiet (@Eff.raise T A e).
Proof. intros env w r w' [= <- <-]. apply same_store_refl. Qed.

Lemma quiet_throw {A} c msg : quiet (@Eff.throw T A c msg).
Proof. apply quiet_raise. Qed.

Lemma quiet_lift {A} (x : result A) : quiet (Eff.lift x).
Proof. intros env w r w' [= <- <-]. apply same_store_refl. Qed.

Lemma quiet_bind {A B} (m : M A) (k : A -> M B) :
  quiet m -> (forall a, quiet (k a)) -> quiet (Eff.bind m k).
Proof.
  intros Hm Hk env w r w'. unfold Eff.bind.
  destruct (m env w) as [[a|e] w0] eqn:E.
  - intros H. eapply same_store_trans; [eapply Hm, E|eapply Hk, H].
  - intros [= <- <-]. eapply Hm, E.
Qed.

Lemma quiet_if {A} (c : bool) (m1 m2 : M A) :
  quiet m1 -> quiet m2 -> quiet (if c then m1 else m2).
Proof. destruct c; auto. Qed.

Lemma quiet_utcnow : quiet utcnow.
Proof. intros env w r w' [= <- <-]. repeat split. Qed.

Lemma quiet_uuid4 : quiet uuid4.
Proof. intros env w r w' [= <- <-]. repeat split. Qed.

End RaiseFacts.

Create HintDb raises.
Create HintDb quiet.

Ltac raises :=
  repeat first
    [ solve [auto with raises]
    | apply raises_bind; [|intros ?]
    | apply raises_if ].

Ltac quiet :=
  repeat first
    [ solve [auto with quiet]
    | apply quiet_bind; [|intros ?]
    | apply quiet_if ].

Section ExecutorFacts.
Context {T : PyTypes} {R : PyRuntime}.
Import ToolExecutor.

Lemma raises_reject_if c msg : raises_only handler_exn (reject_if c msg).
Proof.
  unfold reject_if. apply raises_if.
  - apply raises_throw. now left.
  - apply raises_ret.
Qed.

Lemma raises_args_get args k d : raises_only handler_exn (args_get args k d).
Proof.
  destruct args; simpl; try apply raises_ret;
    apply raises_raise; right; left; reflexivity.
Qed.

Lemma raises_py_strip v : raises_only handler_exn (Eff.lift (py_strip v)).
Proof.
  apply raises_lift. destruct v; simpl; intros e [= <-];
    right; left; reflexivity.
Qed.

Lemma raises_check_iso v msg : raises_only handler_exn (check_iso v msg).
Proof.
  apply raises_lift.
  destruct v; simpl; try (intros e [= <-]; right; right; reflexivity).
  destruct (fromisoformat s); simpl; intros e [= <-]. now left.
Qed.

Lemma raises_check_task_id v : raises_only handler_exn (check_task_id v).
Proof.
  unfold check_task_id. apply raises_bind; [apply raises_reject_if|intros _].
  apply raises_lift.
  destruct v; simpl; try (intros e [= <-]; cbv; tauto).
  destruct (uuid_ok s); simpl; intros e [= <-]. now left.
Qed.

#[local] Hint Resolve raises_ret raises_reject_if raises_args_get
  raises_py_strip raises_check_iso raises_check_task_id raises_utcnow
  raises_uuid4 : raises.

(** A handler raises a validation, attribute or type error; only the
    dispatcher raises [ToolNotFoundError], with its own text. *)
Lemma raises_dispatch tool_name args user_id :
  raises_only
    (fun e => handler_exn e
              \/ e = mkExn ToolNotFoundError ("Unknown tool: " +++ tool_name))
    (dispatch tool_name args user_id).
Proof.
  assert (W : forall A (m : M A), raises_only handler_exn m ->
            raises_only (fun e => handler_exn e
              \/ e = mkExn ToolNotFoundError ("Unknown tool: " +++ tool_name)) m).
  { intros A m Hm env w e w' H. left. eapply Hm, H. }
  unfold dispatch.
  repeat (apply raises_if; [apply W|]).
  - unfold _execute_add_task. raises.
  - unfold _execute_list_tasks. raises.
  - unfold _execute_complete_task. raises.
  - unfold _execute_delete_task. raises.
  - unfold _execute_update_task. raises.
  - apply raises_throw. now right.
Qed.

Lemma quiet_reject_if c msg : quiet (reject_if c msg).
Proof.
  unfold reject_if. apply quiet_if; [apply quiet_throw|apply quiet_ret].
Qed.

Lemma quiet_args_get args k d : quiet (args_get args k d).
Proof. destruct args; simpl; first [apply quiet_ret|apply quiet_raise]. Qed.

Lemma quiet_check_task_id v : quiet (check_task_id v).
Proof.
  unfold check_task_id.
  apply quiet_bind; [apply quiet_reject_if|intros _; apply quiet_lift].
Qed.

Lemma quiet_check_iso v msg : quiet (check_iso v msg).
Proof. apply quiet_lift. Qed.

#[local] Hint Resolve quiet_ret quiet_lift quiet_utcnow quiet_uuid4
  quiet_reject_if quiet_args_get quiet_check_task_id quiet_check_iso
  quiet_throw : quiet.

(** No handler touches the database, the services or the trace. *)
Lemma quiet_dispatch tool_name args user_id :
  quiet (dispatch tool_name args user_id).
Proof.
  unfold dispatch. repeat apply quiet_if.
  - unfold _execute_add_task. quiet.
  - unfold _execute_list_tasks. quiet.
  - unfold _execute_complete_task. quiet.
  - unfold _execute_delete_task. quiet.
  - unfold _execute_update_task. quiet.
  - apply quiet_throw.
Qed.

Lemma unknown_tool_dispatch tool_name args user_id :
  Registry.validate_tool_name tool_name = false ->
  dispatch tool_name args user_id
  = Eff.throw ToolNotFoundError ("Unknown tool: " +++ tool_name).
Proof.
  unfold Registry.validate_tool_name, Registry.get_tool_names, dispatch.
  simpl. intros H.
  repeat (apply orb_false_iff in H; destruct H as [-> H]). reflexivity.
Qed.

Lemma execute_run tool_name arguments user_id conversation_id env w :
  execute tool_name arguments user_id conversation_id env w
  = match dispatch tool_name arguments user_id env
            (logged (EvExecute tool_name) w) with
    | (Ok r, w1) => (Ok (outcome true tool_name r VNone), w1)
    | (Raise e, w1) =>
        (Ok (outcome false tool_name VNone (VStr (error_text e))), w1)
    end.
Proof.
  unfold execute, Eff.bind, Eff.try_except, log, error_text.
  fold (logged (EvExecute tool_name) w).
  destruct (dispatch tool_name arguments user_id env
              (logged (EvExecute tool_name) w)) as [[r|e] w1]; [reflexivity|].
  destruct (is_instance e [ToolValidationError]); [reflexivity|].
  destruct (is_instance e [ToolNotFoundError]); reflexivity.
Qed.

(** What every run of [execute] looks like to the loop. *)
Lemma execute_frame tool_name arguments user_id conversation_id env w :
  exists success res error w',
    execute tool_name arguments user_id conversation_id env w
    = (Ok (outcome success tool_name res error), w')
    /\ committed w' = committed w /\ session w' = session w
    /\ db_trips w' = db_trips w /\ completions w' = completions w
    /\ trace w' = trace w ++ [EvExecute tool_name].
Proof.
  rewrite execute_run.
  destruct (dispatch tool_name arguments user_id env
              (logged (EvExecute tool_name) w)) as [[r|e] w1] eqn:E;
    apply quiet_dispatch in E; destruct E as (a1 & a2 & a3 & a4 & a5);
    do 3 eexists; exists w1; (split; [reflexivity|]); simpl in *; auto.
Qed.

Lemma error_text_not_empty tool_name e :
  handler_exn e \/ e = mkExn ToolNotFoundError ("Unknown tool: " +++ tool_name) ->
  error_text e <> "".
Proof.
  unfold error_text.
  destruct (is_instance e [ToolValidationError]) eqn:Ev; [discriminate|].
  destruct (is_instance e [ToolNotFoundError]) eqn:En; [|discriminate].
  intros [[Hc|[Hc|Hc]] | ->];
    try (unfold is_instance in En; simpl in En; rewrite Hc in En;
         discriminate En).
  discriminate.
Qed.

(** C10.  [ToolExecutor.execute] returns, for every tool name and every
    arguments value, the dict [{success, tool_name, result, error}] and
    raises nothing: when the handler returns, [success] is [True] with
    the handler's result and [error] is [None]; when the handler raises
    (validation failure or any other exception) or the name is unknown,
    [success] is [False], [result] is [None] and [error] is a non-empty
    string. *)
Theorem execute_total tool_name arguments user_id conversation_id env w :
  exists success res error w',
    execute tool_name arguments user_id conversation_id env w
    = (Ok (outcome success tool_name res error), w')
    /\ (if success then error = VNone
        else res = VNone /\ exists msg, error = VStr msg /\ msg <> "")
    /\ match dispatch tool_name arguments user_id env
               (logged (EvExecute tool_name) w) with
       | (Ok r, w1) => success = true /\ res = r /\ w' = w1
       | (Raise e, w1) =>
           success = false /\ w' = w1
           /\ (exn_cls e = ToolValidationError ->
               error = VStr ("Validation error: " +++ exn_str e))
       end
    /\ (Registry.validate_tool_name tool_name = false ->
        success = false
        /\ error = VStr ("Unknown tool: " +++ tool_name)).
Proof.
  rewrite execute_run.
  pose proof (raises_dispatch tool_name arguments user_id env
                (logged (EvExecute tool_name) w)) as Hraise.
  pose proof (unknown_tool_dispatch tool_name arguments user_id) as Hunk.
  destruct (dispatch tool_name arguments user_id env
              (logged (EvExecute tool_name) w)) as [[r|e] w1] eqn:E.
  - exists true, r, VNone, w1.
    split; [reflexivity|]. split; [reflexivity|]. split; [auto|].
    intros Hn. rewrite (Hunk Hn) in E. discriminate E.
  - specialize (Hraise e w1 eq_refl).
    exists false, VNone, (VStr (error_text e)), w1.
    split; [reflexivity|].
    split.
    { split; [reflexivity|]. eexists. split; [reflexivity|].
      eapply error_text_not_empty, Hraise. }
    split.
    + split; [reflexivity|]. split; [reflexivity|].
      intros Hc. unfold error_text, is_instance. simpl. rewrite Hc.
      reflexivity.
    + intros Hn. rewrite (Hunk Hn) in E. injection E as <- <-.
      split; reflexivity.
Qed.

Lemma ltb_true n m : (n < m)%nat -> (n <? m)%nat = true.
Proof. apply Nat.ltb_lt. Qed.

Lemma ltb_false n m : (m <= n)%nat -> (n <? m)%nat = false.
Proof. apply Nat.ltb_ge. Qed.

End ExecutorFacts.

Section AddTaskLimits.
Context {T : PyTypes} {R : PyRuntime}.
Import ToolExecutor.

(** C7.  An [add_task] input whose title is longer than 200 characters
    after trimming, or whose description is longer than 1024 characters
    after trimming, is rejected by both validation paths, the
    validators of [mcp_server] and the handler behind
    [ToolExecutor.execute]: the error names the field ([title must be
    ...], [description must be ...]), nothing is truncated, and the
    executor's world is the one it was called in but for the trace, so no
    task identifier is drawn and no store is written.  An over-long
    description is never accepted whatever the title is; with a title
    that is itself valid the error names the description. *)
Theorem add_task_rejects_overlong (args : pydict) :
  (forall title,
     dict_find "title" args = Some (VStr title) ->
     (200 < String.length (PyStr.strip title))%nat ->
     Validators.validate_add_task_input args
     = Raise (mkExn ValidationError "title must be <= 200 characters")
     /\ forall user_id conversation_id env w,
          execute "add_task" (VDict args) user_id conversation_id env w
          = (Ok (outcome false "add_task" VNone
                   (VStr "Validation error: title must be max 200 characters")),
             logged (EvExecute "add_task") w))
  /\
  (forall description,
     dict_find "description" args = Some (VStr description) ->
     (1024 < String.length (PyStr.strip description))%nat ->
     Res.is_ok (Validators.validate_add_task_input args) = false
     /\ (forall user_id conversation_id env w, exists error,
          execute "add_task" (VDict args) user_id conversation_id env w
          = (Ok (outcome false "add_task" VNone (VStr error)),
             logged (EvExecute "add_task") w))
     /\ (forall title,
           dict_find "title" args = Some (VStr title) ->
           PyStr.is_empty (PyStr.strip title) = false ->
           (String.length (PyStr.strip title) <= 200)%nat ->
           Validators.validate_add_task_input args
           = Raise (mkExn ValidationError
                      "description must be <= 1024 characters")
           /\ forall user_id conversation_id env w,
                execute "add_task" (VDict args) user_id conversation_id env w
                = (Ok (outcome false "add_task" VNone
                         (VStr "Validation error: description must be max 1024 characters")),
                   logged (EvExecute "add_task") w))).
Proof.
  split.
  - intros title Ht Hlen.
    pose proof (StrFacts.long_not_empty _ _ Hlen) as Hne.
    pose proof (ltb_true _ _ Hlen) as Hlt.
    split.
    + unfold Validators.validate_add_task_input, dict_has, dict_get.
      rewrite Ht. simpl. rewrite Hne, Hlt. reflexivity.
    + intros user_id conversation_id env w.
      unfold execute, dispatch, _execute_add_task, Eff.bind, Eff.try_except,
        log, args_get, dict_get. simpl. rewrite Ht. simpl.
      rewrite Hne. simpl. rewrite Hlt. reflexivity.
  - intros description Hd Hlen.
    pose proof (StrFacts.long_not_empty _ _ Hlen) as Hne.
    pose proof (ltb_true _ _ Hlen) as Hlt.
    split; [|split].
    + unfold Validators.validate_add_task_input, dict_has, dict_get.
      rewrite Hd.
      destruct (dict_find "title" args) as [[]|]; try reflexivity. simpl.
      destruct (PyStr.is_empty (PyStr.strip s)); [reflexivity|]. simpl.
      destruct (200 <? String.length (PyStr.strip s))%nat; [reflexivity|].
      simpl. rewrite Hne, Hlt. reflexivity.
    + intros user_id conversation_id env w.
      unfold execute, dispatch, _execute_add_task, Eff.bind, Eff.try_except,
        log, args_get, dict_get. simpl. rewrite Hd.
      destruct (dict_find "title" args) as [[]|];
        try (eexists; reflexivity). simpl.
      destruct (PyStr.is_empty (PyStr.strip s));
        [eexists; reflexivity|]. simpl.
      destruct (200 <? String.length (PyStr.strip s))%nat;
        [eexists; reflexivity|].
      simpl. rewrite Hne. simpl. rewrite Hlt. eexists; reflexivity.
    + intros title Ht Htne Htlen. pose proof (ltb_false _ _ Htlen) as Htl.
      split.
      * unfold Validators.validate_add_task_input, dict_has, dict_get.
        rewrite Ht, Hd. simpl. rewrite Htne, Htl. simpl.
        rewrite Hne, Hlt. reflexivity.
      * intros user_id conversation_id env w.
        unfold execute, dispatch, _execute_add_task, Eff.bind, Eff.try_except,
          log, args_get, dict_get. simpl. rewrite Ht, Hd. simpl.
        rewrite Htne. simpl. rewrite Htl. simpl. rewrite Hne. simpl.
        rewrite Hlt. reflexivity.
Qed.

End AddTaskLimits.

(** ** Conversation store *)

Ltac run_result H := inversion H; subst; clear H; simpl.

Ltac settle :=
  repeat match goal with
         | |- _ /\ _ => split
         | |- forall _, _ => intro
         | H : _ \/ _ |- _ => destruct H
         end;
  try solve [ reflexivity | discriminate | congruence | assumption
            | left; reflexivity | left; assumption ].

Section StoreFacts.
Context {T : PyTypes}.
Import ConversationRepository ConversationService.

Lemma append_rejects_role conversation_id user_id role content tool_calls
    tokens_used env w :
  existsb (String.eqb role) ["user"; "assistant"] = false ->
  append_message conversation_id user_id role content tool_calls tokens_used
    env w
  = (Raise (mkExn ValueError
       ("Invalid role '" +++ role +++ "' - must be 'user' or 'assistant'")), w).
Proof. unfold append_message. intros ->. reflexivity. Qed.

(** An accepted append on an owned conversation, the lookup and the
    commit not failing: both changes are committed, and the call returns
    the message or raises what the refresh raised. *)
Lemma append_message_commit_run conversation_id user_id role content
    tool_calls tokens_used env w c :
  existsb (String.eqb role) ["user"; "assistant"] = true ->
  session w = committed w ->
  owned_rows (committed w) conversation_id user_id = [c] ->
  db_fault env (db_trips w) = None ->
  db_fault env (S (db_trips w)) = None ->
  let m := mkMessage (uuid4_at env (uuids_drawn w)) conversation_id
             user_id role content tool_calls tokens_used
             (utcnow_at env (clock_reads w)) in
  exists w',
    append_message conversation_id user_id role content tool_calls
      tokens_used env w
    = (match db_fault env (S (S (db_trips w))) with
       | None => Ok m
       | Some msg => Raise (mkExn SQLAlchemyError msg)
       end, w')
    /\ committed w'
       = appended (committed w) c m (utcnow_at env (S (clock_reads w))).
Proof.
  intros Hrole Hs Ho F0 F1. unfold append_message. rewrite Hrole.
  cbv [Eff.try_except Eff.bind new_message uuid4 utcnow
    session_add_message get_by_id db_trip Eff.get set_session
    scalar_one_or_none Eff.ret Eff.throw Eff.raise session_rollback
    session_add_conversation session_commit session_refresh].
  simpl. rewrite Hs. unfold owned_rows in Ho. rewrite F0. simpl.
  rewrite Ho. simpl. rewrite F1. simpl.
  destruct (db_fault env (S (S (db_trips w)))); simpl;
    eexists; split; reflexivity.
Qed.

(** C8 (as amended).  Starting with no open transaction, every run of
    [append_message] leaves the committed store either as it was or with
    both changes, the inserted message and the conversation's new
    [updated_at], and leaves no transaction open.  With an accepted
    role, an owned conversation and no fault of the lookup or of the
    commit, both changes are committed: the call returns the message,
    or, when the refresh that follows the commit fails, raises that
    error with both changes already committed.  A role that is refused,
    a missing or foreign conversation, and a fault of the lookup or of
    the commit make the call raise and leave the store unchanged.  So a
    run that returns has committed both, and a run that raises has left
    the store unchanged unless the exception comes from the refresh. *)
Theorem append_message_atomic conversation_id user_id role content tool_calls
    tokens_used env w r w' :
  session w = committed w ->
  append_message conversation_id user_id role content tool_calls tokens_used
    env w = (r, w') ->
  session w' = committed w'
  /\ (forall c,
        existsb (String.eqb role) ["user"; "assistant"] = true ->
        owned_rows (committed w) conversation_id user_id = [c] ->
        db_fault env (db_trips w) = None ->
        db_fault env (S (db_trips w)) = None ->
        let m := mkMessage (uuid4_at env (uuids_drawn w)) conversation_id
                   user_id role content tool_calls tokens_used
                   (utcnow_at env (clock_reads w)) in
        committed w'
        = appended (committed w) c m (utcnow_at env (S (clock_reads w)))
        /\ (db_fault env (S (S (db_trips w))) = None -> r = Ok m)
        /\ (forall msg, db_fault env (S (S (db_trips w))) = Some msg ->
                        r = Raise (mkExn SQLAlchemyError msg)))
  /\ (forall m, r = Ok m ->
        exists c, owned_rows (committed w) conversation_id user_id = [c]
          /\ committed w'
             = appended (committed w) c m (utcnow_at env (S (clock_reads w))))
  /\ (forall e, r = Raise e ->
        committed w' = committed w
        \/ (db_fault env (db_trips w) = None
            /\ db_fault env (S (db_trips w)) = None
            /\ db_fault env (S (S (db_trips w))) <> None
            /\ exists c m,
                 owned_rows (committed w) conversation_id user_id = [c]
                 /\ committed w'
                    = appended (committed w) c m
                        (utcnow_at env (S (clock_reads w)))))
  /\ (existsb (String.eqb role) ["user"; "assistant"] = false ->
        Res.is_ok r = false /\ committed w' = committed w)
  /\ (owned_rows (committed w) conversation_id user_id = [] ->
        Res.is_ok r = false /\ committed w' = committed w)
  /\ (db_fault env (db_trips w) <> None
      \/ db_fault env (S (db_trips w)) <> None ->
        Res.is_ok r = false /\ committed w' = committed w).
Proof.
  intros Hs Hrun.
  assert (Hcommit :
    forall c,
      existsb (String.eqb role) ["user"; "assistant"] = true ->
      owned_rows (committed w) conversation_id user_id = [c] ->
      db_fault env (db_trips w) = None ->
      db_fault env (S (db_trips w)) = None ->
      let m := mkMessage (uuid4_at env (uuids_drawn w)) conversation_id
                 user_id role content tool_calls tokens_used
                 (utcnow_at env (clock_reads w)) in
      committed w'
      = appended (committed w) c m (utcnow_at env (S (clock_reads w)))
      /\ (db_fault env (S (S (db_trips w))) = None -> r = Ok m)
      /\ (forall msg, db_fault env (S (S (db_trips w))) = Some msg ->
                      r = Raise (mkExn SQLAlchemyError msg))).
  { intros c Hrole Ho F0 F1 m.
    destruct (append_message_commit_run conversation_id user_id role content
                tool_calls tokens_used env w c Hrole Hs Ho F0 F1)
      as (w1 & Hval & Hc).
    rewrite Hval in Hrun. injection Hrun as <- <-.
    split; [exact Hc|]. split.
    - intros ->. reflexivity.
    - intros msg ->. reflexivity. }
  split; [|split; [exact Hcommit|]]; clear Hcommit; revert Hrun;
    unfold append_message;
    (destruct (existsb (String.eqb role) ["user"; "assistant"]) eqn:Hrole;
     cbn [negb];
     [|unfold Eff.throw, Eff.raise; intros H; run_result H; settle]);
    cbv [Eff.try_except Eff.bind new_message uuid4 utcnow
      session_add_message get_by_id db_trip Eff.get set_session
      scalar_one_or_none Eff.ret Eff.throw Eff.raise session_rollback
      session_add_conversation session_commit session_refresh];
    simpl; rewrite Hs; unfold owned_rows;
    (destruct (db_fault env (db_trips w)) as [msg0|] eqn:F0; simpl;
     [intros H; run_result H; settle|]);
    (destruct (filter _ (conversations (committed w)))
       as [|c [|c2 rest]] eqn:Ho; simpl;
     [intros H; run_result H; settle| |intros H; run_result H; settle]);
    (destruct (db_fault env (S (db_trips w))) as [msg1|] eqn:F1; simpl;
     [intros H; run_result H; settle|]);
    destruct (db_fault env (S (S (db_trips w)))) as [msg2|] eqn:F2; simpl;
    intros H; run_result H; settle.
  - right. settle. eexists c, _. split; reflexivity.
  - match goal with H : Ok _ = Ok _ |- _ => injection H as <- end.
    exists c. split; reflexivity.
Qed.

(** What an accepted append does to the world. *)
Lemma append_message_run conversation_id user_id role content tool_calls
    tokens_used env w c :
  role = "user" \/ role = "assistant" ->
  session w = committed w ->
  owned_rows (committed w) conversation_id user_id = [c] ->
  db_fault env (db_trips w) = None ->
  db_fault env (S (db_trips w)) = None ->
  db_fault env (S (S (db_trips w))) = None ->
  exists w',
    let m := mkMessage (uuid4_at env (uuids_drawn w)) conversation_id
               user_id role content tool_calls tokens_used
               (utcnow_at env (clock_reads w)) in
    append_message conversation_id user_id role content tool_calls
      tokens_used env w = (Ok m, w')
    /\ committed w'
       = appended (committed w) c m (utcnow_at env (S (clock_reads w)))
    /\ session w' = committed w'
    /\ completions w' = completions w
    /\ trace w' = trace w.
Proof.
  intros Hrole Hs Ho F0 F1 F2.
  assert (Hr : negb (existsb (String.eqb role) ["user"; "assistant"]) = false)
    by (destruct Hrole as [-> | ->]; reflexivity).
  unfold append_message. rewrite Hr.
  cbv [Eff.try_except Eff.bind new_message uuid4 utcnow
    session_add_message get_by_id db_trip Eff.get set_session
    scalar_one_or_none Eff.ret Eff.throw Eff.raise session_rollback
    session_add_conversation session_commit session_refresh].
  simpl. rewrite Hs. unfold owned_rows in Ho. rewrite F0. simpl.
  rewrite Ho. simpl. rewrite F1. simpl. rewrite F2. simpl.
  eexists. repeat split; reflexivity.
Qed.

(** C3 (as amended).  [append_message] accepts exactly the roles [user]
    and [assistant]: with one of them, an owned conversation and no
    database fault it creates the message and commits it; with any other
    role, [tool] among them, it raises [ValueError] before anything is
    read or written. *)
Theorem append_message_roles conversation_id user_id role content tool_calls
    tokens_used env w :
  (role = "user" \/ role = "assistant" ->
   forall c,
     session w = committed w ->
     owned_rows (committed w) conversation_id user_id = [c] ->
     db_fault env (db_trips w) = None ->
     db_fault env (S (db_trips w)) = None ->
     db_fault env (S (S (db_trips w))) = None ->
     exists w',
       let m := mkMessage (uuid4_at env (uuids_drawn w)) conversation_id
                  user_id role content tool_calls tokens_used
                  (utcnow_at env (clock_reads w)) in
       append_message conversation_id user_id role content tool_calls
         tokens_used env w = (Ok m, w')
       /\ committed w'
          = appended (committed w) c m (utcnow_at env (S (clock_reads w))))
  /\ (role <> "user" -> role <> "assistant" ->
      append_message conversation_id user_id role content tool_calls
        tokens_used env w
      = (Raise (mkExn ValueError
           ("Invalid role '" +++ role +++ "' - must be 'user' or 'assistant'")),
         w)).
Proof.
  split.
  - intros Hrole c Hs Ho F0 F1 F2.
    destruct (append_message_run conversation_id user_id role content
                tool_calls tokens_used env w c Hrole Hs Ho F0 F1 F2)
      as (w' & Hrun & Hc & _).
    exists w'. split; assumption.
  - intros H1 H2. apply append_rejects_role. simpl.
    apply String.eqb_neq in H1, H2. rewrite H1, H2. reflexivity.
Qed.

End StoreFacts.

Section IsolationFacts.
Context {T : PyTypes}.
Import ConversationRepository ConversationService.

Lemma unique_by_id (l : list Conversation) x y :
  NoDup (map conv_id l) -> In x l -> In y l -> conv_id x = conv_id y -> x = y.
Proof.
  induction l as [|a l IH]; simpl; [tauto|].
  intros Hnd. inversion Hnd as [|? ? Hnotin Hnd']; subst.
  intros [-> | Hx] [-> | Hy] Heq; auto.
  - exfalso. apply Hnotin. rewrite Heq. now apply in_map.
  - exfalso. apply Hnotin. rewrite <- Heq. now apply in_map.
Qed.

Lemma owned_rows_in (d : DB) conversation_id user_id x :
  In x (owned_rows d conversation_id user_id) ->
  In x (conversations d) /\ conv_id x = conversation_id
  /\ conv_user_id x = user_id.
Proof.
  unfold owned_rows. intros Hx. apply filter_In in Hx.
  destruct Hx as [Hx Hb]. apply andb_true_iff in Hb.
  destruct Hb as [Hb1 Hb2]. apply String.eqb_eq in Hb1, Hb2. auto.
Qed.

(** A conversation of another owner is not among the rows selected. *)
Lemma not_owned_rows (d : DB) c conversation_id user_id :
  unique_ids d -> In c (conversations d) -> conv_id c = conversation_id ->
  conv_user_id c <> user_id ->
  owned_rows d conversation_id user_id = [].
Proof.
  intros Hu Hin Hid Hneq.
  destruct (owned_rows d conversation_id user_id) as [|x rest] eqn:E;
    [reflexivity|].
  exfalso.
  destruct (owned_rows_in d conversation_id user_id x) as (Hx & Hxi & Hxu);
    [rewrite E; now left|].
  assert (x = c) by (eapply unique_by_id; eauto; congruence).
  subst x. contradiction.
Qed.

(** Neither is there a row for an identifier that does not exist. *)
Lemma absent_rows (d : DB) conversation_id user_id :
  (forall x, In x (conversations d) -> conv_id x <> conversation_id) ->
  owned_rows d conversation_id user_id = [].
Proof.
  intros Habs.
  destruct (owned_rows d conversation_id user_id) as [|x rest] eqn:E;
    [reflexivity|].
  exfalso.
  destruct (owned_rows_in d conversation_id user_id x) as (Hx & Hxi & Hxu);
    [rewrite E; now left|].
  exact (Habs x Hx Hxi).
Qed.

Lemma get_by_id_run conversation_id user_id env w :
  get_by_id conversation_id user_id env w
  = let w1 := mkWorld (committed w) (session w) (clock_reads w)
                (uuids_drawn w) (S (db_trips w)) (completions w) (trace w) in
    match db_fault env (db_trips w) with
    | Some msg => (Raise (mkExn SQLAlchemyError msg), w1)
    | None =>
        scalar_one_or_none (owned_rows (session w) conversation_id user_id)
          env w1
    end.
Proof.
  cbv [get_by_id Eff.bind db_trip Eff.get].
  destruct (db_fault env (db_trips w)); reflexivity.
Qed.

(** C4.  For a conversation owned by somebody else, [get_by_id] does
    exactly what it does for an identifier that no conversation has,
    result and world alike: it returns [None] (unless the database round
    trip itself fails, which it then does for both); and
    [get_recent_messages] returns the empty list for both, so no message
    of the conversation reaches the caller. *)
Theorem non_owner_lookup_indistinguishable env w c conversation_id user_id
    missing_id limit :
  unique_ids (session w) ->
  In c (conversations (session w)) ->
  conv_id c = conversation_id ->
  conv_user_id c <> user_id ->
  (forall x, In x (conversations (session w)) -> conv_id x <> missing_id) ->
  get_by_id conversation_id user_id env w = get_by_id missing_id user_id env w
  /\ (db_fault env (db_trips w) = None ->
      fst (get_by_id conversation_id user_id env w) = Ok None)
  /\ get_recent_messages conversation_id user_id limit env w
     = get_recent_messages missing_id user_id limit env w
  /\ fst (get_recent_messages conversation_id user_id limit env w) = Ok [].
Proof.
  intros Hu Hin Hid Hneq Habs.
  pose proof (not_owned_rows _ _ _ _ Hu Hin Hid Hneq) as E1.
  pose proof (absent_rows _ _ user_id Habs) as E2.
  assert (G : get_by_id conversation_id user_id env w
              = get_by_id missing_id user_id env w)
    by (rewrite !get_by_id_run, E1, E2; reflexivity).
  split; [exact G|]. split; [|split].
  - intros F. rewrite get_by_id_run, E1, F. reflexivity.
  - unfold get_recent_messages, Eff.try_except, Eff.bind. rewrite <- G.
    rewrite get_by_id_run, E1.
    destruct (db_fault env (db_trips w)); reflexivity.
  - unfold get_recent_messages, Eff.try_except, Eff.bind.
    rewrite get_by_id_run, E1.
    destruct (db_fault env (db_trips w)); reflexivity.
Qed.

(** *** Ordering of the history *)

Lemma insert_members m l y :
  In y (insert_by_created_at m l) -> y = m \/ In y l.
Proof.
  induction l as [|z r IH]; simpl.
  - intros [->|[]]. now left.
  - destruct (msg_created_at m <=? msg_created_at z)%Z; simpl.
    + intros [->|[->|H]]; auto.
    + intros [->|H]; auto. destruct (IH H); auto.
Qed.

Lemma insert_sorted m l :
  StronglySorted older_or_same l ->
  StronglySorted older_or_same (insert_by_created_at m l).
Proof.
  induction 1 as [|x r Hs IH Hall]; simpl.
  - repeat constructor.
  - destruct (msg_created_at m <=? msg_created_at x)%Z eqn:E.
    + apply Z.leb_le in E. constructor; [now constructor|].
      constructor; [exact E|].
      eapply Forall_impl; [|exact Hall].
      intros a Ha. unfold older_or_same in *. lia.
    + apply Z.leb_gt in E. constructor; [exact IH|].
      apply Forall_forall. intros y Hy.
      destruct (insert_members m r y Hy) as [->|Hr].
      * unfold older_or_same. lia.
      * rewrite Forall_forall in Hall. now apply Hall.
Qed.

Lemma order_sorted l : StronglySorted older_or_same (order_by_created_at l).
Proof.
  induction l as [|m r IH]; simpl; [constructor|now apply insert_sorted].
Qed.

Lemma in_firstn {A} n (l : list A) y : In y (firstn n l) -> In y l.
Proof.
  revert n. induction l as [|x r IH]; intros [|n]; simpl; try tauto.
  intros [->|H]; [now left|right; eauto].
Qed.

Lemma firstn_sorted n (l : list Message) :
  StronglySorted older_or_same l -> StronglySorted older_or_same (firstn n l).
Proof.
  intros H. revert n. induction H as [|x r Hs IH Hall]; intros [|n]; simpl;
    try constructor; auto.
  apply Forall_forall. intros y Hy. rewrite Forall_forall in Hall.
  apply Hall. eapply in_firstn; eauto.
Qed.

(** [get_recent_messages] always returns: nothing, or the first [limit]
    rows of the conversation in ascending [created_at]. *)
Lemma get_recent_messages_run conversation_id user_id limit env w :
  exists l w',
    get_recent_messages conversation_id user_id limit env w = (Ok l, w')
    /\ (l = [] \/ l = select_messages (session w) conversation_id user_id limit).
Proof.
  unfold get_recent_messages, Eff.try_except, Eff.bind.
  rewrite get_by_id_run.
  cbv [scalar_one_or_none Eff.ret Eff.throw Eff.raise db_trip Eff.get].
  destruct (db_fault env (db_trips w)); simpl;
    [do 2 eexists; split; [reflexivity|now left]|].
  destruct (owned_rows (session w) conversation_id user_id) as [|c [|c2 r]];
    simpl; try (do 2 eexists; split; [reflexivity|now left]).
  destruct (db_fault env (S (db_trips w))); simpl;
    do 2 eexists; (split; [reflexivity|auto]).
Qed.

(** The part of C5 that the code keeps: the history is returned oldest
    first. *)
Lemma get_recent_messages_oldest_first conversation_id user_id limit env w :
  exists l w',
    get_recent_messages conversation_id user_id limit env w = (Ok l, w')
    /\ StronglySorted older_or_same l.
Proof.
  destruct (get_recent_messages_run conversation_id user_id limit env w)
    as (l & w' & E & [-> | ->]); eexists; exists w'; (split; [exact E|]).
  - constructor.
  - apply firstn_sorted, order_sorted.
Qed.

End IsolationFacts.

(** C5 (the code at the failing input).  On a conversation that holds
    three messages, created at times 1, 2 and 3, [get_recent_messages]
    with limit 2 returns the two oldest, [first] and [second]: the most
    recent message, [third], is left out. *)
Theorem get_recent_messages_returns_oldest :
  fst (ConversationService.get_recent_messages Sample.conv1 Sample.alice 2
         Sample.env0 (Sample.world_of Sample.db3))
  = Ok [Sample.message_at 1 "first"; Sample.message_at 2 "second"]
  /\ messages Sample.db3
     = [Sample.message_at 1 "first"; Sample.message_at 2 "second";
        Sample.message_at 3 "third"].
Proof. split; reflexivity. Qed.

(** ** Orchestration loop *)

Section LoopFacts.
Context {T : PyTypes} {R : PyRuntime}.
Import ChatService.

Lemma same_database_refl w : same_database w w.
Proof. repeat split. Qed.

Lemma same_database_trans w1 w2 w3 :
  same_database w1 w2 -> same_database w2 w3 -> same_database w1 w3.
Proof.
  unfold same_database. intros (a1 & a2 & a3 & a4) (b1 & b2 & b3 & b4).
  repeat split; congruence.
Qed.

(** One tool call: at most one execution, no write to the store (the
    [tool]-role append is refused by the role check), and one or two
    records, the second one the error of that append. *)
Lemma run_tool_call_spec tc user_id conversation_id made env w :
  exists new names w',
    run_tool_call tc user_id conversation_id made env w = (Ok (made ++ new), w')
    /\ same_database w w'
    /\ trace w' = trace w ++ map EvExecute names
    /\ (List.length names <= 1)%nat
    /\ Forall well_formed new
    /\ Forall (fun r => record_name r = tc_name tc) new
    /\ Forall (fun n => n = tc_name tc) names.
Proof.
  unfold run_tool_call, Eff.try_except at 1, Eff.bind at 1.
  unfold Eff.lift at 1.
  destruct (decode_arguments (tc_arguments tc)) as [args_dict|e].
  2:{ exists [Failed (tc_id tc) (tc_name tc) (exn_str e)], [], w.
      simpl. rewrite app_nil_r.
      repeat split; auto; repeat constructor. }
  unfold Eff.bind at 1.
  destruct (execute_frame (tc_name tc) args_dict user_id conversation_id env w)
    as (success & res & error & w1 & Ex & F1 & F2 & F3 & F4 & F5).
  rewrite Ex.
  assert (Hinner : exists msg,
    Eff.try_except
      (Eff.bind (Eff.lift (py_get (ToolExecutor.outcome success (tc_name tc) res error)
                             "result" (ToolExecutor.outcome success (tc_name tc) res error)))
         (fun shown =>
          Eff.bind (Eff.lift (json_dumps shown)) (fun dumped =>
          Eff.bind (Eff.lift (py_get (ToolExecutor.outcome success (tc_name tc) res error)
                                "result" VNone)) (fun stored =>
          Eff.bind (ConversationService.append_message conversation_id user_id
                      "tool" ("Tool '" +++ tc_name tc +++ "' result: " +++ dumped)
                      (VDict [("tool_name", VStr (tc_name tc)); ("result", stored)])
                      None)
            (fun _ => Eff.ret
               (made ++ [Executed (tc_id tc) (tc_name tc) args_dict
                           (ToolExecutor.outcome success (tc_name tc) res error)]))))))
      (fun e => Eff.ret
         ((made ++ [Executed (tc_id tc) (tc_name tc) args_dict
                      (ToolExecutor.outcome success (tc_name tc) res error)])
          ++ [Failed (tc_id tc) (tc_name tc) (exn_str e)]))
      env w1
    = (Ok ((made ++ [Executed (tc_id tc) (tc_name tc) args_dict
                       (ToolExecutor.outcome success (tc_name tc) res error)])
           ++ [Failed (tc_id tc) (tc_name tc) msg]), w1)).
  { cbv [Eff.try_except Eff.bind Eff.lift py_get ToolExecutor.outcome dict_get].
    simpl.
    destruct (json_dumps res) as [dumped|e]; eexists; reflexivity. }
  destruct Hinner as (msg & Hinner). rewrite Hinner.
  exists [Executed (tc_id tc) (tc_name tc) args_dict
            (ToolExecutor.outcome success (tc_name tc) res error);
          Failed (tc_id tc) (tc_name tc) msg], [tc_name tc], w1.
  rewrite <- app_assoc. simpl.
  repeat split; auto; repeat constructor.
Qed.

(** The [for] loop of one round: it returns, executes at most
    [MAX_TOOL_CALLS_PER_TURN - i] calls, all of registered tools, and
    leaves the store alone. *)
Lemma tool_loop_spec tcs user_id conversation_id :
  forall i made env w,
  exists new names w',
    tool_loop i tcs user_id conversation_id made env w = (Ok (made ++ new), w')
    /\ same_database w w'
    /\ trace w' = trace w ++ map EvExecute names
    /\ (List.length names <= MAX_TOOL_CALLS_PER_TURN - i)%nat
    /\ Forall well_formed new
    /\ Forall (fun r => Registry.validate_tool_name (record_name r) = true) new
    /\ Forall (fun n => Registry.validate_tool_name n = true) names.
Proof.
  induction tcs as [|tc rest IH]; intros i made env w; cbn [tool_loop].
  - exists [], [], w. rewrite !app_nil_r. simpl.
    split; [reflexivity|]. split; [apply same_database_refl|].
    split; [reflexivity|]. split; [lia|]. repeat split; constructor.
  - destruct (MAX_TOOL_CALLS_PER_TURN <=? i)%nat eqn:Hi.
    { exists [], [], w. rewrite !app_nil_r. simpl.
      split; [reflexivity|]. split; [apply same_database_refl|].
      split; [reflexivity|]. split; [lia|]. repeat split; constructor. }
    apply Nat.leb_gt in Hi.
    destruct (Registry.validate_tool_name (tc_name tc)) eqn:Hv; cbn [negb].
    + unfold Eff.bind.
      destruct (run_tool_call_spec tc user_id conversation_id made env w)
        as (new1 & names1 & w1 & E1 & D1 & T1 & L1 & W1 & N1 & M1).
      rewrite E1.
      destruct (IH (S i) (made ++ new1) env w1)
        as (new2 & names2 & w2 & E2 & D2 & T2 & L2 & W2 & N2 & M2).
      rewrite E2.
      exists (new1 ++ new2), (names1 ++ names2), w2.
      rewrite app_assoc. split; [reflexivity|].
      split; [eapply same_database_trans; eauto|].
      split; [rewrite T2, T1, map_app, app_assoc; reflexivity|].
      split; [rewrite length_app; lia|].
      split; [apply Forall_app; auto|].
      split; apply Forall_app; split; auto.
      * eapply Forall_impl; [|exact N1]. simpl. intros r ->. exact Hv.
      * eapply Forall_impl; [|exact M1]. simpl. intros n ->. exact Hv.
    + destruct (IH (S i) made env w)
        as (new2 & names2 & w2 & E2 & D2 & T2 & L2 & W2 & N2 & M2).
      exists new2, names2, w2.
      split; [exact E2|]. split; [exact D2|]. split; [exact T2|].
      split; [lia|]. auto.
Qed.

Lemma tool_messages_ok made :
  Forall well_formed made -> exists results, tool_messages made = Ok results.
Proof.
  induction 1 as [|r rest Hr _ (results & IH)]; simpl; [eauto|].
  rewrite IH.
  destruct r as [id name arguments res|id name error]; simpl;
    [|eexists; reflexivity].
  destruct res; simpl in Hr; try contradiction. eexists; reflexivity.
Qed.

Lemma create_completion_run agent messages env w :
  create_completion agent messages env w
  = (client agent (completions w) messages, after_completion w).
Proof. reflexivity. Qed.

(** What leaves [_invoke_agent_with_tools] as an exception is the
    [TypeError] of its handler chain. *)
Lemma invoke_raises_type_error fuel agent messages user_id conversation_id
    retry_count env w e w' :
  _invoke_agent_with_tools fuel agent messages user_id conversation_id
    retry_count env w = (Raise e, w') ->
  e = except_Timeout.
Proof.
  destruct fuel as [|fuel]; cbn [_invoke_agent_with_tools].
  - discriminate.
  - unfold Eff.try_except.
    match goal with |- context [let (_, _) := ?m env w in _] =>
      destruct (m env w) as [[r|e0] w0] end.
    + discriminate.
    + unfold Eff.raise. intros [= <- _]. reflexivity.
Qed.

(** One round that requests tools: the loop runs, and the invocation
    either answers (at the retry bound) or goes on with the extended
    history and the next retry count. *)
Lemma round_step agent messages user_id conversation_id retry_count
    env w content tc tcs :
  client agent (completions w)
    (RoleContent "system" (system_prompt agent) :: messages)
  = Ok (mkLlmMessage content (Some (tc :: tcs))) ->
  exists made names w2 results,
    tool_loop 0 (tc :: tcs) user_id conversation_id [] env (after_completion w)
    = (Ok made, w2)
    /\ same_database (after_completion w) w2
    /\ trace w2 = trace w ++ EvCompletion :: map EvExecute names
    /\ (List.length names <= MAX_TOOL_CALLS_PER_TURN)%nat
    /\ Forall (fun r => Registry.validate_tool_name (record_name r) = true) made
    /\ Forall (fun n => Registry.validate_tool_name n = true) names
    /\ tool_messages made = Ok results
    /\ forall fuel,
       _invoke_agent_with_tools (S fuel) agent messages user_id
         conversation_id retry_count env w
       = if (MAX_RETRIES_ON_INVALID_TOOL_CALL <=? retry_count)%nat
         then (Ok (Some (mkAgentResponse true
                           (match content with Some s => s | None => "" end)
                           None,
                         Some made)), w2)
         else _invoke_agent_with_tools fuel agent
                (messages
                 ++ [AssistantToolCalls
                       (match content with Some s => s | None => "" end)
                       (tc :: tcs)]
                 ++ results)
                user_id conversation_id (S retry_count) env w2.
Proof.
  intros Hc.
  destruct (tool_loop_spec (tc :: tcs) user_id conversation_id 0 [] env
              (after_completion w))
    as (made & names & w2 & E & D & Tr & L & W & N & M0).
  simpl app in E.
  destruct (tool_messages_ok made W) as (results & Hres).
  exists made, names, w2, results.
  split; [exact E|]. split; [exact D|].
  split; [rewrite Tr; simpl; rewrite <- app_assoc; reflexivity|].
  split; [unfold MAX_TOOL_CALLS_PER_TURN in *; lia|].
  split; [exact N|]. split; [exact M0|]. split; [exact Hres|].
  intros fuel. cbn [_invoke_agent_with_tools].
  unfold Eff.try_except, Eff.bind at 1.
  rewrite create_completion_run, Hc. cbn [llm_content llm_tool_calls].
  unfold Eff.bind at 1. rewrite E.
  unfold Eff.bind at 1, Eff.lift at 1. rewrite Hres.
  destruct (MAX_RETRIES_ON_INVALID_TOOL_CALL <=? retry_count)%nat;
    [reflexivity|].
  match goal with
  | |- context [_invoke_agent_with_tools fuel ?a ?m ?u ?c ?r env w2] =>
      destruct (_invoke_agent_with_tools fuel a m u c r env w2)
        as [[r0|e] w'] eqn:Hnext
  end; [reflexivity|].
  apply invoke_raises_type_error in Hnext. subst e. reflexivity.
Qed.

(** A round that requests no tool answers at once. *)
Lemma plain_step agent messages user_id conversation_id retry_count env w
    content fuel :
  client agent (completions w)
    (RoleContent "system" (system_prompt agent) :: messages)
  = Ok (mkLlmMessage content None) ->
  _invoke_agent_with_tools (S fuel) agent messages user_id conversation_id
    retry_count env w
  = (Ok (Some (mkAgentResponse true
                 (match content with Some s => s | None => "" end) None,
               None)),
     after_completion w).
Proof.
  intros Hc. cbn [_invoke_agent_with_tools].
  unfold Eff.try_except, Eff.bind at 1.
  rewrite create_completion_run, Hc. reflexivity.
Qed.

End LoopFacts.

Section LoopTheorems.
Context {T : PyTypes} {R : PyRuntime}.
Import ChatService.

(** The bounded loop.  When every response of the completion service
    requests a tool call, [_invoke_agent_with_tools], started at retry
    count 0, returns with fuel [MAX_RETRIES + 1 = 3] (and with any more)
    after exactly three calls of the completion service; its events are
    three rounds, each one completion call followed by at most
    [MAX_TOOL_CALLS_PER_TURN = 5] executions; it reports success with the
    text of the third response (empty when the response has none) and
    with the list [tool_calls_made] of the third invocation, which is
    what the tool loop of that round produced from an empty list; the
    committed store is as before. *)
Theorem orchestration_loop_bounded agent messages user_id conversation_id
    env w :
  always_requests_tools agent ->
  exists names1 names2 names3 history3 last calls w3 made w',
    client agent (completions w + 2)
      (RoleContent "system" (system_prompt agent) :: history3) = Ok last
    /\ llm_tool_calls last = Some calls
    /\ tool_loop 0 calls user_id conversation_id [] env w3 = (Ok made, w')
    /\ (forall extra,
          _invoke_agent_with_tools (invoke_fuel + extra) agent messages user_id
            conversation_id 0 env w
          = (Ok (Some (mkAgentResponse true (content_or_empty last) None,
                       Some made)), w'))
    /\ completions w' = (completions w + 3)%nat
    /\ trace w'
       = trace w ++ (EvCompletion :: map EvExecute names1)
                 ++ (EvCompletion :: map EvExecute names2)
                 ++ (EvCompletion :: map EvExecute names3)
    /\ (List.length names1 <= MAX_TOOL_CALLS_PER_TURN)%nat
    /\ (List.length names2 <= MAX_TOOL_CALLS_PER_TURN)%nat
    /\ (List.length names3 <= MAX_TOOL_CALLS_PER_TURN)%nat
    /\ committed w' = committed w.
Proof.
  intros Hreq.
  destruct (Hreq (completions w)
              (RoleContent "system" (system_prompt agent) :: messages))
    as (c1 & tc1 & tcs1 & H1).
  destruct (round_step agent messages user_id conversation_id 0 env w _ _ _ H1)
    as (made1 & names1 & w1 & res1 & _ & (D1a & D1b & D1c & D1d) & T1 & L1
        & _ & _ & _ & Step1).
  simpl in D1a, D1b, D1c, D1d.
  set (history2 := messages ++ [AssistantToolCalls
          (match c1 with Some s => s | None => "" end) (tc1 :: tcs1)] ++ res1)
    in *.
  destruct (Hreq (completions w1)
              (RoleContent "system" (system_prompt agent) :: history2))
    as (c2 & tc2 & tcs2 & H2).
  destruct (round_step agent history2 user_id conversation_id 1 env w1 _ _ _ H2)
    as (made2 & names2 & w2 & res2 & _ & (D2a & D2b & D2c & D2d) & T2 & L2
        & _ & _ & _ & Step2).
  simpl in D2a, D2b, D2c, D2d.
  set (history3 := history2 ++ [AssistantToolCalls
          (match c2 with Some s => s | None => "" end) (tc2 :: tcs2)] ++ res2)
    in *.
  destruct (Hreq (completions w2)
              (RoleContent "system" (system_prompt agent) :: history3))
    as (c3 & tc3 & tcs3 & H3).
  destruct (round_step agent history3 user_id conversation_id 2 env w2 _ _ _ H3)
    as (made3 & names3 & w3 & res3 & Loop3 & (D3a & D3b & D3c & D3d) & T3 & L3
        & _ & _ & _ & Step3).
  simpl in D3a, D3b, D3c, D3d.
  exists names1, names2, names3, history3,
    (mkLlmMessage c3 (Some (tc3 :: tcs3))), (tc3 :: tcs3),
    (after_completion w2), made3, w3.
  split; [replace (completions w + 2)%nat with (completions w2) by lia;
          exact H3|].
  split; [reflexivity|]. split; [exact Loop3|].
  split.
  { intros extra. unfold invoke_fuel, MAX_RETRIES_ON_INVALID_TOOL_CALL.
    cbn [Nat.add]. rewrite Step1. cbn [Nat.leb]. fold history2.
    rewrite Step2. cbn [Nat.leb]. fold history3.
    rewrite Step3. reflexivity. }
  split; [lia|].
  split; [rewrite T3, T2, T1; repeat rewrite <- app_assoc; reflexivity|].
  repeat split; auto. congruence.
Qed.

(** C6 (as amended).  A requested call whose tool name is not in the
    registry is passed over by the loop: below the per-round cap, the
    loop on it and the rest is the loop on the rest, so nothing is
    executed, retried, persisted or recorded for it; no record of a
    round, executed or failed, and no execution carries its name; and a
    round that requests it does not fail: at the retry bound it answers
    with [success = True], below the bound the invocation goes on to the
    next completion call. *)
Theorem unknown_tool_skipped_unrecorded (tc : tool_call) :
  Registry.validate_tool_name (tc_name tc) = false ->
  (forall rest i user_id conversation_id made env w,
     (i < MAX_TOOL_CALLS_PER_TURN)%nat ->
     tool_loop i (tc :: rest) user_id conversation_id made env w
     = tool_loop (S i) rest user_id conversation_id made env w)
  /\ (forall tcs i user_id conversation_id made env w,
      exists new names w',
        tool_loop i tcs user_id conversation_id made env w
        = (Ok (made ++ new), w')
        /\ trace w' = trace w ++ map EvExecute names
        /\ Forall (fun r => record_name r <> tc_name tc) new
        /\ ~ In (tc_name tc) names)
  /\ (forall agent messages user_id conversation_id env w content tcs fuel,
      client agent (completions w)
        (RoleContent "system" (system_prompt agent) :: messages)
      = Ok (mkLlmMessage content (Some (tc :: tcs))) ->
      exists made w',
        _invoke_agent_with_tools (S fuel) agent messages user_id
          conversation_id MAX_RETRIES_ON_INVALID_TOOL_CALL env w
        = (Ok (Some (mkAgentResponse true
                       (match content with Some s => s | None => "" end)
                       None,
                     Some made)), w')
        /\ Forall (fun r => record_name r <> tc_name tc) made)
  /\ (forall agent messages user_id conversation_id env w content tcs fuel
             retry_count,
      (retry_count < MAX_RETRIES_ON_INVALID_TOOL_CALL)%nat ->
      client agent (completions w)
        (RoleContent "system" (system_prompt agent) :: messages)
      = Ok (mkLlmMessage content (Some (tc :: tcs))) ->
      exists history w',
        _invoke_agent_with_tools (S fuel) agent messages user_id
          conversation_id retry_count env w
        = _invoke_agent_with_tools fuel agent history user_id
            conversation_id (S retry_count) env w').
Proof.
  intros Hunknown. split; [|split; [|split]].
  - intros rest i user_id conversation_id made env w Hi.
    cbn [tool_loop]. apply Nat.leb_gt in Hi. rewrite Hi, Hunknown.
    reflexivity.
  - intros tcs i user_id conversation_id made env w.
    destruct (tool_loop_spec tcs user_id conversation_id i made env w)
      as (new & names & w' & E & _ & Tr & _ & _ & N & M0).
    exists new, names, w'. split; [exact E|]. split; [exact Tr|]. split.
    + eapply Forall_impl; [|exact N]. simpl. intros r Hr Heq.
      rewrite Heq, Hunknown in Hr. discriminate Hr.
    + intros Hin. rewrite Forall_forall in M0. specialize (M0 _ Hin).
      rewrite Hunknown in M0. discriminate M0.
  - intros agent messages user_id conversation_id env w content tcs fuel Hc.
    destruct (round_step agent messages user_id conversation_id
                MAX_RETRIES_ON_INVALID_TOOL_CALL env w _ _ _ Hc)
      as (made & names & w2 & res & _ & _ & _ & _ & N & _ & _ & Step).
    exists made, w2. split; [rewrite Step; reflexivity|].
    eapply Forall_impl; [|exact N]. simpl. intros r Hr Heq.
    rewrite Heq, Hunknown in Hr. discriminate Hr.
  - intros agent messages user_id conversation_id env w content tcs fuel
      retry_count Hlt Hc.
    destruct (round_step agent messages user_id conversation_id
                retry_count env w _ _ _ Hc)
      as (made & names & w2 & res & _ & _ & _ & _ & _ & _ & _ & Step).
    apply Nat.leb_gt in Hlt.
    eexists _, w2. rewrite Step, Hlt. reflexivity.
Qed.

End LoopTheorems.

(** ** A whole turn *)

Section TurnFacts.
Context {T : PyTypes} {R : PyRuntime}.
Import ConversationRepository ConversationService ChatService.

Lemma filter_map_commute {A} (f : A -> bool) (g : A -> A) (l : list A) :
  (forall x, In x l -> f (g x) = f x) ->
  filter f (map g l) = map g (filter f l).
Proof.
  induction l as [|a l IH]; simpl; [reflexivity|]. intros H.
  rewrite (H a (or_introl eq_refl)).
  destruct (f a); simpl; rewrite IH; auto.
Qed.

(** The owner still owns the conversation after an append. *)
Lemma owned_after_append (d : DB) c m now conversation_id user_id :
  unique_ids d ->
  owned_rows d conversation_id user_id = [c] ->
  owned_rows (appended d c m now) conversation_id user_id = [touch c now].
Proof.
  intros Hu Ho.
  destruct (owned_rows_in d conversation_id user_id c) as (Hin & Hci & Hcu);
    [rewrite Ho; now left|].
  unfold owned_rows, appended in *. simpl.
  rewrite filter_map_commute.
  - rewrite Ho. simpl. rewrite String.eqb_refl. reflexivity.
  - intros x Hx. destruct (String.eqb (conv_id x) (conv_id c)) eqn:E;
      [|reflexivity].
    apply String.eqb_eq in E.
    assert (x = c) by (eapply unique_by_id; eauto). subst x.
    reflexivity.
Qed.

Lemma get_conversation_run conversation_id user_id env w c :
  owned_rows (session w) conversation_id user_id = [c] ->
  db_fault env (db_trips w) = None ->
  get_conversation conversation_id user_id env w
  = (Ok (Some c),
     mkWorld (committed w) (session w) (clock_reads w) (uuids_drawn w)
       (S (db_trips w)) (completions w) (trace w)).
Proof.
  intros Ho F. unfold get_conversation. rewrite get_by_id_run, F, Ho.
  reflexivity.
Qed.

Lemma get_recent_messages_owned conversation_id user_id limit env w c :
  owned_rows (session w) conversation_id user_id = [c] ->
  db_fault env (db_trips w) = None ->
  db_fault env (S (db_trips w)) = None ->
  get_recent_messages conversation_id user_id limit env w
  = (Ok (select_messages (session w) conversation_id user_id limit),
     mkWorld (committed w) (session w) (clock_reads w) (uuids_drawn w)
       (S (S (db_trips w))) (completions w) (trace w)).
Proof.
  intros Ho F0 F1.
  unfold get_recent_messages, Eff.try_except, Eff.bind.
  rewrite get_by_id_run, F0, Ho.
  cbv [scalar_one_or_none Eff.ret db_trip Eff.get]. simpl. rewrite F1.
  reflexivity.
Qed.

(** The turn of scenario B, step by step: the user message is
    committed, the round's tool message is refused by the store, the
    final assistant message is committed. *)
Lemma tool_turn_run conversation_id user_id user_message env w c call_id
    arguments content1 text :
  session w = committed w ->
  unique_ids (committed w) ->
  owned_rows (committed w) conversation_id user_id = [c] ->
  no_faults env ->
  tool_then_text env (completions w) call_id arguments content1 text ->
  exists u a count w',
    process_chat_message conversation_id user_id user_message env w
    = (Ok (Some (mkChatResult true None (Text text) conversation_id
                   (Some []) (Some count))), w')
    /\ messages (committed w') = messages (committed w) ++ [u; a]
    /\ msg_role u = "user" /\ msg_content u = user_message
    /\ msg_role a = "assistant" /\ msg_content a = text
    /\ msg_tool_calls a = VNone
    /\ completions w' = (completions w + 2)%nat.
Proof.
  intros Hs Hu Ho Hf (create & Hfac & Hclient).
  unfold process_chat_message, Eff.try_except, Eff.bind at 1.
  rewrite (get_conversation_run conversation_id user_id env w c)
    by (rewrite ?Hs; auto).
  set (w1 := mkWorld (committed w) (session w) (clock_reads w) (uuids_drawn w)
               (S (db_trips w)) (completions w) (trace w)).
  unfold Eff.bind at 1.
  destruct (append_message_run conversation_id user_id "user" user_message
              VNone None env w1 c)
    as (w2 & Ha & C2 & S2 & K2 & T2); auto.
  rewrite Ha.
  set (u := mkMessage (uuid4_at env (uuids_drawn w1)) conversation_id user_id
              "user" user_message VNone None (utcnow_at env (clock_reads w1)))
    in *.
  set (now1 := utcnow_at env (S (clock_reads w1))) in *.
  assert (Ho2 : owned_rows (session w2) conversation_id user_id
                = [touch c now1]).
  { rewrite S2, C2. apply owned_after_append; auto. }
  unfold Eff.bind at 1.
  rewrite (get_recent_messages_owned conversation_id user_id
             MAX_CONVERSATION_HISTORY env w2 (touch c now1)) by auto.
  set (recent := select_messages (session w2) conversation_id user_id
                   MAX_CONVERSATION_HISTORY).
  set (w3 := mkWorld (committed w2) (session w2) (clock_reads w2)
               (uuids_drawn w2) (S (S (db_trips w2))) (completions w2)
               (trace w2)).
  unfold Eff.bind at 1, Eff.ask at 1. rewrite Hfac.
  set (agent := create user_id conversation_id (List.length recent)).
  unfold Eff.bind at 1.
  assert (K3 : completions w3 = completions w)
    by (simpl; rewrite K2; reflexivity).
  destruct (Hclient user_id conversation_id (List.length recent)
              (RoleContent "system" (system_prompt agent)
               :: _format_messages_for_agent recent)) as [H1 _].
  rewrite <- K3 in H1.
  destruct (round_step agent (_format_messages_for_agent recent) user_id
              conversation_id 0 env w3 _ _ _ H1)
    as (made1 & names1 & w4 & res1 & _ & (D4a & D4b & D4c & D4d) & _ & _
        & _ & _ & _ & Step1).
  simpl in D4a, D4b, D4c, D4d.
  assert (K4 : completions w4 = S (completions w))
    by (rewrite D4d, K2; reflexivity).
  unfold invoke_fuel, MAX_RETRIES_ON_INVALID_TOOL_CALL.
  rewrite Step1.
  change (MAX_RETRIES_ON_INVALID_TOOL_CALL <=? 0)%nat with false.
  cbv iota.
  match goal with
  | |- context [_invoke_agent_with_tools 2 agent ?h user_id conversation_id 1 env w4] =>
      destruct (Hclient user_id conversation_id (List.length recent)
                  (RoleContent "system" (system_prompt agent) :: h))
        as [_ H2];
      rewrite <- K4 in H2;
      rewrite (plain_step agent h user_id conversation_id 1 env w4 _ 1 H2)
  end.
  cbn [ar_success ar_response negb made_or_none made_or_empty].
  unfold Eff.bind at 1.
  destruct (append_message_run conversation_id user_id "assistant" text
              VNone None env (after_completion w4) (touch c now1))
    as (w5 & Hb & C5 & S5 & K5 & T5); auto.
  { simpl. congruence. }
  { simpl. rewrite D4a. change (committed w3) with (committed w2).
    rewrite <- S2. exact Ho2. }
  rewrite Hb.
  eexists u, _, _, w5. split; [reflexivity|].
  split.
  { rewrite C5. simpl. rewrite D4a. change (committed w3) with (committed w2).
    rewrite C2. simpl. rewrite <- app_assoc. reflexivity. }
  repeat split; auto.
  rewrite K5. simpl. rewrite K4. lia.
Qed.

(** C2 (as amended).  For a turn on an owned conversation, with no
    database fault, whose first completion response requests one
    [add_task] call and whose second is plain text: the turn succeeds
    with that text as its reply, after two completion calls, and the
    messages it has committed, [tool]-role messages apart, are exactly
    two, in this order: the user message and the final assistant message
    (with no [tool_calls]).  No assistant message carrying the round's
    tool-call intent is persisted; that message exists only in the
    history sent to the completion service. *)
Theorem tool_turn_persists_user_and_final_assistant conversation_id user_id
    user_message env w c call_id arguments content1 text :
  session w = committed w ->
  unique_ids (committed w) ->
  owned_rows (committed w) conversation_id user_id = [c] ->
  no_faults env ->
  tool_then_text env (completions w) call_id arguments content1 text ->
  exists new u a count w',
    process_chat_message conversation_id user_id user_message env w
    = (Ok (Some (mkChatResult true None (Text text) conversation_id
                   (Some []) (Some count))), w')
    /\ messages (committed w') = messages (committed w) ++ new
    /\ filter (fun m => negb (is_tool_message m)) new = [u; a]
    /\ msg_role u = "user" /\ msg_content u = user_message
    /\ msg_role a = "assistant" /\ msg_content a = text
    /\ msg_tool_calls a = VNone
    /\ completions w' = (completions w + 2)%nat.
Proof.
  intros Hs Hu Ho Hf Hsc.
  destruct (tool_turn_run conversation_id user_id user_message env w c call_id
              arguments content1 text Hs Hu Ho Hf Hsc)
    as (u & a & count & w' & Hrun & Hm & Hur & Huc & Har & Hac & Hat & Hk).
  exists [u; a], u, a, count, w'.
  split; [exact Hrun|]. split; [exact Hm|].
  split; [unfold is_tool_message; simpl; rewrite Hur, Har; reflexivity|].
  repeat split; assumption.
Qed.

End TurnFacts.

(* ===================================================================== *)
(** * Further properties of the code *)
(* ===================================================================== *)

(** ** Conversation store: creating, listing, renaming, deleting *)

Section ConversationFacts.
Context {T : PyTypes}.
Import ConversationRepository ConversationService.

Lemma create_run user_id title env w :
  ConversationRepository.create user_id title env w
  = let c := mkConversation (uuid4_at env (uuids_drawn w)) user_id
               (title_or_default title) (utcnow_at env (clock_reads w))
               (utcnow_at env (S (clock_reads w))) in
    let w1 := mkWorld (committed w)
                (mkDB (conversations (session w) ++ [c]) (messages (session w)))
                (S (S (clock_reads w))) (S (uuids_drawn w)) (S (db_trips w))
                (completions w) (trace w) in
    match db_fault env (db_trips w) with
    | Some msg => (Raise (mkExn SQLAlchemyError msg), w1)
    | None => (Ok c, w1)
    end.
Proof.
  cbv [create Eff.bind uuid4 utcnow session_add_new_conversation Eff.get
       set_session session_flush db_trip Eff.ret].
  simpl. destruct (db_fault env (db_trips w)); reflexivity.
Qed.

(** The two ends of [create_conversation]: committed, or rolled back. *)
Lemma create_conversation_result user_id title env w r w' :
  session w = committed w ->
  create_conversation user_id title env w = (r, w') ->
  session w' = committed w'
  /\ ((r = Ok (uuid4_at env (uuids_drawn w))
       /\ committed w'
          = mkDB (conversations (committed w)
                  ++ [mkConversation (uuid4_at env (uuids_drawn w)) user_id
                        (title_or_default title)
                        (utcnow_at env (clock_reads w))
                        (utcnow_at env (S (clock_reads w)))])
                 (messages (committed w)))
      \/ (Res.is_ok r = false /\ committed w' = committed w)).
Proof.
  intros Hs. unfold create_conversation, Eff.try_except, Eff.bind at 1.
  rewrite create_run. cbv zeta.
  destruct (db_fault env (db_trips w)) as [m0|].
  - cbv [Eff.bind session_rollback Eff.raise]. simpl.
    intros [= <- <-]. simpl. split; [reflexivity|]. right. split; reflexivity.
  - cbv [Eff.bind session_commit db_trip Eff.ret session_rollback Eff.raise].
    simpl.
    destruct (db_fault env (S (db_trips w))) as [m1|]; simpl;
      intros [= <- <-]; simpl.
    + split; [reflexivity|]. right. split; reflexivity.
    + rewrite Hs. split; [reflexivity|]. left. split; reflexivity.
Qed.

(** X1. [create_conversation] is all or nothing: without a database fault
    it commits one new conversation of the caller, under a fresh
    identifier and the title given (or the default), and returns that
    identifier; on a fault it raises, rolls back, and the committed
    store is as before.  Either way no transaction is left open. *)
Theorem create_conversation_all_or_nothing user_id title env w r w' :
  session w = committed w ->
  create_conversation user_id title env w = (r, w') ->
  let c := mkConversation (uuid4_at env (uuids_drawn w)) user_id
             (title_or_default title) (utcnow_at env (clock_reads w))
             (utcnow_at env (S (clock_reads w))) in
  session w' = committed w'
  /\ (db_fault env (db_trips w) = None ->
      db_fault env (S (db_trips w)) = None ->
      r = Ok (conv_id c)
      /\ committed w'
         = mkDB (conversations (committed w) ++ [c]) (messages (committed w)))
  /\ (db_fault env (db_trips w) <> None
      \/ db_fault env (S (db_trips w)) <> None ->
      Res.is_ok r = false /\ committed w' = committed w).
Proof.
  intros Hs. unfold create_conversation, Eff.try_except, Eff.bind at 1.
  rewrite create_run. cbv zeta.
  destruct (db_fault env (db_trips w)) as [m0|] eqn:F0.
  - cbv [Eff.bind session_rollback Eff.raise]. simpl.
    intros H. inversion H; subst; clear H. simpl.
    split; [reflexivity|]. split; [discriminate|]. intros _. split; reflexivity.
  - cbv [Eff.bind session_commit db_trip Eff.ret session_rollback Eff.raise].
    simpl.
    destruct (db_fault env (S (db_trips w))) as [m1|] eqn:F1; simpl;
      intros H; inversion H; subst; clear H; simpl.
    + split; [reflexivity|]. split; [discriminate|]. intros _. split; reflexivity.
    + rewrite Hs. split; [reflexivity|]. split; [intros _ _; split; reflexivity|].
      intros [C|C]; congruence.
Qed.


Lemma owned_rows_app (d : DB) c conversation_id user_id :
  owned_rows (mkDB (conversations d ++ [c]) (messages d)) conversation_id user_id
  = owned_rows d conversation_id user_id
    ++ (if String.eqb (conv_id c) conversation_id
           && String.eqb (conv_user_id c) user_id then [c] else []).
Proof. unfold owned_rows. simpl. rewrite filter_app. reflexivity. Qed.

(** X2. A conversation that was created is found by its owner, under the
    identifier returned, and by nobody else. *)
Theorem created_conversation_is_found user_id title env w id w' :
  session w = committed w ->
  create_conversation user_id title env w = (Ok id, w') ->
  (forall x, In x (conversations (committed w)) -> conv_id x <> id) ->
  db_fault env (db_trips w') = None ->
  (exists c,
     fst (get_conversation id user_id env w') = Ok (Some c)
     /\ conv_id c = id /\ conv_user_id c = user_id
     /\ conv_title c = title_or_default title
     /\ conv_title c <> "")
  /\ (forall other, other <> user_id ->
        fst (get_conversation id other env w') = Ok None).
Proof.
  intros Hs Hrun Hfresh Hf.
  destruct (create_conversation_result user_id title env w _ _ Hs Hrun)
    as (Hs' & [[Hid Hc]|[C _]]); [|discriminate C].
  injection Hid as Hid.
  set (c := mkConversation (uuid4_at env (uuids_drawn w)) user_id
              (title_or_default title) (utcnow_at env (clock_reads w))
              (utcnow_at env (S (clock_reads w)))) in *.
  assert (Hrows : forall u,
            owned_rows (session w') id u
            = if String.eqb user_id u then [c] else []).
  { intros u. rewrite Hs', Hc, owned_rows_app.
    rewrite (absent_rows (committed w) id u Hfresh). simpl.
    rewrite Hid, String.eqb_refl. reflexivity. }
  split.
  - exists c. unfold get_conversation. rewrite get_by_id_run, Hf. cbv zeta.
    rewrite Hrows, String.eqb_refl. simpl.
    repeat split; auto.
    unfold title_or_default. destruct title as [[|a s]|]; simpl; discriminate.
  - intros other Hne. unfold get_conversation.
    rewrite get_by_id_run, Hf. cbv zeta. rewrite Hrows.
    destruct (String.eqb user_id other) eqn:E; [|reflexivity].
    apply String.eqb_eq in E. congruence.
Qed.


(** *** Listing *)

Lemma insert_updated_in c l y :
  In y (insert_by_updated_at c l) <-> y = c \/ In y l.
Proof.
  induction l as [|x r IH]; simpl.
  - intuition.
  - destruct (conv_updated_at x <=? conv_updated_at c)%Z; simpl.
    + intuition.
    + rewrite IH. intuition.
Qed.

Lemma order_updated_in l y : In y (order_by_updated_at_desc l) <-> In y l.
Proof.
  induction l as [|c r IH]; simpl; [tauto|].
  rewrite insert_updated_in, IH. intuition.
Qed.

Lemma insert_updated_sorted c l :
  StronglySorted newer_or_same l ->
  StronglySorted newer_or_same (insert_by_updated_at c l).
Proof.
  induction 1 as [|x r Hs IH Hall]; simpl.
  - repeat constructor.
  - destruct (conv_updated_at x <=? conv_updated_at c)%Z eqn:E.
    + apply Z.leb_le in E. constructor; [now constructor|].
      constructor; [exact E|].
      eapply Forall_impl; [|exact Hall].
      intros a Ha. unfold newer_or_same in *. lia.
    + apply Z.leb_gt in E. constructor; [exact IH|].
      apply Forall_forall. intros y Hy.
      apply insert_updated_in in Hy. destruct Hy as [->|Hr].
      * unfold newer_or_same. lia.
      * rewrite Forall_forall in Hall. now apply Hall.
Qed.

Lemma order_updated_sorted l :
  StronglySorted newer_or_same (order_by_updated_at_desc l).
Proof.
  induction l as [|c r IH]; simpl; [constructor|now apply insert_updated_sorted].
Qed.

Lemma insert_updated_length c l :
  List.length (insert_by_updated_at c l) = S (List.length l).
Proof.
  induction l as [|x r IH]; simpl; [reflexivity|].
  destruct (conv_updated_at x <=? conv_updated_at c)%Z; simpl; congruence.
Qed.

Lemma order_updated_length l :
  List.length (order_by_updated_at_desc l) = List.length l.
Proof.
  induction l as [|c r IH]; simpl; [reflexivity|].
  rewrite insert_updated_length. congruence.
Qed.

Lemma sorted_skipn {A} (R : A -> A -> Prop) n (l : list A) :
  StronglySorted R l -> StronglySorted R (skipn n l).
Proof.
  intros H. revert n. induction H as [|x r Hs IH Hall]; intros [|n]; simpl;
    try constructor; auto.
Qed.

Lemma sorted_firstn {A} (R : A -> A -> Prop) n (l : list A) :
  StronglySorted R l -> StronglySorted R (firstn n l).
Proof.
  intros H. revert n. induction H as [|x r Hs IH Hall]; intros [|n]; simpl;
    try constructor; auto.
  apply Forall_forall. intros y Hy. rewrite Forall_forall in Hall.
  apply Hall. eapply in_firstn; eauto.
Qed.

Lemma in_skipn {A} n (l : list A) y : In y (skipn n l) -> In y l.
Proof.
  revert n. induction l as [|x r IH]; intros [|n]; simpl; try tauto.
  intros H. right. eauto.
Qed.

(** A successful listing is the selection on the transaction's view,
    and reads only. *)
Lemma list_by_user_run user_id limit offset env w l w' :
  list_by_user user_id limit offset env w = (Ok l, w') ->
  l = select_conversations (session w) user_id limit offset
  /\ committed w' = committed w /\ session w' = session w.
Proof.
  cbv [list_by_user Eff.bind db_trip Eff.get Eff.ret].
  destruct (db_fault env (db_trips w)); [discriminate|].
  intros [= <- <-]. simpl. repeat split.
Qed.

Lemma selected_conversations (d : DB) user_id limit offset :
  let l := select_conversations d user_id limit offset in
  Forall (fun c => conv_user_id c = user_id /\ In c (conversations d)) l
  /\ StronglySorted newer_or_same l
  /\ (List.length l <= limit)%nat.
Proof.
  unfold select_conversations. cbv zeta. split; [|split].
  - apply Forall_forall. intros c Hc.
    apply in_firstn, in_skipn, order_updated_in, filter_In in Hc.
    destruct Hc as [Hin Hu]. apply String.eqb_eq in Hu. auto.
  - apply sorted_firstn, sorted_skipn, order_updated_sorted.
  - rewrite length_firstn. lia.
Qed.

(** X3. [list_by_user] returns rows of the caller only, newest first, at most
    [limit] of them; with no offset and a limit that the caller's rows
    do not exceed, it returns every one of them. *)
Theorem list_by_user_owned_newest_first user_id limit offset env w l w' :
  list_by_user user_id limit offset env w = (Ok l, w') ->
  Forall (fun c => conv_user_id c = user_id
                   /\ In c (conversations (session w))) l
  /\ StronglySorted newer_or_same l
  /\ (List.length l <= limit)%nat
  /\ (offset = 0%nat ->
      (List.length (filter (fun c => String.eqb (conv_user_id c) user_id)
                      (conversations (session w))) <= limit)%nat ->
      forall c, In c (conversations (session w)) -> conv_user_id c = user_id ->
                In c l)
  /\ committed w' = committed w /\ session w' = session w.
Proof.
  intros H. apply list_by_user_run in H. destruct H as (-> & Hc & Hs).
  destruct (selected_conversations (session w) user_id limit offset)
    as (Hown & Hsorted & Hlen).
  split; [exact Hown|]. split; [exact Hsorted|]. split; [exact Hlen|].
  split; [|split; [exact Hc|exact Hs]].
  unfold select_conversations.
  intros -> Hall c Hin Hu. simpl.
  rewrite firstn_all2 by (rewrite order_updated_length; exact Hall).
  apply order_updated_in, filter_In. split; [exact Hin|].
  now apply String.eqb_eq.
Qed.


(** *** Renaming and deleting *)

Lemma owned_rows_id (d : DB) conversation_id user_id c rest :
  owned_rows d conversation_id user_id = c :: rest ->
  conv_id c = conversation_id /\ conv_user_id c = user_id
  /\ In c (conversations d).
Proof.
  intros E.
  destruct (owned_rows_in d conversation_id user_id c) as (H1 & H2 & H3);
    [rewrite E; now left|auto].
Qed.

(** X4. [update_conversation_title] renames a conversation of the caller and
    commits; on a conversation of somebody else, or on none, it changes
    nothing and returns [None]; a database fault leaves the store as it
    was. *)
Theorem update_conversation_title_spec conversation_id user_id title env w
    r w' :
  session w = committed w ->
  update_conversation_title conversation_id user_id title env w = (r, w') ->
  session w' = committed w'
  /\ (forall c,
        owned_rows (committed w) conversation_id user_id = [c] ->
        db_fault env (db_trips w) = None ->
        db_fault env (S (db_trips w)) = None ->
        db_fault env (S (S (db_trips w))) = None ->
        r = Ok (Some (retitle c title))
        /\ committed w' = renamed (committed w) c title)
  /\ (owned_rows (committed w) conversation_id user_id = [] ->
        committed w' = committed w
        /\ (r = Ok None \/ Res.is_ok r = false))
  /\ (Res.is_ok r = false -> committed w' = committed w).
Proof.
  intros Hs.
  unfold update_conversation_title, update_title, Eff.try_except.
  unfold Eff.bind at 1. unfold Eff.bind at 1.
  rewrite get_by_id_run. cbv zeta. rewrite Hs.
  destruct (db_fault env (db_trips w)) as [m0|] eqn:F0.
  { cbv [Eff.bind session_rollback Eff.raise]. simpl.
    intros H. inversion H; subst; clear H. simpl.
    split; [reflexivity|]. split; [intros; discriminate|].
    split; [intros _; split; [reflexivity|right; reflexivity]|reflexivity]. }
  destruct (owned_rows (committed w) conversation_id user_id)
    as [|c [|c2 rest]] eqn:Ho;
    cbv [scalar_one_or_none Eff.ret Eff.throw Eff.raise Eff.bind
         session_add_conversation Eff.get set_session session_flush db_trip
         session_commit session_rollback]; simpl.
  - destruct (db_fault env (S (db_trips w))) as [m1|] eqn:F1; simpl;
      intros H; inversion H; subst; clear H; simpl; rewrite ?Hs;
      (split; [reflexivity|]); (split; [intros; discriminate|]);
      split; auto; discriminate.
  - destruct (db_fault env (S (db_trips w))) as [m1|] eqn:F1; simpl.
    { intros H; inversion H; subst; clear H; simpl.
      split; [reflexivity|]. split; [intros; discriminate|].
      split; [discriminate|reflexivity]. }
    destruct (db_fault env (S (S (db_trips w)))) as [m2|] eqn:F2; simpl;
      intros H; inversion H; subst; clear H; simpl.
    { split; [reflexivity|]. split; [intros; discriminate|].
      split; [discriminate|reflexivity]. }
    split; [reflexivity|].
    split; [|split; discriminate].
    intros c' [= <-] _ _ _. split; reflexivity.
  - intros H; inversion H; subst; clear H; simpl.
    split; [reflexivity|]. split; [intros; discriminate|].
    split; [discriminate|reflexivity].
Qed.

(** X5. [delete] takes a conversation of the caller, and the messages in
    it, out of the transaction's view; on a conversation of somebody
    else, or on none, it returns [False] and changes nothing.  It never
    commits. *)
Theorem delete_cascades_for_owner_only conversation_id user_id env w r w' :
  delete conversation_id user_id env w = (r, w') ->
  committed w' = committed w
  /\ (forall c,
        owned_rows (session w) conversation_id user_id = [c] ->
        db_fault env (db_trips w) = None ->
        db_fault env (S (db_trips w)) = None ->
        r = Ok true
        /\ session w' = without_conversation (session w) conversation_id
        /\ (forall x, In x (conversations (session w')) ->
                      conv_id x <> conversation_id)
        /\ (forall m, In m (messages (session w')) <->
                      In m (messages (session w))
                      /\ msg_conversation_id m <> conversation_id))
  /\ (owned_rows (session w) conversation_id user_id = [] ->
        session w' = session w /\ (r = Ok false \/ Res.is_ok r = false)).
Proof.
  unfold delete. unfold Eff.bind at 1. rewrite get_by_id_run. cbv zeta.
  destruct (db_fault env (db_trips w)) as [m0|] eqn:F0.
  { intros H; inversion H; subst; clear H; simpl.
    split; [reflexivity|]. split; [intros; discriminate|].
    intros _. split; [reflexivity|right; reflexivity]. }
  destruct (owned_rows (session w) conversation_id user_id)
    as [|c [|c2 rest]] eqn:Ho;
    cbv [scalar_one_or_none Eff.ret Eff.throw Eff.raise Eff.bind
         session_delete_conversation Eff.get set_session session_flush
         db_trip]; simpl.
  - intros H; inversion H; subst; clear H; simpl.
    split; [reflexivity|]. split; [intros; discriminate|].
    intros _. split; [reflexivity|left; reflexivity].
  - destruct (owned_rows_id _ _ _ _ _ Ho) as (Hid & _ & _).
    destruct (db_fault env (S (db_trips w))) as [m1|] eqn:F1; simpl;
      intros H; inversion H; subst; clear H; simpl;
      (split; [reflexivity|]); (split; [|discriminate]).
    + intros; discriminate.
    + intros c' [= <-] _ _. unfold without_conversation.
      split; [reflexivity|]. split; [reflexivity|]. split.
      * intros x Hx. apply filter_In in Hx. destruct Hx as [_ Hx].
        apply negb_true_iff, String.eqb_neq in Hx. exact Hx.
      * intros m. rewrite filter_In, negb_true_iff, String.eqb_neq. tauto.
  - intros H; inversion H; subst; clear H; simpl.
    split; [reflexivity|]. split; discriminate.
Qed.

End ConversationFacts.

Section ChatWrapperFacts.
Context {T : PyTypes} {R : PyRuntime}.
Import ConversationRepository ConversationService ChatService.

(** X6. [verify_user_owns_conversation] never raises and writes nothing; it
    answers [True] exactly when the lookup succeeds and selects one row
    of the caller. *)
Theorem verify_user_owns_conversation_decides conversation_id user_id env w :
  exists b w',
    verify_user_owns_conversation conversation_id user_id env w = (Ok b, w')
    /\ committed w' = committed w /\ session w' = session w
    /\ completions w' = completions w /\ trace w' = trace w
    /\ (b = true <->
        db_fault env (db_trips w) = None
        /\ exists c, owned_rows (session w) conversation_id user_id = [c])
    /\ (forall c, unique_ids (session w) -> In c (conversations (session w)) ->
                  conv_id c = conversation_id -> conv_user_id c <> user_id ->
                  b = false).
Proof.
  assert (G : forall c, unique_ids (session w) ->
            In c (conversations (session w)) ->
            conv_id c = conversation_id -> conv_user_id c <> user_id ->
            owned_rows (session w) conversation_id user_id = [])
    by (intros; eapply not_owned_rows; eauto).
  unfold verify_user_owns_conversation, get_conversation, Eff.try_except,
    Eff.bind.
  rewrite get_by_id_run. cbv zeta.
  destruct (db_fault env (db_trips w)) as [m0|] eqn:F0.
  { exists false. eexists. split; [reflexivity|]. simpl.
    repeat split; auto; try discriminate. intros [C _]; discriminate. }
  destruct (owned_rows (session w) conversation_id user_id)
    as [|c [|c2 rest]] eqn:Ho;
    cbv [scalar_one_or_none Eff.ret Eff.throw Eff.raise]; simpl.
  - exists false. eexists. split; [reflexivity|]. simpl.
    repeat split; auto; try discriminate. intros [_ [c C]]; discriminate.
  - exists true. eexists. split; [reflexivity|]. simpl.
    repeat split; auto; try (intros; eauto; fail).
    intros c' Hu Hin Hid Hne. specialize (G c' Hu Hin Hid Hne). discriminate.
  - exists false. eexists. split; [reflexivity|]. simpl.
    repeat split; auto; try discriminate. intros [_ [c' C]]; discriminate.
Qed.

(** X7. [ChatService.create_conversation] never raises: it answers with the
    identifier of a conversation that is now stored for the caller under
    the title reported, or with [success = False] and an error text,
    the store being as before. *)
Theorem chat_create_conversation_total user_id title env w :
  session w = committed w ->
  exists d w',
    ChatService.create_conversation user_id title env w = (Ok (VDict d), w')
    /\ ((dict_find "success" d = Some (VBool true)
         /\ dict_find "title" d = Some (VStr (title_or_default title))
         /\ exists c,
              dict_find "conversation_id" d = Some (VStr (conv_id c))
              /\ conv_user_id c = user_id
              /\ conv_title c = title_or_default title
              /\ committed w'
                 = mkDB (conversations (committed w) ++ [c])
                        (messages (committed w)))
        \/ (dict_find "success" d = Some (VBool false)
            /\ dict_has "error" d = true
            /\ committed w' = committed w)).
Proof.
  intros Hs.
  unfold ChatService.create_conversation, Eff.try_except.
  unfold Eff.bind at 1.
  destruct (ConversationService.create_conversation user_id
              (Some (title_or_default title)) env w) as [[id|e] w1] eqn:E;
    destruct (create_conversation_result _ _ _ _ _ _ Hs E)
      as (Hs1 & [[Hid Hc]|[C Hc]]); try discriminate.
  - do 2 eexists. split; [reflexivity|]. left.
    split; [reflexivity|]. split; [reflexivity|].
    injection Hid as ->.
    assert (Hidem : title_or_default (Some (title_or_default title))
                    = title_or_default title)
      by (destruct title as [[|a s]|]; reflexivity).
    rewrite Hidem in Hc.
    exists (mkConversation (uuid4_at env (uuids_drawn w)) user_id
              (title_or_default title) (utcnow_at env (clock_reads w))
              (utcnow_at env (S (clock_reads w)))).
    repeat split; auto.
  - do 2 eexists. split; [reflexivity|]. right.
    split; [reflexivity|]. split; [reflexivity|]. exact Hc.
Qed.

(** X8. [ChatService.list_user_conversations] never raises and writes
    nothing: [count] is the length of [conversations], at most [limit];
    every entry is a conversation of the caller; after a failure the
    list is empty. *)
Theorem list_user_conversations_total user_id limit env w :
  exists d convs w',
    list_user_conversations user_id limit env w = (Ok (VDict d), w')
    /\ committed w' = committed w /\ session w' = session w
    /\ dict_find "conversations" d
       = Some (VList (map conversation_summary convs))
    /\ dict_find "count" d = Some (VInt (Z.of_nat (List.length convs)))
    /\ (List.length convs <= limit)%nat
    /\ Forall (fun c => conv_user_id c = user_id
                        /\ In c (conversations (session w))) convs
    /\ StronglySorted newer_or_same convs
    /\ (dict_find "success" d = Some (VBool false) -> convs = []).
Proof.
  unfold list_user_conversations, get_user_conversations, Eff.try_except.
  unfold Eff.bind at 1.
  destruct (list_by_user user_id limit 0 env w) as [[l|e] w1] eqn:E.
  - apply list_by_user_run in E. destruct E as (-> & Hc & Hse).
    destruct (selected_conversations (session w) user_id limit 0)
      as (Hown & Hsort & Hlen).
    eexists. eexists _, w1. split; [reflexivity|]. simpl.
    repeat split; auto. discriminate.
  - eexists. exists [], w1. split; [reflexivity|]. simpl.
    revert E. cbv [list_by_user Eff.bind db_trip Eff.get Eff.ret].
    destruct (db_fault env (db_trips w)); intros [= <- <-]; simpl.
    repeat split; auto; try lia; constructor.
Qed.

End ChatWrapperFacts.

Section RecencyFacts.
Context {T : PyTypes}.
Import ConversationRepository ConversationService.

Lemma order_created_in (l : list Message) y :
  In y (order_by_created_at l) -> In y l.
Proof.
  induction l as [|m r IH]; simpl; [tauto|].
  intros H. destruct (insert_members _ _ _ H) as [->|H']; auto.
Qed.

(** X9. [get_recent_messages] never raises and writes nothing; what it
    returns are messages of the conversation and the user asked about,
    none of another conversation or another user, at most [limit] of
    them, oldest first. *)
Theorem get_recent_messages_only_own_conversation conversation_id user_id
    limit env w :
  exists l w',
    get_recent_messages conversation_id user_id limit env w = (Ok l, w')
    /\ Forall (fun m => msg_conversation_id m = conversation_id
                        /\ msg_user_id m = user_id
                        /\ In m (messages (session w))) l
    /\ (List.length l <= limit)%nat
    /\ StronglySorted older_or_same l
    /\ committed w' = committed w /\ session w' = session w.
Proof.
  destruct (get_recent_messages_run conversation_id user_id limit env w)
    as (l & w' & E & Hl).
  exists l, w'. split; [exact E|].
  assert (Hw : committed w' = committed w /\ session w' = session w).
  { revert E. unfold get_recent_messages, Eff.try_except, Eff.bind.
    rewrite get_by_id_run.
    cbv [scalar_one_or_none Eff.ret Eff.throw Eff.raise db_trip Eff.get].
    destruct (db_fault env (db_trips w)); simpl;
      [intros [= _ <-]; split; reflexivity|].
    destruct (owned_rows (session w) conversation_id user_id)
      as [|c [|c2 r]]; simpl; try (intros [= _ <-]; split; reflexivity).
    destruct (db_fault env (S (db_trips w))); simpl;
      intros [= _ <-]; split; reflexivity. }
  destruct Hl as [-> | ->].
  - split; [constructor|]. split; [simpl; lia|]. split; [constructor|exact Hw].
  - split; [|split; [|split; [|exact Hw]]].
    + apply Forall_forall. intros m Hm. unfold select_messages in Hm.
      apply in_firstn, order_created_in, filter_In in Hm.
      destruct Hm as [Hin Hb]. apply andb_true_iff in Hb.
      destruct Hb as [H1 H2]. apply String.eqb_eq in H1, H2. auto.
    + unfold select_messages. rewrite length_firstn. lia.
    + unfold select_messages. apply firstn_sorted, order_sorted.
Qed.

Lemma newest_is_first (t : Conversation) (l : list Conversation) :
  In t l ->
  (forall y, In y l -> y = t \/ (conv_updated_at y < conv_updated_at t)%Z) ->
  exists rest, order_by_updated_at_desc l = t :: rest.
Proof.
  induction l as [|x r IH]; simpl; [tauto|].
  intros Hin Hall.
  assert (Hins : forall l0,
            (forall y, In y l0 ->
                       y = t \/ (conv_updated_at y < conv_updated_at t)%Z) ->
            exists rest, insert_by_updated_at t l0 = t :: rest).
  { intros [|h l0] Hl0; simpl; [eauto|].
    destruct (conv_updated_at h <=? conv_updated_at t)%Z eqn:E; [eauto|].
    apply Z.leb_gt in E.
    exfalso. destruct (Hl0 h (or_introl eq_refl)) as [-> | Hlt]; lia. }
  destruct (Hall x (or_introl eq_refl)) as [-> | Hlt].
  - apply Hins. intros y Hy. rewrite order_updated_in in Hy.
    apply Hall. now right.
  - destruct Hin as [-> | Hin]; [exfalso; lia|].
    destruct (IH Hin) as (rest & Hrest);
      [intros y Hy; apply Hall; now right|].
    rewrite Hrest. simpl.
    destruct (conv_updated_at t <=? conv_updated_at x)%Z eqn:E;
      [exfalso; apply Z.leb_le in E; lia|eauto].
Qed.

(** X10. Recency: after a message was appended to a conversation, at a time
    later than the last activity of the owner's other conversations, the
    owner's listing starts with that conversation. *)
Theorem appended_conversation_is_listed_first conversation_id user_id role
    content tool_calls tokens_used env w c limit :
  role = "user" \/ role = "assistant" ->
  session w = committed w ->
  unique_ids (committed w) ->
  owned_rows (committed w) conversation_id user_id = [c] ->
  no_faults env ->
  (forall x, In x (conversations (committed w)) -> conv_user_id x = user_id ->
             conv_id x <> conversation_id ->
             (conv_updated_at x < utcnow_at env (S (clock_reads w)))%Z) ->
  (0 < limit)%nat ->
  exists m w1 rest w2,
    append_message conversation_id user_id role content tool_calls tokens_used
      env w = (Ok m, w1)
    /\ list_by_user user_id limit 0 env w1
       = (Ok (touch c (utcnow_at env (S (clock_reads w))) :: rest), w2).
Proof.
  intros Hrole Hs Hu Ho Hf Hlater Hlim.
  destruct (append_message_run conversation_id user_id role content tool_calls
              tokens_used env w c Hrole Hs Ho (Hf _) (Hf _) (Hf _))
    as (w1 & Hrun & Hc & Hs1 & _).
  set (now := utcnow_at env (S (clock_reads w))) in *.
  destruct (owned_rows_in (committed w) conversation_id user_id c)
    as (Hcin & Hcid & Hcu); [rewrite Ho; now left|].
  assert (Hfirst : exists rest,
            order_by_updated_at_desc
              (filter (fun x => String.eqb (conv_user_id x) user_id)
                      (conversations (session w1)))
            = touch c now :: rest).
  { apply newest_is_first.
    - apply filter_In. rewrite Hs1, Hc. unfold appended. cbn [conversations].
      split; [|simpl; apply String.eqb_eq; exact Hcu].
      apply in_map_iff. exists c. rewrite String.eqb_refl. auto.
    - intros y Hy. apply filter_In in Hy. destruct Hy as [Hy Hyu].
      apply String.eqb_eq in Hyu.
      rewrite Hs1, Hc in Hy. unfold appended in Hy. cbn [conversations] in Hy.
      apply in_map_iff in Hy. destruct Hy as (x & Hx & Hxin).
      destruct (String.eqb (conv_id x) (conv_id c)) eqn:E.
      + left. now subst y.
      + right. subst y. apply String.eqb_neq in E. simpl.
        apply Hlater; auto. congruence. }
  destruct Hfirst as (rest & Hfirst).
  destruct limit as [|k]; [lia|].
  eexists _, w1, (firstn k rest), _. split; [exact Hrun|].
  cbv [list_by_user Eff.bind db_trip Eff.get Eff.ret].
  rewrite (Hf (db_trips w1)). unfold select_conversations.
  cbn [session]. rewrite Hfirst. reflexivity.
Qed.

End RecencyFacts.

(** ** Chat service: wrappers and turns *)

Section AnyAgent.
Context {T : PyTypes} {R : PyRuntime}.
Import ChatService.

Lemma executions_app l1 l2 :
  executions (l1 ++ l2) = (executions l1 + executions l2)%nat.
Proof. unfold executions. rewrite filter_app, length_app. reflexivity. Qed.

Lemma executions_names names :
  executions (map EvExecute names) = List.length names.
Proof.
  unfold executions. induction names as [|n r IH]; simpl; congruence.
Qed.

Lemma after_completion_frame w :
  committed (after_completion w) = committed w
  /\ session (after_completion w) = session w
  /\ db_trips (after_completion w) = db_trips w
  /\ completions (after_completion w) = S (completions w)
  /\ executions (trace (after_completion w)) = executions (trace w).
Proof.
  repeat split. unfold after_completion. cbn [trace].
  rewrite executions_app. change (executions [EvCompletion]) with 0%nat. lia.
Qed.

(** A response without tool calls, [tool_calls] being [None] or empty. *)
Lemma no_tools_step agent messages user_id conversation_id retry_count env w
    content calls fuel :
  client agent (completions w)
    (RoleContent "system" (system_prompt agent) :: messages)
  = Ok (mkLlmMessage content calls) ->
  calls = None \/ calls = Some [] ->
  _invoke_agent_with_tools (S fuel) agent messages user_id conversation_id
    retry_count env w
  = (Ok (Some (mkAgentResponse true
                 (match content with Some s => s | None => "" end) None,
               None)),
     after_completion w).
Proof.
  intros Hc Hcalls. cbn [_invoke_agent_with_tools].
  unfold Eff.try_except, Eff.bind at 1.
  rewrite create_completion_run, Hc.
  destruct Hcalls as [-> | ->]; reflexivity.
Qed.

(** A completion call that raises: the exception meets [except
    Timeout:] and the invocation ends in the [TypeError]. *)
Lemma failed_completion_step agent messages user_id conversation_id
    retry_count env w e fuel :
  client agent (completions w)
    (RoleContent "system" (system_prompt agent) :: messages)
  = Raise e ->
  _invoke_agent_with_tools (S fuel) agent messages user_id conversation_id
    retry_count env w
  = (Raise except_Timeout, after_completion w).
Proof.
  intros Hc. cbn [_invoke_agent_with_tools].
  unfold Eff.try_except, Eff.bind at 1.
  rewrite create_completion_run, Hc. reflexivity.
Qed.

Lemma invoke_bounded agent user_id conversation_id env :
  forall fuel retry_count messages w,
  (retry_count <= MAX_RETRIES_ON_INVALID_TOOL_CALL)%nat ->
  (MAX_RETRIES_ON_INVALID_TOOL_CALL < fuel + retry_count)%nat ->
  exists r w',
    _invoke_agent_with_tools fuel agent messages user_id conversation_id
      retry_count env w = (r, w')
    /\ ((exists text made,
           r = Ok (Some (mkAgentResponse true text None, made)))
        \/ (r = Raise except_Timeout
            /\ exists n msgs e,
                 (completions w <= n < completions w')%nat
                 /\ client agent n msgs = Raise e))
    /\ committed w' = committed w /\ session w' = session w
    /\ db_trips w' = db_trips w
    /\ (completions w < completions w')%nat
    /\ (completions w' + retry_count
        <= completions w + S MAX_RETRIES_ON_INVALID_TOOL_CALL)%nat
    /\ (executions (trace w')
        <= executions (trace w)
           + MAX_TOOL_CALLS_PER_TURN * (completions w' - completions w))%nat.
Proof.
  induction fuel as [|fuel IH]; intros retry_count messages w Hr Hfuel.
  { unfold MAX_RETRIES_ON_INVALID_TOOL_CALL in *. lia. }
  destruct (client agent (completions w)
              (RoleContent "system" (system_prompt agent) :: messages))
    as [[content [[|tc tcs]|]]|e] eqn:Hc.
  - rewrite (no_tools_step _ _ _ _ _ _ _ _ _ _ Hc) by auto.
    do 2 eexists. split; [reflexivity|].
    destruct (after_completion_frame w) as (Fa & Fb & Fc & Fd & Fe).
    rewrite Fa, Fb, Fc, Fd, Fe.
    unfold MAX_RETRIES_ON_INVALID_TOOL_CALL, MAX_TOOL_CALLS_PER_TURN in *.
    split; [left; do 2 eexists; reflexivity|].
    repeat split; try reflexivity; lia.
  - destruct (round_step agent messages user_id conversation_id retry_count
                env w _ _ _ Hc)
      as (made1 & names1 & w2 & res1 & _ & (Da & Db & Dc & Dd) & Tr & L
          & _ & _ & _ & Step).
    simpl in Da, Db, Dc, Dd.
    rewrite Step.
    assert (E2 : executions (trace w2)
                 = (executions (trace w) + List.length names1)%nat).
    { rewrite Tr.
      change (EvCompletion :: map EvExecute names1)
        with ([EvCompletion] ++ map EvExecute names1).
      rewrite !executions_app, executions_names. reflexivity. }
    destruct (MAX_RETRIES_ON_INVALID_TOOL_CALL <=? retry_count)%nat eqn:Hb.
    + do 2 eexists. split; [reflexivity|].
      unfold MAX_RETRIES_ON_INVALID_TOOL_CALL, MAX_TOOL_CALLS_PER_TURN in *.
      split; [left; do 2 eexists; reflexivity|].
      repeat split; try congruence; lia.
    + apply Nat.leb_gt in Hb.
      match goal with
      | |- context [_invoke_agent_with_tools fuel agent ?m user_id
                      conversation_id (S retry_count) env w2] =>
          destruct (IH (S retry_count) m w2)
            as (r & w' & Hrun & Hr' & Ca & Cb & Cc & Cd & Ce & Cf)
      end; [lia|lia|].
      rewrite Hrun. exists r, w'. split; [reflexivity|].
      unfold MAX_RETRIES_ON_INVALID_TOOL_CALL, MAX_TOOL_CALLS_PER_TURN in *.
      split.
      { destruct Hr' as [Hok|(Hraise & n & msgs & e & Hn & He)];
          [left; exact Hok|right].
        split; [exact Hraise|]. exists n, msgs, e. split; [lia|exact He]. }
      split; [congruence|]. split; [congruence|]. split; [congruence|].
      split; [lia|]. split; lia.
  - rewrite (no_tools_step _ _ _ _ _ _ _ _ _ _ Hc) by auto.
    do 2 eexists. split; [reflexivity|].
    destruct (after_completion_frame w) as (Fa & Fb & Fc & Fd & Fe).
    rewrite Fa, Fb, Fc, Fd, Fe.
    unfold MAX_RETRIES_ON_INVALID_TOOL_CALL, MAX_TOOL_CALLS_PER_TURN in *.
    split; [left; do 2 eexists; reflexivity|].
    repeat split; try reflexivity; lia.
  - rewrite (failed_completion_step _ _ _ _ _ _ _ _ _ Hc).
    do 2 eexists. split; [reflexivity|].
    destruct (after_completion_frame w) as (Fa & Fb & Fc & Fd & Fe).
    rewrite Fa, Fb, Fc, Fd, Fe.
    unfold MAX_RETRIES_ON_INVALID_TOOL_CALL, MAX_TOOL_CALLS_PER_TURN in *.
    split.
    { right. split; [reflexivity|].
      exists (completions w),
        (RoleContent "system" (system_prompt agent) :: messages), e.
      split; [lia|exact Hc]. }
    repeat split; try reflexivity; lia.
Qed.

(** From retry count 0 the fuel is enough. *)
Lemma invoke_from_zero agent messages user_id conversation_id env w :
  exists r w',
    _invoke_agent_with_tools invoke_fuel agent messages user_id
      conversation_id 0 env w = (r, w')
    /\ (completions w < completions w' <= completions w + 3)%nat
    /\ ((exists text made,
           r = Ok (Some (mkAgentResponse true text None, made)))
        \/ r = Raise except_Timeout).
Proof.
  destruct (invoke_bounded agent user_id conversation_id env invoke_fuel 0
              messages w)
    as (r & w' & Hrun & Hr & _ & _ & _ & Cd & Ce & _).
  - unfold MAX_RETRIES_ON_INVALID_TOOL_CALL. lia.
  - unfold invoke_fuel, MAX_RETRIES_ON_INVALID_TOOL_CALL. lia.
  - exists r, w'. unfold MAX_RETRIES_ON_INVALID_TOOL_CALL in Ce.
    split; [exact Hrun|]. split; [lia|].
    destruct Hr as [Hok|[Hraise _]]; [left; exact Hok|right; exact Hraise].
Qed.

(** X11. Whatever the completion service answers, one invocation of the
    loop from retry count 0 ends in one of two ways: it returns a
    response with [success = True], or it raises the [TypeError] of
    [except Timeout:].  It raises only when one of its completion calls
    raised, and it does when the first one raises, whatever the
    exception; it never returns [success = False].  Either way it makes
    between one and three completion calls, executes at most five tool
    calls per completion call, and never touches the database. *)
Theorem orchestration_loop_succeeds_or_raises_type_error agent messages
    user_id conversation_id env w :
  exists r w',
    _invoke_agent_with_tools invoke_fuel agent messages user_id
      conversation_id 0 env w = (r, w')
    /\ ((exists text made,
           r = Ok (Some (mkAgentResponse true text None, made)))
        \/ (r = Raise except_Timeout
            /\ exists n msgs e,
                 (completions w <= n < completions w')%nat
                 /\ client agent n msgs = Raise e))
    /\ (forall e,
          client agent (completions w)
            (RoleContent "system" (system_prompt agent) :: messages)
          = Raise e ->
          r = Raise except_Timeout)
    /\ committed w' = committed w /\ session w' = session w
    /\ db_trips w' = db_trips w
    /\ (completions w < completions w' <= completions w + 3)%nat
    /\ (executions (trace w')
        <= executions (trace w) + 5 * (completions w' - completions w))%nat.
Proof.
  destruct (invoke_bounded agent user_id conversation_id env invoke_fuel 0
              messages w)
    as (r & w' & Hrun & Hr & Ca & Cb & Cc & Cd & Ce & Cf).
  - unfold MAX_RETRIES_ON_INVALID_TOOL_CALL. lia.
  - unfold invoke_fuel, MAX_RETRIES_ON_INVALID_TOOL_CALL. lia.
  - exists r, w'.
    unfold MAX_RETRIES_ON_INVALID_TOOL_CALL, MAX_TOOL_CALLS_PER_TURN in *.
    split; [exact Hrun|]. split; [exact Hr|]. split.
    { intros e He. unfold invoke_fuel in Hrun.
      rewrite (failed_completion_step _ _ _ _ _ _ _ _ _ He) in Hrun.
      now injection Hrun as <- _. }
    split; [exact Ca|]. split; [exact Cb|].
    split; [exact Cc|]. split; lia.
Qed.

End AnyAgent.

Section ChatTurnFacts.
Context {T : PyTypes} {R : PyRuntime}.
Import ConversationRepository ConversationService ChatService.

Lemma eff_bind_inv {A B} (m : M A) (k : A -> M B) env w r w' :
  Eff.bind m k env w = (r, w') ->
  (exists e, m env w = (Raise e, w') /\ r = Raise e)
  \/ (exists a w1, m env w = (Ok a, w1) /\ k a env w1 = (r, w')).
Proof.
  unfold Eff.bind. destruct (m env w) as [[a|e] w1].
  - intros H. right. eauto.
  - intros [= <- <-]. left. eauto.
Qed.

Lemma get_by_id_services conversation_id user_id env w r w' :
  get_by_id conversation_id user_id env w = (r, w') -> same_services w w'.
Proof.
  rewrite get_by_id_run. cbv zeta.
  destruct (db_fault env (db_trips w)).
  - intros [= <- <-]. split; reflexivity.
  - destruct (owned_rows (session w) conversation_id user_id) as [|c [|c2 l]];
      cbv [scalar_one_or_none Eff.ret Eff.throw Eff.raise];
      intros [= <- <-]; split; reflexivity.
Qed.

Lemma append_message_services conversation_id user_id role content tool_calls
    tokens_used env w r w' :
  append_message conversation_id user_id role content tool_calls tokens_used
    env w = (r, w') ->
  same_services w w'.
Proof.
  unfold append_message.
  destruct (negb (existsb (String.eqb role) ["user"; "assistant"])).
  { intros [= <- <-]. split; reflexivity. }
  cbv [Eff.try_except Eff.bind new_message uuid4 utcnow
    session_add_message get_by_id db_trip Eff.get set_session
    scalar_one_or_none Eff.ret Eff.throw Eff.raise session_rollback
    session_add_conversation session_commit session_refresh].
  simpl.
  destruct (db_fault env (db_trips w)); simpl;
    [intros [= <- <-]; split; reflexivity|].
  destruct (filter _ (conversations (session w))) as [|c [|c2 rest]]; simpl;
    try (intros [= <- <-]; split; reflexivity).
  destruct (db_fault env (S (db_trips w))); simpl;
    [intros [= <- <-]; split; reflexivity|].
  destruct (db_fault env (S (S (db_trips w)))); simpl;
    intros [= <- <-]; split; reflexivity.
Qed.

Lemma get_recent_messages_services conversation_id user_id limit env w r w' :
  get_recent_messages conversation_id user_id limit env w = (r, w') ->
  same_services w w'.
Proof.
  unfold get_recent_messages, Eff.try_except, Eff.bind.
  rewrite get_by_id_run.
  cbv [scalar_one_or_none Eff.ret Eff.throw Eff.raise db_trip Eff.get].
  destruct (db_fault env (db_trips w)); simpl;
    [intros [= <- <-]; split; reflexivity|].
  destruct (owned_rows (session w) conversation_id user_id) as [|c [|c2 l]];
    simpl; try (intros [= <- <-]; split; reflexivity).
  destruct (db_fault env (S (db_trips w))); simpl;
    intros [= <- <-]; split; reflexivity.
Qed.

(** X12. [process_chat_message] never raises: every run returns the result
    dict, for the conversation asked about, after at most three
    completion calls; a success carries a reply text, a message count
    and no error, a failure carries an error and reports no tool
    call. *)
Theorem process_chat_message_total conversation_id user_id user_message env w :
  exists res w',
    process_chat_message conversation_id user_id user_message env w
    = (Ok (Some res), w')
    /\ cr_conversation_id res = conversation_id
    /\ (completions w <= completions w' <= completions w + 3)%nat
    /\ (cr_success res = true ->
        cr_error res = None
        /\ (exists text, cr_response res = Text text)
        /\ (exists n, cr_message_count res = Some n)
        /\ (completions w < completions w')%nat)
    /\ (cr_success res = false ->
        (exists err, cr_error res = Some err)
        /\ (cr_tool_calls_executed res = None
            \/ cr_tool_calls_executed res = Some [])).
Proof.
  unfold process_chat_message, Eff.try_except.
  match goal with |- context [let (_, _) := ?m env w in _] =>
    destruct (m env w) as [[x|e] w1] eqn:E end.
  2:{ (* an exception reached the handler *)
    do 2 eexists. split; [reflexivity|]. simpl.
    split; [reflexivity|].
    assert (Hk : (completions w <= completions w1 <= completions w + 3)%nat).
    { apply eff_bind_inv in E.
      destruct E as [(e0 & E & _) | (conv & w2 & E & E2)];
        apply get_by_id_services in E; destruct E as [K _];
        [lia|].
      destruct conv as [c|]; [|discriminate E2].
      apply eff_bind_inv in E2.
      destruct E2 as [(e0 & E2 & _) | (u & w3 & E2 & E3)];
        apply append_message_services in E2; destruct E2 as [K2 _];
        [lia|].
      apply eff_bind_inv in E3.
      destruct E3 as [(e0 & E3 & _) | (recent & w4 & E3 & E4)];
        apply get_recent_messages_services in E3; destruct E3 as [K3 _];
        [lia|].
      apply eff_bind_inv in E4.
      destruct E4 as [(e0 & E4 & _) | (env' & w5 & E4 & E5)];
        [discriminate E4|].
      injection E4 as <- <-.
      destruct (agent_factory env) as [create|];
        [|injection E5 as _ <-; lia].
      destruct (invoke_from_zero
                  (create user_id conversation_id (List.length recent))
                  (_format_messages_for_agent recent) user_id
                  conversation_id env w4)
        as (r & w'' & Hrun & Kc & Hr).
      apply eff_bind_inv in E5.
      destruct E5 as [(e0 & E5 & _) | (inv & w6 & E5 & E6)];
        rewrite Hrun in E5.
      { (* the loop raised *) injection E5 as _ <-. lia. }
      injection E5 as -> <-.
      destruct Hr as [(text & made & Hr)|Hr]; [|discriminate Hr].
      injection Hr as ->. cbn [ar_success negb] in E6.
      apply eff_bind_inv in E6.
      destruct E6 as [(e0 & E6 & _) | (a & w7 & E6 & E7)];
        [|discriminate E7].
      apply append_message_services in E6. destruct E6 as [K6 _]. lia. }
    split; [exact Hk|]. split; [discriminate|].
    intros _. split; [eexists; reflexivity|right; reflexivity]. }
  apply eff_bind_inv in E.
  destruct E as [(e0 & _ & C) | (conv & w2 & E & E2)]; [discriminate C|].
  apply get_by_id_services in E. destruct E as [K _].
  destruct conv as [c|].
  2:{ injection E2 as <- <-. do 2 eexists. split; [reflexivity|]. simpl.
      split; [reflexivity|]. split; [lia|]. split; [discriminate|].
      intros _. split; [eexists; reflexivity|left; reflexivity]. }
  apply eff_bind_inv in E2.
  destruct E2 as [(e0 & _ & C) | (u & w3 & E2 & E3)]; [discriminate C|].
  apply append_message_services in E2. destruct E2 as [K2 _].
  apply eff_bind_inv in E3.
  destruct E3 as [(e0 & _ & C) | (recent & w4 & E3 & E4)]; [discriminate C|].
  apply get_recent_messages_services in E3. destruct E3 as [K3 _].
  apply eff_bind_inv in E4.
  destruct E4 as [(e0 & _ & C) | (env' & w5 & E4 & E5)]; [discriminate C|].
  injection E4 as <- <-.
  destruct (agent_factory env) as [create|]; [|discriminate E5].
  apply eff_bind_inv in E5.
  destruct E5 as [(e0 & _ & C) | (inv & w6 & E5 & E6)]; [discriminate C|].
  destruct (invoke_from_zero
              (create user_id conversation_id (List.length recent))
              (_format_messages_for_agent recent) user_id
              conversation_id env w4)
    as (r & w'' & Hrun & Kc & Hr).
  rewrite Hrun in E5. injection E5 as -> <-.
  destruct Hr as [(text & made & Hr)|Hr]; [|discriminate Hr].
  injection Hr as ->. cbn [ar_success negb] in E6.
  apply eff_bind_inv in E6.
  destruct E6 as [(e0 & _ & C) | (a & w7 & E6 & E7)]; [discriminate C|].
  apply append_message_services in E6. destruct E6 as [K6 _].
  injection E7 as <- <-. do 2 eexists. split; [reflexivity|]. simpl.
  split; [reflexivity|]. split; [lia|].
  split; [|discriminate].
  intros _. split; [reflexivity|]. split; [eexists; reflexivity|].
  split; [eexists; reflexivity|lia].
Qed.


(** X13. A turn on a conversation of somebody else answers
    [conversation_not_found] after the one lookup: nothing is written,
    no identifier is drawn, no completion call is made. *)
Theorem chat_refuses_foreign_conversation conversation_id user_id
    user_message env w c :
  unique_ids (session w) ->
  In c (conversations (session w)) ->
  conv_id c = conversation_id ->
  conv_user_id c <> user_id ->
  db_fault env (db_trips w) = None ->
  process_chat_message conversation_id user_id user_message env w
  = (Ok (Some (mkChatResult false (Some "conversation_not_found")
           (Text "I couldn't find that conversation. Please check the ID and try again.")
           conversation_id None None)),
     mkWorld (committed w) (session w) (clock_reads w) (uuids_drawn w)
       (S (db_trips w)) (completions w) (trace w)).
Proof.
  intros Hu Hin Hid Hne F.
  unfold process_chat_message, Eff.try_except, Eff.bind at 1, get_conversation.
  rewrite get_by_id_run, F. cbv zeta.
  rewrite (not_owned_rows _ _ _ _ Hu Hin Hid Hne). reflexivity.
Qed.







End ChatTurnFacts.

(** ** Validators: what they let through *)

Section ValidatorContracts.
Context {T : PyTypes} {R : PyRuntime}.
Import Validators.

Lemma in_strs_ok v l :
  in_strs v l = true -> exists s, v = VStr s /\ In s l.
Proof.
  destruct v; simpl; try discriminate. intros H. exists s. split; [reflexivity|].
  apply existsb_exists in H. destruct H as (x & Hin & Hx).
  apply String.eqb_eq in Hx. now subst x.
Qed.

Lemma not_empty s : PyStr.is_empty s = false -> s <> "".
Proof. destruct s; [discriminate|discriminate]. Qed.

Lemma dict_has_find k (d : pydict) :
  dict_has k d = true -> exists v, dict_find k d = Some v.
Proof. unfold dict_has. destruct (dict_find k d); [eauto|discriminate]. Qed.

Lemma parse_due_date_ok v d :
  parse_due_date v = Ok d ->
  exists s, v = VStr s /\ fromisoformat (PyStr.replace_Z s) = Some d.
Proof.
  unfold parse_due_date.
  destruct v; simpl; try discriminate.
  intros H. exists s. split; [reflexivity|].
  destruct (fromisoformat (PyStr.replace_Z s)); simpl in H;
    [now injection H as <-|discriminate].
Qed.

(** X16. What [validate_add_task_input] lets through: a trimmed, non-empty
    title of at most 200 characters, a description that is [None] or
    trimmed text of 1 to 1024 characters, one of the three priorities,
    and a due date that is [None] when the input has none and the parsed
    text of the input otherwise. *)
Theorem add_task_validated_output_within_limits x y :
  validate_add_task_input x = Ok y ->
  exists title description priority due_date,
    y = [("title", VStr title); ("description", description);
         ("priority", VStr priority); ("due_date", due_date)]
    /\ PyStr.strip title = title /\ title <> ""
    /\ (String.length title <= 200)%nat
    /\ (description = VNone
        \/ exists d, description = VStr d /\ PyStr.strip d = d /\ d <> ""
                     /\ (String.length d <= 1024)%nat)
    /\ In priority ["low"; "medium"; "high"]
    /\ ((dict_has "due_date" x = false /\ due_date = VNone)
        \/ exists s d, dict_find "due_date" x = Some (VStr s)
                       /\ fromisoformat (PyStr.replace_Z s) = Some d
                       /\ due_date = VDateTime d).
Proof.
  unfold validate_add_task_input. intros H.
  apply res_bind_ok in H. destruct H as (u0 & _ & H).
  apply res_bind_ok in H. destruct H as (title & Ht & H).
  apply res_bind_ok in H. destruct H as (u1 & Hne & H).
  apply res_bind_ok in H. destruct H as (u2 & Hlen & H).
  apply res_bind_ok in H. destruct H as (description & Hd & H).
  apply res_bind_ok in H. destruct H as (u3 & Hdlen & H).
  apply res_bind_ok in H. destruct H as (u4 & Hp & H).
  apply res_bind_ok in H. destruct H as (due_date & Hdue & H).
  injection H as <-.
  apply py_strip_ok in Ht. destruct Ht as (t & _ & ->).
  apply reject_if_ok in Hne, Hlen, Hdlen, Hp.
  apply negb_false_iff, in_strs_ok in Hp. destruct Hp as (p & Hp & Hin).
  rewrite Hp.
  do 4 eexists. split; [reflexivity|].
  split; [apply StrFacts.strip_idem|]. split; [now apply not_empty|].
  split; [apply Nat.ltb_ge; exact Hlen|].
  split; [|split; [exact Hin|]].
  - destruct (dict_has "description" x); [|injection Hd as <-; now left].
    apply res_bind_ok in Hd. destruct Hd as (d & Hd & Hd').
    injection Hd' as <-.
    apply py_strip_ok in Hd. destruct Hd as (t' & _ & ->).
    unfold str_or_none.
    destruct (PyStr.is_empty (PyStr.strip t')) eqn:E; [now left|].
    right. eexists. split; [reflexivity|].
    split; [apply StrFacts.strip_idem|]. split; [now apply not_empty|].
    simpl in Hdlen. apply Nat.ltb_ge. exact Hdlen.
  - destruct (dict_has "due_date" x) eqn:Hhas.
    + right. apply res_bind_ok in Hdue. destruct Hdue as (d & Hd' & Hdue).
      injection Hdue as <-.
      apply parse_due_date_ok in Hd'. destruct Hd' as (s & Hs & Hiso).
      exists s, d. split; [|split; [exact Hiso|reflexivity]].
      apply dict_has_find in Hhas. destruct Hhas as (v & Hv).
      unfold dict_get in Hs. rewrite Hv in Hs. congruence.
    + left. injection Hdue as <-. split; reflexivity.
Qed.

Lemma checked_int_value v f m1 m2 n :
  checked_int v f m1 m2 = Ok n -> py_int v = Ok n /\ f n = false.
Proof.
  unfold checked_int. destruct (py_int v) as [k|e]; simpl.
  - destruct (f k) eqn:E; simpl; [discriminate|]. intros [= <-]. auto.
  - match goal with
    | |- (if ?c then _ else _) = _ -> _ => destruct c; discriminate
    end.
Qed.

(** X17. What [validate_list_tasks_input] lets through: one of the three
    status words, a limit from 1 to 100 and an offset that is not
    negative, both as integers; a key that the input lacks takes its
    default, [all], 50 and 0. *)
Theorem list_tasks_validated_output_in_range x y :
  validate_list_tasks_input x = Ok y ->
  exists status limit offset,
    y = [("status", VStr status); ("limit", VInt limit);
         ("offset", VInt offset)]
    /\ In status ["pending"; "completed"; "all"]
    /\ (1 <= limit <= 100)%Z /\ (0 <= offset)%Z
    /\ (dict_has "status" x = false -> status = "all")
    /\ (dict_has "limit" x = false -> limit = 50%Z)
    /\ (dict_has "offset" x = false -> offset = 0%Z).
Proof.
  unfold validate_list_tasks_input. intros H.
  apply res_bind_ok in H. destruct H as (u0 & Hst & H).
  apply res_bind_ok in H. destruct H as (limit & Hl & H).
  apply res_bind_ok in H. destruct H as (offset & Ho & H).
  injection H as <-.
  apply reject_if_ok, negb_false_iff, in_strs_ok in Hst.
  destruct Hst as (s & Hs & Hin).
  apply checked_int_value in Hl, Ho.
  destruct Hl as [Hlv Hl]. destruct Ho as [Hov Ho].
  apply orb_false_iff in Hl. destruct Hl as [Hl1 Hl2].
  apply Z.ltb_ge in Hl1, Hl2, Ho.
  rewrite Hs. exists s, limit, offset. split; [reflexivity|].
  split; [exact Hin|]. split; [lia|]. split; [exact Ho|].
  unfold dict_has, dict_get in *.
  split; [|split].
  - destruct (dict_find "status" x); [discriminate|]. congruence.
  - destruct (dict_find "limit" x); [discriminate|]. simpl in Hlv. congruence.
  - destruct (dict_find "offset" x); [discriminate|]. simpl in Hov. congruence.
Qed.


Lemma dict_find_set_same k v (d : pydict) :
  dict_find k (dict_set k v d) = Some v.
Proof.
  induction d as [|[k' v'] r IH]; simpl.
  - now rewrite String.eqb_refl.
  - destruct (String.eqb k k') eqn:E; simpl; rewrite ?String.eqb_refl, ?E; auto.
Qed.

Lemma dict_find_set_other k k' v (d : pydict) :
  k <> k' -> dict_find k' (dict_set k v d) = dict_find k' d.
Proof.
  intros Hne. induction d as [|[k0 v0] r IH]; simpl.
  - destruct (String.eqb k' k) eqn:E; [|reflexivity].
    apply String.eqb_eq in E. congruence.
  - destruct (String.eqb k k0) eqn:E; simpl.
    + apply String.eqb_eq in E. subst k0.
      destruct (String.eqb k' k) eqn:E'; [|reflexivity].
      apply String.eqb_eq in E'. congruence.
    + destruct (String.eqb k' k0); auto.
Qed.

Lemma check_task_id_ok v u :
  check_task_id v = Ok u -> exists s, v = VStr s /\ uuid_ok s = true.
Proof.
  unfold check_task_id.
  destruct v; simpl; try discriminate.
  destruct (uuid_ok s) eqn:E; simpl; [eauto|discriminate].
Qed.

Lemma check_task_id_raises v e :
  check_task_id v = Raise e ->
  e = mkExn ValidationError ("task_id must be valid UUID, got " +++ py_str v).
Proof.
  unfold check_task_id.
  destruct v; simpl; try (intros [= <-]; reflexivity).
  destruct (uuid_ok s); simpl; [discriminate|intros [= <-]; reflexivity].
Qed.

(** X18. The output of [validate_update_task_input] holds [task_id], a UUID
    in text, and, of [title], [description], [priority] and [due_date],
    exactly the keys that the input holds, and no other key. *)
Theorem update_task_output_keeps_given_keys x y :
  validate_update_task_input x = Ok y ->
  (exists s, dict_find "task_id" x = Some (VStr s)
             /\ dict_find "task_id" y = Some (VStr s)
             /\ uuid_ok s = true)
  /\ (forall k, In k ["title"; "description"; "priority"; "due_date"] ->
                dict_has k y = dict_has k x)
  /\ (forall k, dict_has k y = true ->
                In k ["task_id"; "title"; "description"; "priority";
                      "due_date"]).
Proof.
  unfold validate_update_task_input. intros H.
  apply res_bind_ok in H. destruct H as (u0 & Hhas & H).
  apply res_bind_ok in H. destruct H as (u1 & Hid & H).
  apply res_bind_ok in H. destruct H as (r1 & H1 & H).
  apply res_bind_ok in H. destruct H as (r2 & H2 & H).
  apply res_bind_ok in H. destruct H as (r3 & H3 & H).
  apply reject_if_ok, negb_false_iff, dict_has_find in Hhas.
  destruct Hhas as (tid & Htid).
  apply check_task_id_ok in Hid. destruct Hid as (s & Hs & Huuid).
  unfold dict_get in Hs. rewrite Htid in Hs. subst tid.
  assert (S1 : dict_has "title" r1 = dict_has "title" x
               /\ forall k', k' <> "title" ->
                    dict_find k' r1 = dict_find k' [("task_id", VStr s)]).
  { destruct (dict_has "title" x) eqn:Ht.
    - apply res_bind_ok in H1. destruct H1 as (t & _ & H1).
      apply res_bind_ok in H1. destruct H1 as (? & _ & H1).
      apply res_bind_ok in H1. destruct H1 as (? & _ & H1).
      injection H1 as <-. unfold dict_get. rewrite Htid. split; [reflexivity|].
      intros k' Hne. simpl.
      destruct (String.eqb k' "task_id"); [reflexivity|].
      destruct (String.eqb k' "title") eqn:E; [|reflexivity].
      apply String.eqb_eq in E. congruence.
    - injection H1 as <-. unfold dict_get. rewrite Htid. split; reflexivity. }
  assert (S2 : dict_has "description" r2 = dict_has "description" x
               /\ forall k', k' <> "description" ->
                    dict_find k' r2 = dict_find k' r1).
  { destruct (dict_has "description" x) eqn:Ht.
    - apply res_bind_ok in H2. destruct H2 as (t & _ & H2).
      apply res_bind_ok in H2. destruct H2 as (? & _ & H2).
      injection H2 as <-. split.
      + unfold dict_has. now rewrite dict_find_set_same.
      + intros k' Hne. apply dict_find_set_other. congruence.
    - injection H2 as <-. split; [|reflexivity].
      destruct S1 as [_ S1]. unfold dict_has.
      rewrite S1 by discriminate. reflexivity. }
  assert (S3 : dict_has "priority" r3 = dict_has "priority" x
               /\ forall k', k' <> "priority" ->
                    dict_find k' r3 = dict_find k' r2).
  { destruct (dict_has "priority" x) eqn:Ht.
    - apply res_bind_ok in H3. destruct H3 as (? & _ & H3).
      injection H3 as <-. split.
      + unfold dict_has. now rewrite dict_find_set_same.
      + intros k' Hne. apply dict_find_set_other. congruence.
    - injection H3 as <-. split; [|reflexivity].
      destruct S1 as [_ S1]. destruct S2 as [_ S2]. unfold dict_has.
      rewrite S2, S1 by discriminate. reflexivity. }
  assert (S4 : dict_has "due_date" y = dict_has "due_date" x
               /\ forall k', k' <> "due_date" ->
                    dict_find k' y = dict_find k' r3).
  { destruct (dict_has "due_date" x) eqn:Ht.
    - apply res_bind_ok in H. destruct H as (? & _ & H).
      injection H as <-. split.
      + unfold dict_has. now rewrite dict_find_set_same.
      + intros k' Hne. apply dict_find_set_other. congruence.
    - injection H as <-. split; [|reflexivity].
      destruct S1 as [_ S1]. destruct S2 as [_ S2]. destruct S3 as [_ S3].
      unfold dict_has.
      rewrite S3, S2, S1 by discriminate. reflexivity. }
  destruct S1 as [T1 S1]. destruct S2 as [T2 S2].
  destruct S3 as [T3 S3]. destruct S4 as [T4 S4].
  split; [|split].
  - exists s. split; [exact Htid|]. split; [|exact Huuid].
    rewrite S4, S3, S2, S1 by discriminate. reflexivity.
  - intros k [<-|[<-|[<-|[<-|[]]]]].
    + unfold dict_has in *. rewrite S4, S3, S2 by discriminate. exact T1.
    + unfold dict_has in *. rewrite S4, S3 by discriminate. exact T2.
    + unfold dict_has in *. rewrite S4 by discriminate. exact T3.
    + exact T4.
  - intros k Hk.
    destruct (string_dec k "due_date") as [->|N4]; [simpl; tauto|].
    destruct (string_dec k "priority") as [->|N3]; [simpl; tauto|].
    destruct (string_dec k "description") as [->|N2]; [simpl; tauto|].
    destruct (string_dec k "title") as [->|N1]; [simpl; tauto|].
    unfold dict_has in Hk.
    rewrite S4, S3, S2, S1 in Hk by assumption. simpl in Hk.
    destruct (String.eqb k "task_id") eqn:E; [|discriminate].
    apply String.eqb_eq in E. subst k. simpl. tauto.
Qed.

(** X19. The validators of [complete_task] and [delete_task] accept exactly
    the inputs whose [task_id] is the text of a UUID, return that key
    alone, and raise nothing but [ValidationError]. *)
Theorem task_id_validators_raise_only_validation_error x :
  ((exists s, dict_find "task_id" x = Some (VStr s) /\ uuid_ok s = true
              /\ validate_complete_task_input x = Ok [("task_id", VStr s)]
              /\ validate_delete_task_input x = Ok [("task_id", VStr s)])
   \/ ((forall s, dict_find "task_id" x = Some (VStr s) -> uuid_ok s = false)
       /\ exists m1 m2,
            validate_complete_task_input x = Raise (mkExn ValidationError m1)
            /\ validate_delete_task_input x = Raise (mkExn ValidationError m2))).
Proof.
  unfold validate_complete_task_input, validate_delete_task_input,
    dict_has, dict_get.
  destruct (dict_find "task_id" x) as [v|] eqn:Hf; simpl.
  2:{ right. split; [discriminate|]. do 2 eexists. split; reflexivity. }
  destruct (check_task_id v) as [u|e] eqn:Hc; simpl.
  - apply check_task_id_ok in Hc. destruct Hc as (s & -> & Hu).
    left. exists s. repeat split; auto.
  - pose proof (check_task_id_raises _ _ Hc) as ->.
    right. split.
    + intros s [= ->]. revert Hc. unfold check_task_id. simpl.
      destruct (uuid_ok s); [discriminate|reflexivity].
    + do 2 eexists. split; reflexivity.
Qed.

(** X20. A [title] that is not a string, [None] among them, makes
    [validate_add_task_input] raise [AttributeError], not
    [ValidationError]; so does such a [description] under a valid
    title. *)
Theorem add_task_non_string_field_raises_attribute_error x v :
  (forall s, v <> VStr s) ->
  (dict_find "title" x = Some v ->
   validate_add_task_input x = Raise (no_attribute v "strip"))
  /\ (forall t,
        dict_find "title" x = Some (VStr t) ->
        PyStr.strip t <> "" -> (String.length (PyStr.strip t) <= 200)%nat ->
        dict_find "description" x = Some v ->
        validate_add_task_input x = Raise (no_attribute v "strip")).
Proof.
  intros Hv. split.
  - intros Hf. unfold validate_add_task_input, dict_has, dict_get.
    rewrite Hf. simpl.
    destruct v; try reflexivity. exfalso. now apply (Hv s).
  - intros t Hf Hne Hlen Hd.
    unfold validate_add_task_input, dict_has, dict_get.
    rewrite Hf, Hd. simpl.
    destruct (PyStr.strip t) eqn:Es; [congruence|]. simpl.
    apply Nat.ltb_ge in Hlen. simpl in Hlen. rewrite Hlen. simpl.
    destruct v; try reflexivity. exfalso. now apply (Hv s0).
Qed.

End ValidatorContracts.

(** ** Executor and registry *)

Section ExecutorContracts.
Context {T : PyTypes} {R : PyRuntime}.
Import ToolExecutor.

Lemma handler_error_text e :
  handler_exn e ->
  exists rest, error_text e = "Validation error: " +++ rest
               \/ error_text e = "Execution error: " +++ rest.
Proof.
  unfold error_text, handler_exn, is_instance. simpl.
  intros [H|[H|H]]; rewrite H; simpl; eauto.
Qed.

#[local] Hint Resolve raises_ret raises_reject_if raises_args_get
  raises_py_strip raises_check_iso raises_check_task_id raises_utcnow
  raises_uuid4 : raises.

(** A registered tool has a handler, and a handler raises a validation,
    attribute or type error. *)
Lemma raises_registered tool_name args user_id :
  Registry.validate_tool_name tool_name = true ->
  raises_only handler_exn (dispatch tool_name args user_id).
Proof.
  intros Hreg. unfold dispatch.
  destruct (String.eqb tool_name "add_task") eqn:E1;
    [unfold _execute_add_task; raises|].
  destruct (String.eqb tool_name "list_tasks") eqn:E2;
    [unfold _execute_list_tasks; raises|].
  destruct (String.eqb tool_name "complete_task") eqn:E3;
    [unfold _execute_complete_task; raises|].
  destruct (String.eqb tool_name "delete_task") eqn:E4;
    [unfold _execute_delete_task; raises|].
  destruct (String.eqb tool_name "update_task") eqn:E5;
    [unfold _execute_update_task; raises|].
  exfalso. revert Hreg.
  unfold Registry.validate_tool_name, Registry.get_tool_names. simpl.
  rewrite E1, E2, E3, E4, E5. discriminate.
Qed.

(** X21. The registry, the validator table and the executor know the same
    tools: for a registered name there is a validator and [execute]
    reaches a handler (its error, if any, is not [Unknown tool]); for
    any other name there is no validator and [execute] answers
    [Unknown tool: <name>] after logging the call. *)
Theorem registry_validators_and_executor_agree tool_name :
  (Registry.validate_tool_name tool_name = true ->
     (exists v, Validators._VALIDATORS tool_name = Some v)
     /\ forall arguments user_id conversation_id env w,
          dict_get "error" VNone
            match fst (execute tool_name arguments user_id conversation_id
                         env w) with
            | Ok (VDict d) => d
            | _ => []
            end
          <> VStr ("Unknown tool: " +++ tool_name))
  /\ (Registry.validate_tool_name tool_name = false ->
        Validators._VALIDATORS tool_name = None
        /\ (forall x, Validators.validate_tool_input tool_name x
                      = Raise (mkExn KeyError
                                 (PyStr.py_repr
                                    ("Unknown tool: " +++ tool_name))))
        /\ forall arguments user_id conversation_id env w,
             execute tool_name arguments user_id conversation_id env w
             = (Ok (outcome false tool_name VNone
                      (VStr ("Unknown tool: " +++ tool_name))),
                logged (EvExecute tool_name) w)).
Proof.
  split.
  - intros Hreg. split.
    + revert Hreg.
      unfold Registry.validate_tool_name, Registry.get_tool_names,
        Validators._VALIDATORS. simpl.
      repeat match goal with
      | |- context [String.eqb tool_name ?n] =>
          destruct (String.eqb tool_name n); [eauto|]
      end.
      discriminate.
    + intros arguments user_id conversation_id env w.
      rewrite execute_run.
      pose proof (raises_registered tool_name arguments user_id Hreg env
                    (logged (EvExecute tool_name) w)) as Hraise.
      destruct (dispatch tool_name arguments user_id env
                  (logged (EvExecute tool_name) w)) as [[r|e] w1] eqn:E;
        simpl; [discriminate|].
      destruct (handler_error_text e (Hraise e w1 eq_refl))
        as (rest & [-> | ->]); simpl; discriminate.
  - intros Hreg.
    split; [|split].
    + revert Hreg.
      unfold Registry.validate_tool_name, Registry.get_tool_names,
        Validators._VALIDATORS. simpl.
      repeat match goal with
      | |- context [String.eqb tool_name ?n] =>
          destruct (String.eqb tool_name n); [discriminate|]
      end.
      reflexivity.
    + intros x. unfold Validators.validate_tool_input.
      revert Hreg.
      unfold Registry.validate_tool_name, Registry.get_tool_names,
        Validators._VALIDATORS. simpl.
      repeat match goal with
      | |- context [String.eqb tool_name ?n] =>
          destruct (String.eqb tool_name n); [discriminate|]
      end.
      reflexivity.
    + intros arguments user_id conversation_id env w.
      rewrite execute_run, (unknown_tool_dispatch _ _ _ Hreg).
      reflexivity.
Qed.


(** What an input that [validate_add_task_input] accepts looks like. *)
Lemma add_task_accepted_input x y :
  Validators.validate_add_task_input x = Ok y ->
  exists t p,
    dict_find "title" x = Some (VStr t)
    /\ PyStr.is_empty (PyStr.strip t) = false
    /\ (200 <? String.length (PyStr.strip t))%nat = false
    /\ (dict_find "description" x = None
        \/ exists d, dict_find "description" x = Some (VStr d)
                     /\ negb (PyStr.is_empty (PyStr.strip d))
                        && (1024 <? String.length (PyStr.strip d))%nat = false)
    /\ dict_get "priority" (VStr "medium") x = VStr p
    /\ existsb (String.eqb p) ["low"; "medium"; "high"] = true
    /\ (dict_find "due_date" x = None
        \/ exists s d, dict_find "due_date" x = Some (VStr s)
                       /\ fromisoformat (PyStr.replace_Z s) = Some d)
    /\ y = [("title", VStr (PyStr.strip t));
            ("description",
             match dict_find "description" x with
             | Some (VStr d) => Validators.str_or_none (PyStr.strip d)
             | _ => VNone
             end);
            ("priority", VStr p);
            ("due_date",
             match dict_find "due_date" x with
             | Some (VStr s) =>
                 match fromisoformat (PyStr.replace_Z s) with
                 | Some d => VDateTime d
                 | None => VNone
                 end
             | _ => VNone
             end)].
Proof.
  unfold Validators.validate_add_task_input. intros H.
  apply res_bind_ok in H. destruct H as (u0 & Hhas & H).
  apply res_bind_ok in H. destruct H as (title & Ht & H).
  apply res_bind_ok in H. destruct H as (u1 & Hne & H).
  apply res_bind_ok in H. destruct H as (u2 & Hlen & H).
  apply res_bind_ok in H. destruct H as (description & Hd & H).
  apply res_bind_ok in H. destruct H as (u3 & Hdlen & H).
  apply res_bind_ok in H. destruct H as (u4 & Hp & H).
  apply res_bind_ok in H. destruct H as (due_date & Hdue & H).
  injection H as <-.
  apply reject_if_ok, negb_false_iff, dict_has_find in Hhas.
  destruct Hhas as (tv & Htv).
  apply py_strip_ok in Ht. destruct Ht as (t & Ht & ->).
  unfold dict_get in Ht. rewrite Htv in Ht. subst tv.
  apply reject_if_ok in Hne, Hlen, Hdlen, Hp.
  apply negb_false_iff in Hp.
  destruct (in_strs_ok _ _ Hp) as (p & Hpv & _).
  rewrite Hpv in Hp. simpl in Hp.
  exists t, p. split; [exact Htv|]. split; [exact Hne|]. split; [exact Hlen|].
  unfold dict_has in Hd, Hdue.
  assert (Hdesc :
    (dict_find "description" x = None /\ description = None)
    \/ exists d, dict_find "description" x = Some (VStr d)
                 /\ description = Some (PyStr.strip d)).
  { destruct (dict_find "description" x) as [dv|] eqn:Hdv.
    - right. apply res_bind_ok in Hd. destruct Hd as (d & Hd & Hd').
      injection Hd' as <-. apply py_strip_ok in Hd.
      destruct Hd as (d0 & Hd0 & ->). unfold dict_get in Hd0.
      rewrite Hdv in Hd0. subst dv. eauto.
    - left. injection Hd as <-. auto. }
  assert (Hdd :
    (dict_find "due_date" x = None /\ due_date = VNone)
    \/ exists s d, dict_find "due_date" x = Some (VStr s)
                   /\ fromisoformat (PyStr.replace_Z s) = Some d
                   /\ due_date = VDateTime d).
  { destruct (dict_find "due_date" x) as [dv|] eqn:Hdv.
    - right. apply res_bind_ok in Hdue. destruct Hdue as (d & Hd' & Hdue).
      injection Hdue as <-. apply parse_due_date_ok in Hd'.
      destruct Hd' as (s & Hs & Hiso). unfold dict_get in Hs.
      rewrite Hdv in Hs. subst dv. eauto.
    - left. injection Hdue as <-. auto. }
  split.
  { destruct Hdesc as [[Hn _] | (d & Hdf & ->)]; [now left|right].
    exists d. split; [exact Hdf|exact Hdlen]. }
  split; [exact Hpv|]. split; [exact Hp|].
  split.
  { destruct Hdd as [[Hn _] | (s & d & Hsf & Hiso & _)]; [now left|right].
    eauto. }
  rewrite Hpv.
  destruct Hdesc as [[-> ->] | (d & -> & ->)];
    destruct Hdd as [[-> ->] | (s & dd & -> & Hiso & ->)];
    rewrite ?Hiso; reflexivity.
Qed.

(** X22. The two validation layers agree on [add_task]: an input that
    [validate_add_task_input] accepts, its due date holding no [Z], is
    executed with success, and the task returned carries the validated
    title, description and priority. *)
Theorem validated_add_task_is_executed x y user_id conversation_id env w :
  Validators.validate_add_task_input x = Ok y ->
  (forall s, dict_find "due_date" x = Some (VStr s) -> PyStr.replace_Z s = s) ->
  execute "add_task" (VDict x) user_id conversation_id env w
  = (Ok (outcome true "add_task"
           (VDict [ ("id", VStr (uuid4_at env (uuids_drawn w)));
                    ("title", dict_get "title" VNone y);
                    ("description", dict_get "description" VNone y);
                    ("status", VStr "pending");
                    ("priority", dict_get "priority" VNone y);
                    ("due_date", dict_get "due_date" VNone x);
                    ("created_at",
                     VStr (isoformat (utcnow_at env (clock_reads w)))) ])
           VNone),
     mkWorld (committed w) (session w) (S (clock_reads w)) (S (uuids_drawn w))
       (db_trips w) (completions w) (trace w ++ [EvExecute "add_task"])).
Proof.
  intros Hv HZ.
  destruct (add_task_accepted_input x y Hv)
    as (t & p & Ht & Hne & Hlen & Hd & Hp & Hpin & Hdue & ->).
  assert (G1 : dict_get "title" VNone x = VStr t)
    by (unfold dict_get; now rewrite Ht).
  assert (G2 : exists dsrc,
    dict_get "description" (VStr "") x = VStr dsrc
    /\ negb (PyStr.is_empty (PyStr.strip dsrc))
       && (1024 <? String.length (PyStr.strip dsrc))%nat = false
    /\ (if PyStr.is_empty (PyStr.strip dsrc) then VNone
        else VStr (PyStr.strip dsrc))
       = match dict_find "description" x with
         | Some (VStr d) => Validators.str_or_none (PyStr.strip d)
         | _ => VNone
         end).
  { unfold dict_get.
    destruct Hd as [-> | (d & -> & Hdl)].
    - exists "". repeat split.
    - exists d. repeat split. exact Hdl. }
  destruct G2 as (dsrc & G2 & Hdl & Hdout).
  assert (G4 : exists dd,
    dict_get "due_date" VNone x = dd
    /\ (dd = VNone
        \/ exists s d, dd = VStr s /\ fromisoformat s = Some d)).
  { unfold dict_get.
    destruct Hdue as [-> | (s & d & Hsf & Hparse)].
    - exists VNone. split; [reflexivity|now left].
    - rewrite Hsf. rewrite (HZ s Hsf) in Hparse.
      exists (VStr s). split; [reflexivity|]. right. eauto. }
  destruct G4 as (dd & G4 & Hdd).
  rewrite execute_run. unfold dispatch. simpl String.eqb. cbv iota.
  unfold _execute_add_task. cbn [args_get].
  unfold dict_get at 6 7. simpl dict_find.
  rewrite G1, G2, Hp, G4.
  cbv [Eff.bind Eff.ret reject_if Eff.throw Eff.raise Eff.lift py_strip
       logged].
  rewrite Hne, Hlen, Hdl.
  unfold in_strs, priorities. rewrite Hpin. cbn [negb].
  assert (Hiso : forall w0,
            (if truthy dd
             then check_iso dd
                    "due_date must be in ISO format (YYYY-MM-DD or ISO8601)"
             else (fun _ w1 => (Ok tt, w1))) env w0
            = (Ok tt, w0)).
  { intros w0. destruct Hdd as [-> | (s & d & -> & Hparse)]; [reflexivity|].
    destruct (truthy (VStr s)); [|reflexivity].
    unfold check_iso, Eff.lift, py_fromisoformat. rewrite Hparse.
    reflexivity. }
  change ("add_task" =? "add_task") with true. cbv iota beta.
  rewrite Hiso.
  cbv [uuid4 utcnow]. simpl.
  rewrite Hdout. reflexivity.
Qed.


(** X23. The two layers measure an [update_task] title differently: the
    validator trims it and then applies the limit of 200 characters, the
    executor applies the limit to the title as given and returns it
    untrimmed. *)
Theorem update_task_title_limit_by_layer tid t user_id conversation_id env w :
  tid <> "" -> uuid_ok tid = true -> PyStr.strip t <> "" ->
  let x := [("task_id", VStr tid); ("title", VStr t)] in
  Validators.validate_update_task_input x
  = (if (200 <? String.length (PyStr.strip t))%nat
     then Raise (mkExn ValidationError "title must be <= 200 characters")
     else Ok [("task_id", VStr tid); ("title", VStr (PyStr.strip t))])
  /\ fst (execute "update_task" (VDict x) user_id conversation_id env w)
     = Ok (if (200 <? String.length t)%nat
           then outcome false "update_task" VNone
                  (VStr "Validation error: title must be max 200 characters")
           else outcome true "update_task"
                  (VDict [ ("id", VStr tid); ("title", VStr t);
                           ("priority", VStr "medium");
                           ("updated_at",
                            VStr (isoformat (utcnow_at env (clock_reads w)))) ])
                  VNone).
Proof.
  intros Htid Hu Ht x. subst x.
  assert (Hte : PyStr.is_empty (PyStr.strip t) = false)
    by (destruct (PyStr.strip t); [congruence|reflexivity]).
  assert (Htn : PyStr.is_empty t = false).
  { destruct t; [|reflexivity]. exfalso. apply Ht. reflexivity. }
  assert (Hie : PyStr.is_empty tid = false)
    by (destruct tid; [congruence|reflexivity]).
  split.
  - unfold Validators.validate_update_task_input, dict_has, dict_get.
    simpl. unfold Validators.check_task_id. simpl. rewrite Hu. simpl.
    rewrite Hte. simpl.
    destruct (200 <? String.length (PyStr.strip t))%nat; reflexivity.
  - rewrite execute_run. unfold dispatch.
    change ("update_task" =? "add_task") with false.
    change ("update_task" =? "list_tasks") with false.
    change ("update_task" =? "complete_task") with false.
    change ("update_task" =? "delete_task") with false.
    change ("update_task" =? "update_task") with true. cbv iota.
    unfold _execute_update_task. cbn [args_get].
    unfold dict_get. simpl dict_find.
    cbv [Eff.bind Eff.ret reject_if Eff.throw Eff.raise Eff.lift check_task_id
         logged is_none negb truthy py_UUID Res.catch str_len py_or].
    rewrite Hie, Hu, Hte. cbn [negb]. simpl andb.
    destruct (200 <? String.length t)%nat; [reflexivity|].
    cbv [utcnow]. simpl. rewrite Htn. reflexivity.
Qed.

(** X24. [execute] touches nothing but the trace, the clock and the
    identifier counter: whatever the tool and the arguments, the
    database (committed state and open transaction) is as before, no
    round trip to it and no completion call is made, and the trace has
    one more event, the execution. *)
Theorem execute_touches_no_store tool_name arguments user_id conversation_id
    env w :
  let w' := snd (execute tool_name arguments user_id conversation_id env w) in
  committed w' = committed w /\ session w' = session w
  /\ db_trips w' = db_trips w /\ completions w' = completions w
  /\ trace w' = trace w ++ [EvExecute tool_name].
Proof.
  destruct (execute_frame tool_name arguments user_id conversation_id env w)
    as (success & res & error & w1 & E & H).
  cbv zeta. rewrite E. exact H.
Qed.

End ExecutorContracts.

(** ** MCP tool layer and tool processor *)

Section McpFacts.
Context {T : PyTypes} {R : PyRuntime} {D : SqlDriver}.
Import TaskRepository McpExecutors.

Lemma status_filter_never_narrows rows user_id status limit offset :
  select_tasks rows user_id
    (if is_text status "pending" then VBool false
     else if is_text status "completed" then VBool true else VNone)
    limit offset
  = page_of_all rows user_id limit offset.
Proof.
  unfold select_tasks, page_of_all. cbv zeta.
  destruct (is_text status "pending"); [reflexivity|].
  destruct (is_text status "completed"); reflexivity.
Qed.

(** The shape of a validated [list_tasks] input. *)
Lemma list_tasks_validated_shape x y :
  Validators.validate_list_tasks_input x = Ok y ->
  exists status limit offset,
    y = [("status", VStr status); ("limit", VInt limit);
         ("offset", VInt offset)]
    /\ (1 <= limit <= 100)%Z /\ (0 <= offset)%Z.
Proof.
  unfold Validators.validate_list_tasks_input. intros H.
  apply res_bind_ok in H. destruct H as (u0 & Hst & H).
  apply res_bind_ok in H. destruct H as (limit & Hl & H).
  apply res_bind_ok in H. destruct H as (offset & Ho & H).
  injection H as <-.
  apply reject_if_ok, negb_false_iff, in_strs_ok in Hst.
  destruct Hst as (s & Hs & _).
  apply checked_int_value in Hl, Ho.
  destruct Hl as [_ Hl]. destruct Ho as [_ Ho].
  apply orb_false_iff in Hl. destruct Hl as [Hl1 Hl2].
  apply Z.ltb_ge in Hl1, Hl2, Ho.
  rewrite Hs. exists s, limit, offset. split; [reflexivity|]. lia.
Qed.

(** X25. [list_tasks] through the MCP executor never applies the status
    filter: on an input that the validator accepts, whatever status it
    asks for, the answer is the page of all the caller's tasks,
    completed or not, newest first, and of nobody else's. *)
Theorem mcp_list_tasks_ignores_status rows x y user_id env w :
  counts_rows ->
  Validators.validate_list_tasks_input x = Ok y ->
  db_fault env (db_trips w) = None ->
  exists limit offset,
    dict_find "limit" y = Some (VInt limit)
    /\ dict_find "offset" y = Some (VInt offset)
    /\ (1 <= limit <= 100)%Z /\ (0 <= offset)%Z
    /\ fst (execute_list_tasks rows y user_id env w)
       = Ok (VDict
               [ ("tasks",
                  VList (map task_entry
                           (page_of_all rows user_id (Z.to_nat limit)
                              (Z.to_nat offset))));
                 ("count",
                  VInt (Z.of_nat
                          (List.length
                             (page_of_all rows user_id (Z.to_nat limit)
                                (Z.to_nat offset))))) ])
    /\ Forall (fun t => task_user_id t = user_id /\ In t rows)
         (page_of_all rows user_id (Z.to_nat limit) (Z.to_nat offset)).
Proof.
  intros Hd Hv Hf.
  destruct (list_tasks_validated_shape x y Hv)
    as (status & limit & offset & -> & Hl & Ho).
  exists limit, offset.
  split; [reflexivity|]. split; [reflexivity|].
  split; [exact Hl|]. split; [exact Ho|]. split.
  - unfold execute_list_tasks, getitem. simpl dict_find.
    cbv [Eff.bind Eff.ret Eff.lift list_by_user db_trip].
    rewrite (Hd limit) by lia. rewrite (Hd offset) by lia.
    rewrite Hf. cbv zeta. simpl fst.
    pose proof (status_filter_never_narrows rows user_id (VStr status)
                  (Z.to_nat limit) (Z.to_nat offset)) as Hn.
    cbn [is_text] in Hn. rewrite Hn. reflexivity.
  - apply Forall_forall. intros t Ht. unfold page_of_all in Ht.
    apply in_firstn, in_skipn in Ht.
    assert (Hin : forall l,
              In t (order_by_created_at_desc l) -> In t l).
    { induction l as [|a l IH]; simpl; [tauto|].
      assert (Hins : forall l0, In t (insert_by_created_at a l0) ->
                                t = a \/ In t l0).
      { induction l0 as [|b l0 IH0]; simpl.
        - intros [<-|[]]. now left.
        - destruct (task_created_at b <=? task_created_at a)%Z; simpl.
          + intros [<-|[<-|H]]; auto.
          + intros [<-|H]; auto. destruct (IH0 H); auto. }
      intros H. destruct (Hins _ H) as [->|H']; [now left|right; auto]. }
    apply Hin, filter_In in Ht. destruct Ht as [Hr Hu].
    apply String.eqb_eq in Hu. auto.
Qed.

End McpFacts.

Section ServerFacts.
Context {T : PyTypes}.
Import McpServer McpErrorHandler.

Lemma handle_tool_error_shape e tool_name :
  exists error details,
    handle_tool_error e tool_name
    = VDict [("error", VStr error); ("details", VStr details)]
    /\ In error ["ValidationError"; "ToolNotFound"; "InternalError"].
Proof.
  unfold handle_tool_error.
  destruct (is_instance e [ValidationError]);
    [do 2 eexists; split; [reflexivity|simpl; tauto]|].
  destruct (is_instance e [KeyError]);
    [do 2 eexists; split; [reflexivity|simpl; tauto]|].
  destruct (is_instance e [ValueError]);
    do 2 eexists; (split; [reflexivity|simpl; tauto]).
Qed.

(** X26. [server.execute_tool] never raises, whatever the handlers do: it
    answers [{"result": ...}] with what the handler returned, or
    [{"error": ..., "details": ...}], and the latter without calling
    anything when the server is not initialised or the tool has no
    handler. *)
Theorem mcp_execute_tool_always_answers initialized _tool_handlers tool_name
    tool_input user_id env w :
  exists d w',
    execute_tool initialized _tool_handlers tool_name tool_input user_id env w
    = (Ok (VDict d), w')
    /\ ((exists res, d = [("result", res)]
                     /\ exists run, initialized = true
                          /\ _tool_handlers tool_name = Some run
                          /\ run tool_input user_id env w = (Ok res, w'))
        \/ (exists error details,
              d = [("error", VStr error); ("details", VStr details)]))
    /\ (initialized = false \/ _tool_handlers tool_name = None -> w' = w).
Proof.
  unfold execute_tool.
  destruct initialized; cbn [negb].
  2:{ do 2 eexists. split; [reflexivity|]. split; [right; eauto|auto]. }
  destruct (_tool_handlers tool_name) as [run|] eqn:Hh.
  2:{ do 2 eexists. split; [reflexivity|]. split; [right; eauto|auto]. }
  unfold Eff.try_except, Eff.bind.
  destruct (run tool_input user_id env w) as [[res|e] w1] eqn:E.
  - do 2 eexists. split; [reflexivity|]. split.
    + left. eexists. split; [reflexivity|]. exists run. auto.
    + intros [C|C]; discriminate C.
  - destruct (handle_tool_error_shape e tool_name)
      as (error & details & Hshape & _).
    unfold Eff.ret. rewrite Hshape.
    do 2 eexists. split; [reflexivity|]. split; [right; eauto|].
    intros [C|C]; discriminate C.
Qed.

End ServerFacts.

Section ServerListing.
Context {T : PyTypes} {R : PyRuntime} {D : SqlDriver}.
Import McpServer McpErrorHandler McpExecutors.

(** X27. The server hands the raw tool input to the handler, so a
    [list_tasks] call whose input lacks [status] fails inside the
    handler with [KeyError], which the error handler reports as an
    unknown tool named after the missing key. *)
Theorem mcp_missing_status_reported_as_unknown_tool rows _tool_handlers
    tool_input user_id env w :
  _tool_handlers "list_tasks" = Some (execute_list_tasks rows) ->
  dict_find "status" tool_input = None ->
  execute_tool true _tool_handlers "list_tasks" tool_input user_id env w
  = (Ok (VDict [ ("error", VStr "ToolNotFound");
                 ("details", VStr "Unknown tool: status") ]), w).
Proof.
  intros Hh Hs. unfold execute_tool. cbn [negb]. rewrite Hh.
  unfold Eff.try_except, Eff.bind at 1, execute_list_tasks.
  unfold Eff.bind at 1, getitem at 1. rewrite Hs.
  reflexivity.
Qed.

End ServerListing.

Section ProcessorFacts.
Context {T : PyTypes}.
Import ToolProcessor.

Lemma last_n_absorbs {A} n (l rest : list A) :
  last_n n (last_n n l ++ rest) = last_n n (l ++ rest).
Proof.
  unfold last_n.
  rewrite !skipn_app, skipn_skipn, !length_app, !length_skipn.
  f_equal; f_equal; lia.
Qed.

Lemma record_execution_last_n history (r : ToolExecutionResult) :
  record_execution history r = last_n max_history (history ++ [r]).
Proof.
  unfold record_execution.
  destruct (max_history <? List.length (history ++ [r]))%nat eqn:E;
    [reflexivity|].
  apply Nat.ltb_ge in E. unfold last_n.
  replace (List.length (history ++ [r]) - max_history)%nat with 0%nat by lia.
  reflexivity.
Qed.

Lemma fold_record_execution results :
  forall history,
    fold_left record_execution results (last_n max_history history)
    = last_n max_history (history ++ results).
Proof.
  induction results as [|r rest IH]; intros history; simpl.
  - now rewrite app_nil_r.
  - rewrite record_execution_last_n, last_n_absorbs, IH, <- app_assoc.
    reflexivity.
Qed.

(** X28. The execution history holds the results recorded, oldest first,
    and never more than the last 100 of them. *)
Theorem execution_history_keeps_last_hundred
    (results : list ToolExecutionResult) :
  fold_left record_execution results [] = last_n max_history results
  /\ (List.length (fold_left record_execution results []) <= max_history)%nat
  /\ (forall r, In r (fold_left record_execution results []) -> In r results).
Proof.
  pose proof (fold_record_execution results []) as G.
  change (last_n max_history []) with (@nil ToolExecutionResult) in G.
  rewrite G. simpl.
  split; [reflexivity|]. split.
  - unfold last_n. rewrite length_skipn. lia.
  - intros r. unfold last_n. apply in_skipn.
Qed.

End ProcessorFacts.

(* ===================================================================== *)
(** * The statements on concrete runs *)
(* ===================================================================== *)

Section Runs.
Import Sample Scenario.

(** The bounded loop on the eager agent: three completion calls. *)
Lemma eager_run_bounded :
  exists made w',
    eager_run = (Ok (Some (mkAgentResponse true "working" None, Some made)), w')
    /\ completions w' = 3%nat.
Proof.
  destruct (@orchestration_loop_bounded types runtime eager_agent [] alice
              conv1 env0 (world_of db0))
    as (n1 & n2 & n3 & h3 & last & calls & w3 & made & w' & Hlast & _ & _
        & Hrun & Hk & _).
  - intros n msgs. do 3 eexists. reflexivity.
  - exists made, w'. split; [|exact Hk].
    unfold eager_run. rewrite <- (Nat.add_0_r ChatService.invoke_fuel).
    rewrite (Hrun 0%nat). injection Hlast as <-. reflexivity.
Defined.

(** C1 (the code at the failing input).  The eager agent requests
    [add_task] in each of its three responses, as [call_1], [call_2] and
    [call_3].  The invocation stops after three completion calls, one
    execution in each round, and answers with the text of the third
    response; of the three executions, the list it returns holds the
    record of one, [call_3] (followed by the record of the refused
    [tool] message of the same call): [call_1] and [call_2] are not
    reported. *)
Theorem loop_reports_only_last_round :
  exists made,
    fst eager_run = Ok (Some (mkAgentResponse true "working" None, Some made))
    /\ trace (snd eager_run)
       = [EvCompletion; EvExecute "add_task";
          EvCompletion; EvExecute "add_task";
          EvCompletion; EvExecute "add_task"]
    /\ executions (trace (snd eager_run)) = 3%nat
    /\ map record_id made = ["call_3"; "call_3"]
    /\ map is_failed made = [false; true]
    /\ executed_records made = 1%nat.
Proof. vm_compute. eexists. repeat split. Qed.

(** The theorem of C2 on scenario B. *)
Lemma tool_turn_witness :
  exists new u a count w',
    milk_turn
    = (Ok (Some (mkChatResult true None (Text "Added!") conv1 (Some [])
                   (Some count))), w')
    /\ messages (committed w') = [] ++ new
    /\ filter (fun m => negb (is_tool_message m)) new = [u; a]
    /\ msg_role u = "user" /\ msg_content u = "Add milk"
    /\ msg_role a = "assistant" /\ msg_content a = "Added!"
    /\ msg_tool_calls a = VNone
    /\ completions w' = (0 + 2)%nat.
Proof.
  apply (@tool_turn_persists_user_and_final_assistant types runtime conv1
           alice "Add milk" milk_env (world_of db0) conversation1 "call_1"
           milk None "Added!").
  - reflexivity.
  - constructor; [simpl; tauto|constructor].
  - reflexivity.
  - intros n. reflexivity.
  - eexists. split; [reflexivity|]. intros u c k msgs. split; reflexivity.
Defined.

(** C2 as stated fails: scenario B commits two messages, the user's and
    the final assistant's, not four, although the tool was executed. *)
Lemma tool_turn_persists_two_messages :
  map msg_role (messages (committed (snd milk_turn))) = ["user"; "assistant"]
  /\ map msg_content (messages (committed (snd milk_turn)))
     = ["Add milk"; "Added!"]
  /\ trace (snd milk_turn) = [EvCompletion; EvExecute "add_task"; EvCompletion]
  /\ List.length (messages (committed (snd milk_turn))) <> 4%nat.
Proof. vm_compute. repeat split. discriminate. Qed.

(** The theorem of C3 on the sample conversation: [user] is accepted,
    [tool] is refused. *)
Lemma append_message_roles_witness :
  (exists w',
     ConversationService.append_message conv1 alice "user" "hello" VNone None
       env0 (world_of db0)
     = (Ok (mkMessage "id-0" conv1 alice "user" "hello" VNone None 100), w'))
  /\ tool_append
     = (Raise (mkExn ValueError
                 "Invalid role 'tool' - must be 'user' or 'assistant'"),
        world_of db0).
Proof.
  split.
  - destruct (proj1 (@append_message_roles types conv1 alice "user" "hello"
                       VNone None env0 (world_of db0))
                (or_introl eq_refl) conversation1
                eq_refl eq_refl eq_refl eq_refl eq_refl) as (w' & Hrun & _).
    exists w'. exact Hrun.
  - apply (proj2 (@append_message_roles types conv1 alice "tool"
                    "Tool 'add_task' result: done" VNone None env0
                    (world_of db0))); discriminate.
Defined.

(** C3 as stated fails: on a conversation that [alice] owns, with no
    database fault, the role [tool] is refused and nothing is stored. *)
Lemma append_message_rejects_tool_role :
  owned_rows db0 conv1 alice = [conversation1]
  /\ Res.is_ok (fst tool_append) = false
  /\ messages (committed (snd tool_append)) = [].
Proof. vm_compute. repeat split. Qed.

(** The theorem of C4 on the sample conversation, looked up by [bob]. *)
Lemma non_owner_lookup_witness :
  ConversationRepository.get_by_id conv1 bob env0 (world_of db0)
  = ConversationRepository.get_by_id "no-such-id" bob env0 (world_of db0)
  /\ fst (ConversationService.get_recent_messages conv1 bob 50 env0
            (world_of db3)) = Ok [].
Proof.
  split.
  - apply (@non_owner_lookup_indistinguishable types env0 (world_of db0)
             conversation1 conv1 bob "no-such-id" 50).
    + constructor; [simpl; tauto|constructor].
    + left. reflexivity.
    + reflexivity.
    + discriminate.
    + intros x [<-|[]]. discriminate.
  - apply (@non_owner_lookup_indistinguishable types env0 (world_of db3)
             conversation1 conv1 bob "no-such-id" 50).
    + constructor; [simpl; tauto|constructor].
    + left. reflexivity.
    + reflexivity.
    + discriminate.
    + intros x [<-|[]]. discriminate.
Defined.

(** The theorem of C6 on a call of the unregistered tool
    [frobnicate]. *)
Lemma unknown_tool_witness :
  @ChatService.tool_loop types runtime 0 [stray_call; numbered_call 0] alice
    conv1 [] env0 (world_of db0)
  = @ChatService.tool_loop types runtime 1 [numbered_call 0] alice conv1 []
      env0 (world_of db0).
Proof.
  apply (proj1 (@unknown_tool_skipped_unrecorded types runtime stray_call
                  eq_refl)).
  unfold ChatService.MAX_TOOL_CALLS_PER_TURN. lia.
Defined.

(** C6 as stated fails: three rounds that each request the unregistered
    tool report an empty list of tool calls, with no failed record in
    it, and execute nothing. *)
Lemma unknown_tool_leaves_no_record :
  fst stray_run = Ok (Some (mkAgentResponse true "" None, Some []))
  /\ trace (snd stray_run) = [EvCompletion; EvCompletion; EvCompletion].
Proof. vm_compute. split; reflexivity. Qed.

(** The theorem of C7 on a title of 201 and a description of 1025
    characters. *)
Lemma add_task_rejects_overlong_witness :
  @Validators.validate_add_task_input types runtime
    [("title", VStr long_title)]
  = Raise (mkExn ValidationError "title must be <= 200 characters")
  /\ @Validators.validate_add_task_input types runtime
       [("title", VStr "Buy milk"); ("description", VStr long_description)]
     = Raise (mkExn ValidationError "description must be <= 1024 characters").
Proof.
  split.
  - apply (proj1 (@add_task_rejects_overlong types runtime
                    [("title", VStr long_title)]) long_title).
    + reflexivity.
    + apply Nat.ltb_lt. vm_compute. reflexivity.
  - assert (Hlen : (1024 < String.length (PyStr.strip long_description))%nat)
      by (apply Nat.ltb_lt; vm_compute; reflexivity).
    assert (Hle : (String.length (PyStr.strip "Buy milk") <= 200)%nat)
      by (apply Nat.leb_le; vm_compute; reflexivity).
    destruct (proj2 (@add_task_rejects_overlong types runtime
                       [("title", VStr "Buy milk");
                        ("description", VStr long_description)])
                long_description eq_refl Hlen) as (_ & _ & Hspec).
    destruct (Hspec "Buy milk" eq_refl eq_refl Hle) as [Hv _]. exact Hv.
Defined.

(** The theorem of C8 on an append without fault: the message is
    returned, and it and the new [updated_at] are committed. *)
Lemma append_message_atomic_witness :
  let run := ConversationService.append_message conv1 alice "user" "hello"
               VNone None env0 (world_of db0) in
  let m := mkMessage "id-0" conv1 alice "user" "hello" (@VNone types) None
             100 in
  fst run = Ok m
  /\ committed (snd run) = appended db0 conversation1 m 101
  /\ session (snd run) = committed (snd run).
Proof.
  intros run m.
  destruct (@append_message_atomic types conv1 alice "user" "hello" VNone None
              env0 (world_of db0) (fst run) (snd run) eq_refl eq_refl)
    as (Hs & Hcommit & _).
  destruct (Hcommit conversation1 eq_refl eq_refl eq_refl eq_refl)
    as (Hc & Hok & _).
  split; [exact (Hok eq_refl)|]. split; [exact Hc|exact Hs].
Defined.

(** C8 as stated fails: when the refresh that follows the commit fails,
    the call raises, yet the message is stored and [updated_at] has
    moved from 0 to 101. *)
Lemma refresh_failure_after_commit :
  Res.is_ok (fst faulty_append) = false
  /\ map msg_content (messages (committed (snd faulty_append))) = ["hello"]
  /\ map conv_updated_at (conversations (committed (snd faulty_append)))
     = [101%Z]
  /\ map conv_updated_at (conversations db0) = [0%Z].
Proof. vm_compute. repeat split. Qed.

(** The theorem of C9 on a [list_tasks] input. *)
Lemma revalidation_witness :
  validate "list_tasks"
    [("status", VStr "all"); ("limit", VInt 5); ("offset", VInt 0)]
  = Ok [("status", VStr "all"); ("limit", VInt 5); ("offset", VInt 0)].
Proof.
  apply (proj1 (@revalidation_of_validated_input types runtime "list_tasks"
                  [("limit", VInt 5)]
                  [("status", VStr "all"); ("limit", VInt 5);
                   ("offset", VInt 0)]
                  eq_refl)).
  reflexivity.
Defined.

(** C9 as stated fails: the validated form of [{"title": "Buy milk"}]
    is refused when it is validated again. *)
Lemma validation_not_idempotent :
  exists y,
    validate "add_task" [("title", VStr "Buy milk")] = Ok y
    /\ y = [("title", VStr "Buy milk"); ("description", VNone);
            ("priority", VStr "medium"); ("due_date", VNone)]
    /\ validate "add_task" y
       = Raise (mkExn AttributeError
                  "'NoneType' object has no attribute 'strip'")
    /\ validate "add_task" y <> Ok y.
Proof.
  eexists. split; [reflexivity|]. split; [reflexivity|].
  split; [reflexivity|]. discriminate.
Qed.

End Runs.

(* ===================================================================== *)
(** * Further properties on concrete runs *)
(* ===================================================================== *)

Section FurtherRuns.
Import Sample Scenario.

(** X1 on a fresh store: the conversation is committed as [id-0]. *)
Lemma create_conversation_commits :
  let run := @ConversationService.create_conversation types alice
               (Some "Plans") env0 (world_of db0) in
  fst run = Ok "id-0"
  /\ committed (snd run)
     = mkDB [conversation1; mkConversation "id-0" alice "Plans" 100 101] []
  /\ session (snd run) = committed (snd run).
Proof.
  intros run.
  destruct (@create_conversation_all_or_nothing types alice (Some "Plans")
              env0 (world_of db0) (fst run) (snd run) eq_refl eq_refl)
    as (Hs & Hok & _).
  destruct (Hok eq_refl eq_refl) as [Hr Hc].
  split; [exact Hr|]. split; [exact Hc|exact Hs].
Defined.

(** X2 on a fresh store: [alice] finds the conversation she created,
    [bob] does not. *)
Lemma created_conversation_lookup :
  let run := @ConversationService.create_conversation types alice None env0
               (world_of db0) in
  (exists c,
     fst (ConversationService.get_conversation "id-0" alice env0 (snd run))
     = Ok (Some c)
     /\ conv_id c = "id-0" /\ conv_user_id c = alice
     /\ conv_title c = "New Conversation" /\ conv_title c <> "")
  /\ fst (ConversationService.get_conversation "id-0" bob env0 (snd run))
     = Ok None.
Proof.
  intros run.
  destruct (@created_conversation_is_found types alice None env0
              (world_of db0) "id-0" (snd run) eq_refl eq_refl)
    as [Hown Hnot].
  - intros x [<-|[]]. discriminate.
  - reflexivity.
  - split; [exact Hown|]. apply Hnot. discriminate.
Defined.

(** X3 on the three conversations: [alice] gets her two, the later
    one first. *)
Lemma list_by_user_page :
  let run := @ConversationRepository.list_by_user types alice 10 0 env0
               (world_of plans_db) in
  fst run = Ok [plans; conversation1]
  /\ Forall (fun c => conv_user_id c = alice
                      /\ In c (conversations plans_db)) [plans; conversation1]
  /\ StronglySorted newer_or_same [plans; conversation1]
  /\ session (snd run) = plans_db.
Proof.
  intros run.
  destruct (@list_by_user_owned_newest_first types alice 10 0 env0
              (world_of plans_db) [plans; conversation1] (snd run) eq_refl)
    as (Hall & Hsorted & _ & _ & _ & Hs).
  split; [reflexivity|]. split; [exact Hall|]. split; [exact Hsorted|exact Hs].
Defined.

(** X4 on the three conversations: a message to the older conversation
    of [alice] brings it to the head of her listing. *)
Lemma appended_conversation_listing :
  exists m w1 rest w2,
    @ConversationService.append_message types conv1 alice "user" "hello" VNone
      None env0 (world_of plans_db) = (Ok m, w1)
    /\ ConversationRepository.list_by_user alice 10 0 env0 w1
       = (Ok (ConversationService.touch conversation1 101 :: rest), w2).
Proof.
  apply (@appended_conversation_is_listed_first types conv1 alice "user"
           "hello" VNone None env0 (world_of plans_db) conversation1 10).
  - left. reflexivity.
  - reflexivity.
  - repeat constructor; simpl; intuition discriminate.
  - reflexivity.
  - intros n. reflexivity.
  - intros x [<-|[<-|[<-|[]]]] Hu Hid; simpl in *;
      try discriminate; try congruence; lia.
  - lia.
Defined.

(** X5 on the three conversations: [alice] renames her conversation,
    [bob] cannot. *)
Lemma update_conversation_title_runs :
  let mine := @ConversationService.update_conversation_title types "c2" alice
                "Holiday" env0 (world_of plans_db) in
  let foreign := @ConversationService.update_conversation_title types "c2" bob
                   "Holiday" env0 (world_of plans_db) in
  (fst mine = Ok (Some (mkConversation "c2" alice "Holiday" 5 9))
   /\ committed (snd mine) = renamed plans_db plans "Holiday")
  /\ committed (snd foreign) = plans_db.
Proof.
  intros mine foreign. split.
  - destruct (@update_conversation_title_spec types "c2" alice "Holiday" env0
                (world_of plans_db) (fst mine) (snd mine) eq_refl eq_refl)
      as (_ & Hown & _).
    exact (Hown plans eq_refl eq_refl eq_refl eq_refl).
  - destruct (@update_conversation_title_spec types "c2" bob "Holiday" env0
                (world_of plans_db) (fst foreign) (snd foreign) eq_refl
                eq_refl)
      as (_ & _ & Hnone & _).
    exact (proj1 (Hnone eq_refl)).
Defined.

(** X6 on the three conversations: deleting [c2] as [alice] takes the
    conversation and its message out of the transaction, and leaves the
    committed store. *)
Lemma delete_conversation_runs :
  let run := @ConversationRepository.delete types "c2" alice env0
               (world_of plans_db) in
  fst run = Ok true
  /\ session (snd run) = mkDB [conversation1; other] [message_at 1 "first"]
  /\ committed (snd run) = plans_db.
Proof.
  intros run.
  destruct (@delete_cascades_for_owner_only types "c2" alice env0
              (world_of plans_db) (fst run) (snd run) eq_refl)
    as (Hc & Hown & _).
  destruct (Hown plans eq_refl eq_refl eq_refl) as (Hr & Hs & _).
  split; [exact Hr|]. split; [exact Hs|exact Hc].
Defined.

(** The chat service's [create_conversation] on a fresh store. *)
Lemma chat_create_conversation_answers :
  exists d w',
    @ChatService.create_conversation types alice (Some "Plans") env0
      (world_of db0) = (Ok (VDict d), w')
    /\ ((dict_find "success" d = Some (VBool true)
         /\ dict_find "title" d = Some (VStr "Plans")
         /\ exists c,
              dict_find "conversation_id" d = Some (VStr (conv_id c))
              /\ conv_user_id c = alice
              /\ conv_title c = "Plans"
              /\ committed w' = mkDB ([conversation1] ++ [c]) [])
        \/ (dict_find "success" d = Some (VBool false)
            /\ dict_has "error" d = true
            /\ committed w' = db0)).
Proof.
  apply (@chat_create_conversation_total types alice (Some "Plans")
           env0 (world_of db0)).
  reflexivity.
Defined.

(** [bob] writes to the conversation of [alice]. *)
Lemma foreign_turn_refused :
  @ChatService.process_chat_message types runtime conv1 bob "hello" text_env
    (world_of db0)
  = (Ok (Some (mkChatResult false (Some "conversation_not_found")
           (Text "I couldn't find that conversation. Please check the ID and try again.")
           conv1 None None)),
     mkWorld db0 db0 0 0 1 0 []).
Proof.
  apply (@chat_refuses_foreign_conversation types runtime conv1 bob "hello"
           text_env (world_of db0) conversation1).
  - repeat constructor; simpl; intuition discriminate.
  - left. reflexivity.
  - reflexivity.
  - discriminate.
  - reflexivity.
Defined.



(** A full [add_task] input, padded with spaces. *)
Lemma add_task_validated_sample :
  exists title description priority due_date,
    [("title", VStr "Buy milk"); ("description", VStr "2 litres");
     ("priority", VStr "high"); ("due_date", @VDateTime types "2026-01-31")]
    = [("title", VStr title); ("description", description);
       ("priority", VStr priority); ("due_date", due_date)]
    /\ @PyStr.strip title = title /\ title <> ""
    /\ (String.length title <= 200)%nat
    /\ (description = VNone
        \/ exists d, description = VStr d /\ PyStr.strip d = d /\ d <> ""
                     /\ (String.length d <= 1024)%nat)
    /\ In priority ["low"; "medium"; "high"]
    /\ ((dict_has "due_date"
           [("title", @VStr types "  Buy milk "); ("description", VStr " 2 litres");
            ("priority", VStr "high"); ("due_date", VStr "2026-01-31")]
         = false /\ due_date = VNone)
        \/ exists s d,
             dict_find "due_date"
               [("title", @VStr types "  Buy milk ");
                ("description", VStr " 2 litres");
                ("priority", VStr "high"); ("due_date", VStr "2026-01-31")]
             = Some (VStr s)
             /\ @fromisoformat types runtime (PyStr.replace_Z s) = Some d
             /\ due_date = VDateTime d).
Proof.
  apply (@add_task_validated_output_within_limits types runtime).
  reflexivity.
Defined.

(** A [list_tasks] input with a status and a limit, and no offset. *)
Lemma list_tasks_validated_sample :
  let x := [("status", @VStr types "pending"); ("limit", VInt 10)] in
  exists status limit offset,
    [("status", @VStr types "pending"); ("limit", VInt 10); ("offset", VInt 0)]
    = [("status", VStr status); ("limit", VInt limit); ("offset", VInt offset)]
    /\ In status ["pending"; "completed"; "all"]
    /\ (1 <= limit <= 100)%Z /\ (0 <= offset)%Z
    /\ (dict_has "status" x = false -> status = "all")
    /\ (dict_has "limit" x = false -> limit = 50%Z)
    /\ (dict_has "offset" x = false -> offset = 0%Z).
Proof.
  intros x.
  apply (@list_tasks_validated_output_in_range types runtime x).
  reflexivity.
Defined.

(** An [update_task] input with a title and a priority. *)
Lemma update_task_validated_sample :
  let x := [("task_id", @VStr types some_uuid); ("title", VStr " New ");
            ("priority", VStr "low")] in
  let y := [("task_id", @VStr types some_uuid); ("title", VStr "New");
            ("priority", VStr "low")] in
  (exists s, dict_find "task_id" x = Some (VStr s)
             /\ dict_find "task_id" y = Some (VStr s)
             /\ @uuid_ok types runtime s = true)
  /\ (forall k, In k ["title"; "description"; "priority"; "due_date"] ->
                dict_has k y = dict_has k x)
  /\ (forall k, dict_has k y = true ->
                In k ["task_id"; "title"; "description"; "priority";
                      "due_date"]).
Proof.
  intros x y.
  apply (@update_task_output_keeps_given_keys types runtime x y).
  reflexivity.
Defined.

(** [add_task] with the title [None]. *)
Lemma add_task_none_title_raises :
  @Validators.validate_add_task_input types runtime [("title", VNone)]
  = Raise (no_attribute (@VNone types) "strip").
Proof.
  apply (@add_task_non_string_field_raises_attribute_error types runtime
           [("title", VNone)] VNone).
  - discriminate.
  - reflexivity.
Defined.

(** The padded [add_task] input, validated and executed. *)
Lemma validated_add_task_run :
  let x := [("title", @VStr types "  Buy milk ");
            ("description", VStr " 2 litres");
            ("priority", VStr "high"); ("due_date", VStr "2026-01-31")] in
  @ToolExecutor.execute types runtime "add_task" (VDict x) alice conv1 env0
    (world_of db0)
  = (Ok (ToolExecutor.outcome true "add_task"
           (VDict [ ("id", VStr "id-0"); ("title", VStr "Buy milk");
                    ("description", VStr "2 litres");
                    ("status", VStr "pending"); ("priority", VStr "high");
                    ("due_date", VStr "2026-01-31");
                    ("created_at", VStr "2026-01-01T00:00:00") ])
           VNone),
     mkWorld db0 db0 1 1 0 0 [EvExecute "add_task"]).
Proof.
  intros x.
  apply (@validated_add_task_is_executed types runtime x
           [("title", VStr "Buy milk"); ("description", VStr "2 litres");
            ("priority", VStr "high");
            ("due_date", @VDateTime types "2026-01-31")]
           alice conv1 env0 (world_of db0)).
  - reflexivity.
  - intros s Hs. injection Hs as <-. reflexivity.
Defined.

(** A title of 199 letters and two spaces: the validator accepts it,
    trimmed; the executor refuses it. *)
Lemma padded_title_by_layer :
  let x := [("task_id", @VStr types some_uuid); ("title", VStr padded_title)] in
  @Validators.validate_update_task_input types runtime x
  = Ok [("task_id", VStr some_uuid);
        ("title", VStr (PyStr.repeat_char "x" 199))]
  /\ fst (@ToolExecutor.execute types runtime "update_task" (VDict x) alice
            conv1 env0 (world_of db0))
     = Ok (ToolExecutor.outcome false "update_task" VNone
             (VStr "Validation error: title must be max 200 characters")).
Proof.
  intros x.
  apply (@update_task_title_limit_by_layer types runtime some_uuid
           padded_title alice conv1 env0 (world_of db0)).
  - discriminate.
  - reflexivity.
  - vm_compute. discriminate.
Defined.

Lemma driver_counts_rows : @counts_rows types driver.
Proof.
  intros z Hz. simpl. destruct (0 <=? z)%Z eqn:Hle; [reflexivity|lia].
Qed.

(** [alice] asks for her completed tasks and gets both of her tasks,
    the pending one too. *)
Lemma completed_filter_ignored :
  fst (@McpExecutors.execute_list_tasks types runtime driver tasks3
         [("status", VStr "completed"); ("limit", VInt 50); ("offset", VInt 0)]
         alice env0 (world_of db0))
  = Ok (VDict
          [ ("tasks",
             VList (map (@McpExecutors.task_entry types runtime)
                      [task_at 2 "t2" alice true; task_at 1 "t1" alice false]));
            ("count", VInt 2) ]).
Proof.
  destruct (@mcp_list_tasks_ignores_status types runtime driver tasks3
              [("status", VStr "completed")]
              [("status", VStr "completed"); ("limit", VInt 50);
               ("offset", VInt 0)]
              alice env0 (world_of db0) driver_counts_rows eq_refl eq_refl)
    as (limit & offset & Hl & Ho & _ & _ & Hrun & _).
  injection Hl as <-. injection Ho as <-. exact Hrun.
Defined.

(** A [list_tasks] call with a limit and no status. *)
Lemma missing_status_answer :
  let handlers := fun name : string =>
    if String.eqb name "list_tasks"
    then Some (@McpExecutors.execute_list_tasks types runtime driver tasks3)
    else None in
  @McpServer.execute_tool types true handlers "list_tasks"
    [("limit", VInt 10)] alice env0 (world_of db0)
  = (Ok (VDict [ ("error", VStr "ToolNotFound");
                 ("details", VStr "Unknown tool: status") ]), world_of db0).
Proof.
  intros handlers.
  apply (@mcp_missing_status_reported_as_unknown_tool types runtime driver
           tasks3 handlers [("limit", VInt 10)] alice env0 (world_of db0)).
  - reflexivity.
  - reflexivity.
Defined.
End FurtherRuns.
